(** * RSUD Dolopo registration front end: the data-access layer

    A shallow embedding of the module of [services/] that exports [api]
    (the [api] object, the [trySupabase] wrapper and the local-storage
    helpers [getMockData] and [setMockData]) and of
    [services/supabaseClient.ts] (the [isSupabaseEnabled] flag), with the
    properties the specification states about them.

    Conventions of the embedding.
    - JavaScript values are the trees of [value]; numbers are integers (the
      identities, timestamps, costs, prices and bed counts the code stores);
      strings are sequences of 8-bit code units.
    - Objects are association lists in property insertion order;
      integer-like keys are not moved to the front.
    - A computation that may throw returns an [outcome]; a computation that
      also reads or writes a store is a function from the store to an
      [outcome] and the store afterwards.  Promises are run to completion:
      one call is one sequential computation.
    - [localStorage.setItem] throws when the browser does not take the text
      (the quota of the origin is exceeded, or storage is disabled for the
      site); which texts it takes is part of the local store.
    - [console.error] and [console.warn] have no effect on any value the
      code returns or stores and are left out. *)

From Stdlib Require Import ZArith QArith Qround String Ascii List Bool Lia.
From Stdlib Require Import DecimalString DecimalFacts DecimalPos DecimalN DecimalZ.
From stdpp Require Import base option list gmap strings.

Local Open Scope Z_scope.
Local Open Scope string_scope.
Local Open Scope list_scope.

(** ** JavaScript values *)

Unset Elimination Schemes.
Inductive value : Type :=
| VUndefined
| VNull
| VBool (b : bool)
| VNum (n : Z)
| VStr (s : string)
| VArr (elems : list value)
| VObj (props : list (string * value)).
Set Elimination Schemes.

Section value_induction.
Variable P : value -> Prop.
Hypothesis Hundef : P VUndefined.
Hypothesis Hnull : P VNull.
Hypothesis Hbool : forall b, P (VBool b).
Hypothesis Hnum : forall n, P (VNum n).
Hypothesis Hstr : forall s, P (VStr s).
Hypothesis Harr : forall l, Forall P l -> P (VArr l).
Hypothesis Hobj : forall ps, Forall (fun kv => P (snd kv)) ps -> P (VObj ps).

Fixpoint value_ind (v : value) : P v :=
  match v with
  | VUndefined => Hundef
  | VNull => Hnull
  | VBool b => Hbool b
  | VNum n => Hnum n
  | VStr s => Hstr s
  | VArr l =>
      Harr l ((fix elems (l : list value) : Forall P l :=
                 match l with
                 | [] => List.Forall_nil P
                 | x :: l' => @List.Forall_cons _ P x l' (value_ind x) (elems l')
                 end) l)
  | VObj ps =>
      Hobj ps ((fix members (ps : list (string * value))
                  : Forall (fun kv => P (snd kv)) ps :=
                  match ps with
                  | [] => List.Forall_nil _
                  | kv :: ps' =>
                      @List.Forall_cons _ _ kv ps' (value_ind (snd kv)) (members ps')
                  end) ps)
  end.
End value_induction.

(** ** Exceptions *)

Inductive exn : Type :=
| TypeError
| SyntaxError
| QuotaExceededError
| Error (message : string).

Inductive outcome (A : Type) : Type :=
| Ret (a : A)
| Throw (e : exn).
Arguments Ret {A} a.
Arguments Throw {A} e.

Definition obind {A B} (m : outcome A) (k : A -> outcome B) : outcome B :=
  match m with
  | Ret a => k a
  | Throw e => Throw e
  end.

Declare Scope js_scope.
Delimit Scope js_scope with js.
Notation "'let*' x ':=' m 'in' k" := (obind m (fun x => k))
  (at level 10, x name, m at level 100, k at level 200) : js_scope.
Local Open Scope js_scope.

(** ** Operators of the language the code uses *)

(** [!!v] *)
Definition truthy (v : value) : bool :=
  match v with
  | VUndefined | VNull => false
  | VBool b => b
  | VNum n => negb (Z.eqb n 0)
  | VStr s => negb (String.eqb s "")
  | VArr _ | VObj _ => true
  end.

(** [a || b] and [a && b] on values. *)
Definition js_or (a b : value) : value := if truthy a then a else b.
Definition js_and (a b : value) : value := if truthy a then b else a.

(** [a === b] where one side is a primitive; an array or an object is a
    reference and is equal to no primitive. *)
Definition strict_eq (a b : value) : bool :=
  match a, b with
  | VUndefined, VUndefined => true
  | VNull, VNull => true
  | VBool x, VBool y => Bool.eqb x y
  | VNum x, VNum y => Z.eqb x y
  | VStr x, VStr y => String.eqb x y
  | _, _ => false
  end.

Definition nullish (v : value) : bool :=
  match v with
  | VUndefined | VNull => true
  | _ => false
  end.

(** The key of the array index [i]. *)
Definition index_key (i : nat) : string :=
  NilEmpty.string_of_uint (Nat.to_uint i).

Fixpoint indexed {A} (i : nat) (l : list A) : list (string * A) :=
  match l with
  | [] => []
  | x :: l' => (index_key i, x) :: indexed (S i) l'
  end.

Fixpoint chars (s : string) : list value :=
  match s with
  | EmptyString => []
  | String c s' => VStr (String c EmptyString) :: chars s'
  end.

(** Own enumerable properties, in enumeration order: what an object spread
    copies. *)
Definition own_props (v : value) : list (string * value) :=
  match v with
  | VObj ps => ps
  | VArr l => indexed 0 l
  | VStr s => indexed 0 (chars s)
  | _ => []
  end.

Fixpoint assoc (k : string) (ps : list (string * value)) : option value :=
  match ps with
  | [] => None
  | (k', x) :: ps' => if String.eqb k k' then Some x else assoc k ps'
  end.

(** [v.k]: reading a property of [null] or [undefined] throws. *)
Definition get_prop (v : value) (k : string) : outcome value :=
  match v with
  | VUndefined | VNull => Throw TypeError
  | VObj ps => Ret (default VUndefined (assoc k ps))
  | VArr l =>
      if String.eqb k "length" then Ret (VNum (Z.of_nat (length l)))
      else Ret (default VUndefined (assoc k (indexed 0 l)))
  | VStr s =>
      if String.eqb k "length" then Ret (VNum (Z.of_nat (String.length s)))
      else Ret (default VUndefined (assoc k (indexed 0 (chars s))))
  | VBool _ | VNum _ => Ret VUndefined
  end.

(** [o[k] = x] on the property list of an object: an existing key keeps its
    place, a new key goes last. *)
Fixpoint obj_set (k : string) (x : value) (ps : list (string * value))
  : list (string * value) :=
  match ps with
  | [] => [(k, x)]
  | (k', y) :: ps' =>
      if String.eqb k k' then (k, x) :: ps' else (k', y) :: obj_set k x ps'
  end.

(** The parts of an object literal [{ k: x, ...v, ... }], evaluated left to
    right. *)
Inductive part : Type :=
| Field (k : string) (x : value)
| Spread (v : value).

Definition assign_part (ps : list (string * value)) (p : part)
  : list (string * value) :=
  match p with
  | Field k x => obj_set k x ps
  | Spread v => fold_left (fun acc kx => obj_set (fst kx) (snd kx) acc) (own_props v) ps
  end.

Definition object (parts : list part) : value :=
  VObj (fold_left assign_part parts []).

(** Array methods whose callback may throw. *)
Fixpoint js_filter (p : value -> outcome bool) (l : list value)
  : outcome (list value) :=
  match l with
  | [] => Ret []
  | x :: l' =>
      let* b := p x in
      let* r := js_filter p l' in
      Ret (if b then x :: r else r)
  end.

Fixpoint js_some (p : value -> outcome bool) (l : list value) : outcome bool :=
  match l with
  | [] => Ret false
  | x :: l' =>
      let* b := p x in
      if b then Ret true else js_some p l'
  end.

(** [findIndex]: [None] stands for the result [-1]. *)
Fixpoint js_findIndex (p : value -> outcome bool) (l : list value)
  : outcome (option nat) :=
  match l with
  | [] => Ret None
  | x :: l' =>
      let* b := p x in
      if b then Ret (Some 0%nat)
      else let* r := js_findIndex p l' in Ret (S <$> r)
  end.

(** Calling an array method on a value: anything but an array has no such
    method. *)
Definition as_array (v : value) : outcome (list value) :=
  match v with
  | VArr l => Ret l
  | _ => Throw TypeError
  end.

(** ** JSON text

    [JSON.stringify] and [JSON.parse] on the values above, as texts of 8-bit
    characters.  Fractions and exponents are not integers and [\u] escapes
    above [00ff] are not 8-bit characters: [parse] rejects such texts. *)

Module JSON.

Local Open Scope char_scope.

Definition dquote : ascii := "034".
Definition bslash : ascii := "092".

Definition hex_digit (n : N) : ascii :=
  nth (N.to_nat n)
    ["0"; "1"; "2"; "3"; "4"; "5"; "6"; "7"; "8"; "9"; "a"; "b"; "c"; "d"; "e"; "f"]
    "0".

(** [QuoteJSONString]: the two-character escapes, [\u00XX] for the other
    control characters, every other character as it is. *)
Definition escape_char (c : ascii) : list ascii :=
  if Ascii.eqb c dquote then [bslash; dquote]
  else if Ascii.eqb c bslash then [bslash; bslash]
  else
    let n := N_of_ascii c in
    if N.eqb n 8 then [bslash; "b"]
    else if N.eqb n 9 then [bslash; "t"]
    else if N.eqb n 10 then [bslash; "n"]
    else if N.eqb n 12 then [bslash; "f"]
    else if N.eqb n 13 then [bslash; "r"]
    else if N.ltb n 32 then
      [bslash; "u"; "0"; "0"; hex_digit (N.div n 16); hex_digit (N.modulo n 16)]
    else [c].

(** The characters of a string literal after its opening quote. *)
Fixpoint quote_tail (s : string) : list ascii :=
  match s with
  | EmptyString => [dquote]
  | String c s' => escape_char c ++ quote_tail s'
  end.

Definition quote (s : string) : list ascii := dquote :: quote_tail s.

Definition digits (d : Decimal.uint) : list ascii :=
  list_ascii_of_string (NilEmpty.string_of_uint d).

Definition print_number (n : Z) : list ascii :=
  match n with
  | Z0 => ["0"]
  | Zpos p => digits (Pos.to_uint p)
  | Zneg p => "-" :: digits (Pos.to_uint p)
  end.

Fixpoint join (xs : list (list ascii)) : list ascii :=
  match xs with
  | [] => []
  | x :: xs' =>
      match xs' with
      | [] => x
      | _ :: _ => x ++ "," :: join xs'
      end
  end.

Definition kw_null : list ascii := ["n"; "u"; "l"; "l"].
Definition kw_true : list ascii := ["t"; "r"; "u"; "e"].
Definition kw_false : list ascii := ["f"; "a"; "l"; "s"; "e"].

(** [SerializeJSONProperty]: [None] is the result [undefined].  An
    [undefined] array element is written [null]; a property whose value is
    [undefined] is left out. *)
Fixpoint print (v : value) : option (list ascii) :=
  match v with
  | VUndefined => None
  | VNull => Some kw_null
  | VBool b => Some (if b then kw_true else kw_false)
  | VNum n => Some (print_number n)
  | VStr s => Some (quote s)
  | VArr l =>
      Some ("[" :: join (map (fun x => default kw_null (print x)) l) ++ ["]"])
  | VObj ps =>
      Some ("{" :: join (omap (fun kx =>
                                 match print (snd kx) with
                                 | Some t => Some (quote (fst kx) ++ ":" :: t)
                                 | None => None
                                 end) ps) ++ ["}"])
  end.

Definition stringify (v : value) : option string :=
  string_of_list_ascii <$> print v.

(** *** Parsing *)

Definition is_ws (c : ascii) : bool :=
  let n := N_of_ascii c in
  N.eqb n 32 || N.eqb n 9 || N.eqb n 10 || N.eqb n 13.

Fixpoint skip_ws (cs : list ascii) : list ascii :=
  match cs with
  | [] => []
  | c :: cs' => if is_ws c then skip_ws cs' else cs
  end.

Fixpoint strip_prefix (p cs : list ascii) : option (list ascii) :=
  match p with
  | [] => Some cs
  | a :: p' =>
      match cs with
      | [] => None
      | c :: cs' => if Ascii.eqb a c then strip_prefix p' cs' else None
      end
  end.

Definition hex_val (c : ascii) : option N :=
  let n := N_of_ascii c in
  if N.leb 48 n && N.leb n 57 then Some (n - 48)%N
  else if N.leb 97 n && N.leb n 102 then Some (n - 87)%N
  else if N.leb 65 n && N.leb n 70 then Some (n - 55)%N
  else None.

Definition hex4 (a b c d : ascii) : option N :=
  x1 ← hex_val a; x2 ← hex_val b; x3 ← hex_val c; x4 ← hex_val d;
  Some (((x1 * 16 + x2) * 16 + x3) * 16 + x4)%N.

Definition push_char (c : ascii) (r : option (string * list ascii))
  : option (string * list ascii) :=
  match r with
  | Some (s, rest) => Some (String c s, rest)
  | None => None
  end.

(** The characters of a string literal after its opening quote, up to and
    including the closing quote. *)
Fixpoint parse_chars (cs : list ascii) : option (string * list ascii) :=
  match cs with
  | [] => None
  | c :: cs' =>
      if Ascii.eqb c dquote then Some (EmptyString, cs')
      else if Ascii.eqb c bslash then
        match cs' with
        | [] => None
        | e :: cs'' =>
            if Ascii.eqb e dquote then push_char dquote (parse_chars cs'')
            else if Ascii.eqb e bslash then push_char bslash (parse_chars cs'')
            else if Ascii.eqb e "/" then push_char "/" (parse_chars cs'')
            else if Ascii.eqb e "b" then push_char (ascii_of_N 8) (parse_chars cs'')
            else if Ascii.eqb e "t" then push_char (ascii_of_N 9) (parse_chars cs'')
            else if Ascii.eqb e "n" then push_char (ascii_of_N 10) (parse_chars cs'')
            else if Ascii.eqb e "f" then push_char (ascii_of_N 12) (parse_chars cs'')
            else if Ascii.eqb e "r" then push_char (ascii_of_N 13) (parse_chars cs'')
            else if Ascii.eqb e "u" then
              match cs'' with
              | h1 :: h2 :: h3 :: h4 :: cs3 =>
                  match hex4 h1 h2 h3 h4 with
                  | Some n =>
                      if N.ltb n 256 then push_char (ascii_of_N n) (parse_chars cs3)
                      else None
                  | None => None
                  end
              | _ => None
              end
            else None
        end
      else if N.ltb (N_of_ascii c) 32 then None
      else push_char c (parse_chars cs')
  end.

Definition digit_of (c : ascii) : option (Decimal.uint -> Decimal.uint) :=
  match N_of_ascii c with
  | 48%N => Some Decimal.D0 | 49%N => Some Decimal.D1 | 50%N => Some Decimal.D2
  | 51%N => Some Decimal.D3 | 52%N => Some Decimal.D4 | 53%N => Some Decimal.D5
  | 54%N => Some Decimal.D6 | 55%N => Some Decimal.D7 | 56%N => Some Decimal.D8
  | 57%N => Some Decimal.D9
  | _ => None
  end.

(** The longest run of decimal digits at the front. *)
Fixpoint read_digits (cs : list ascii) : Decimal.uint * list ascii :=
  match cs with
  | [] => (Decimal.Nil, [])
  | c :: cs' =>
      match digit_of c with
      | Some D => let '(d, r) := read_digits cs' in (D d, r)
      | None => (Decimal.Nil, cs)
      end
  end.

Definition starts_fraction (cs : list ascii) : bool :=
  match cs with
  | c :: _ => Ascii.eqb c "." || Ascii.eqb c "e" || Ascii.eqb c "E"
  | [] => false
  end.

(** An optional minus sign and a run of digits without a leading zero; a
    fraction or an exponent after it is not an integer. *)
Definition parse_number (cs : list ascii) : option (Z * list ascii) :=
  let '(neg, cs1) :=
    match cs with
    | c :: r => if Ascii.eqb c "-" then (true, r) else (false, cs)
    | [] => (false, cs)
    end in
  let '(d, r) := read_digits cs1 in
  if starts_fraction r then None
  else
    match d with
    | Decimal.Nil => None
    | Decimal.D0 Decimal.Nil => Some (0%Z, r)
    | Decimal.D0 _ => None
    | _ => Some (if neg then Z.opp (Z.of_uint d) else Z.of_uint d, r)
    end.

(** One [key : value] member; [pv] parses the value and [pm] goes on after
    it with the object built so far. *)
Definition parse_member
    (pv : list ascii -> option (value * list ascii))
    (pm : list (string * value) -> list ascii -> option (value * list ascii))
    (acc : list (string * value)) (cs : list ascii)
  : option (value * list ascii) :=
  match skip_ws cs with
  | c :: r =>
      if Ascii.eqb c dquote then
        match parse_chars r with
        | Some (k, r1) =>
            match skip_ws r1 with
            | c1 :: r2 =>
                if Ascii.eqb c1 ":" then
                  match pv r2 with
                  | Some (x, r3) => pm (obj_set k x acc) r3
                  | None => None
                  end
                else None
            | [] => None
            end
        | None => None
        end
      else None
  | [] => None
  end.

(** The recursive-descent parser.  [fuel] bounds the number of nested
    calls; every call is made after at least one character was read, so the
    length of the text is enough. *)
Fixpoint parse_value (fuel : nat) (cs : list ascii) {struct fuel}
  : option (value * list ascii) :=
  match fuel with
  | O => None
  | S f =>
      match skip_ws cs with
      | [] => None
      | c :: r =>
          if Ascii.eqb c "n" then
            match strip_prefix ["u"; "l"; "l"] r with
            | Some r' => Some (VNull, r') | None => None end
          else if Ascii.eqb c "t" then
            match strip_prefix ["r"; "u"; "e"] r with
            | Some r' => Some (VBool true, r') | None => None end
          else if Ascii.eqb c "f" then
            match strip_prefix ["a"; "l"; "s"; "e"] r with
            | Some r' => Some (VBool false, r') | None => None end
          else if Ascii.eqb c dquote then
            match parse_chars r with
            | Some (s, r') => Some (VStr s, r') | None => None end
          else if Ascii.eqb c "[" then
            match skip_ws r with
            | c' :: r' =>
                if Ascii.eqb c' "]" then Some (VArr [], r')
                else
                  match parse_value f r with
                  | Some (x, r1) => parse_elems f [x] r1
                  | None => None
                  end
            | [] => None
            end
          else if Ascii.eqb c "{" then
            match skip_ws r with
            | c' :: r' =>
                if Ascii.eqb c' "}" then Some (VObj [], r')
                else parse_member (parse_value f) (parse_members f) [] r
            | [] => None
            end
          else
            match parse_number (c :: r) with
            | Some (n, r') => Some (VNum n, r') | None => None end
      end
  end
with parse_elems (fuel : nat) (acc : list value) (cs : list ascii) {struct fuel}
  : option (value * list ascii) :=
  match fuel with
  | O => None
  | S f =>
      match skip_ws cs with
      | c :: r =>
          if Ascii.eqb c "]" then Some (VArr acc, r)
          else if Ascii.eqb c "," then
            match parse_value f r with
            | Some (x, r1) => parse_elems f (acc ++ [x]) r1
            | None => None
            end
          else None
      | [] => None
      end
  end
with parse_members (fuel : nat) (acc : list (string * value)) (cs : list ascii)
    {struct fuel} : option (value * list ascii) :=
  match fuel with
  | O => None
  | S f =>
      match skip_ws cs with
      | c :: r =>
          if Ascii.eqb c "}" then Some (VObj acc, r)
          else if Ascii.eqb c "," then
            parse_member (parse_value f) (parse_members f) acc r
          else None
      | [] => None
      end
  end.

(** [JSON.parse]: one value, then nothing but white space. *)
Definition parse (s : string) : outcome value :=
  let cs := list_ascii_of_string s in
  match parse_value (S (length cs)) cs with
  | Some (v, r) =>
      match skip_ws r with
      | [] => Ret v
      | _ :: _ => Throw SyntaxError
      end
  | None => Throw SyntaxError
  end.

(** What a value becomes when it is written and read back: [undefined]
    array elements become [null], properties whose value is [undefined]
    disappear, and only the last value of a repeated key is kept. *)
Fixpoint norm (v : value) : value :=
  match v with
  | VUndefined => VNull
  | VArr l => VArr (map norm l)
  | VObj ps =>
      VObj (fold_left (fun acc kx => obj_set (fst kx) (snd kx) acc)
              (omap (fun kx =>
                       match snd kx with
                       | VUndefined => None
                       | _ => Some (fst kx, norm (snd kx))
                       end) ps) [])
  | _ => v
  end.

End JSON.

(** ** Computations over a store *)

Definition M (S A : Type) : Type := S -> outcome A * S.

Definition ret {S A} (a : A) : M S A := fun s => (Ret a, s).
Definition throw {S A} (e : exn) : M S A := fun s => (Throw e, s).
Definition lift {S A} (m : outcome A) : M S A := fun s => (m, s).
Definition modify {S} (f : S -> S) : M S unit := fun s => (Ret tt, f s).

Definition bind {S A B} (m : M S A) (k : A -> M S B) : M S B :=
  fun s =>
    match m s with
    | (Ret a, s1) => k a s1
    | (Throw e, s1) => (Throw e, s1)
    end.

Notation "x <- m ; k" := (bind m (fun x => k))
  (at level 20, m at level 100, k at level 200, only parsing) : js_scope.
Notation "m ;; k" := (bind m (fun _ => k))
  (at level 100, k at level 200, only parsing) : js_scope.

(** [try { body } catch (e) { handler }] *)
Definition try_catch {A} (body : outcome A) (handler : exn -> outcome A)
  : outcome A :=
  match body with
  | Ret a => Ret a
  | Throw e => handler e
  end.

(** The same around a computation over a store: what the body did to the
    store before it threw stays done. *)
Definition try_catch_M {S A} (body : M S A) (handler : exn -> M S A) : M S A :=
  fun s =>
    match body s with
    | (Ret a, s1) => (Ret a, s1)
    | (Throw e, s1) => handler e s1
    end.

(** ** services/supabaseClient.ts *)

(** The two variables the module reads from [import.meta.env]; [None] is a
    variable that is not set. *)
Record ImportMetaEnv : Type := {
  VITE_SUPABASE_URL : option string;
  VITE_SUPABASE_ANON_KEY : option string
}.

Definition supabaseUrl (env : ImportMetaEnv) : string :=
  default "" (VITE_SUPABASE_URL env).
Definition supabaseKey (env : ImportMetaEnv) : string :=
  default "" (VITE_SUPABASE_ANON_KEY env).

Definition nonempty (s : string) : bool := negb (String.eqb s "").

Definition isValidConfig (env : ImportMetaEnv) : bool :=
  nonempty (supabaseUrl env) && nonempty (supabaseKey env)
  && String.prefix "http" (supabaseUrl env).

Definition isSupabaseEnabled (env : ImportMetaEnv) : bool := isValidConfig env.

(** The request a query-builder chain sends when it is awaited. *)
Inductive query : Type :=
| Select (table columns : string) (eq : option (string * value))
    (order : option (string * bool))
| Insert (table : string) (rows : list value) (returning : bool)
| Update (table : string) (changes : value) (eq : string * value)
| Delete (table : string) (eq : string * value).

(** What awaiting a request gives: [{ data, error }]. *)
Record response : Type := { data : value; error : value }.

(** ** Local storage *)

(** The browser store, and the module-level array [MOCK_DOCTORS]:
    [getMockData] hands out that very array as its default, and the doctor
    operations change it in place.  [accepts st key text items] tells
    whether the browser stores [text] under [key] when it holds [items]. *)
Record Local : Type := {
  localStorage : gmap string string;
  accepts : string -> string -> gmap string string -> bool;
  MOCK_DOCTORS : list value
}.

Definition MOCK_DOCTORS_initial : list value :=
  [ VObj [("id", VNum 1); ("name", VStr "dr. Andi Wijaya, Sp.PD");
          ("specialty", VStr "Penyakit Dalam");
          ("image", VStr "https://picsum.photos/seed/doc1/200/200");
          ("schedule", VStr "Senin - Kamis, 08.00 - 12.00");
          ("available", VBool true)];
    VObj [("id", VNum 2); ("name", VStr "dr. Sarah Utami, Sp.A");
          ("specialty", VStr "Anak");
          ("image", VStr "https://picsum.photos/seed/doc2/200/200");
          ("schedule", VStr "Senin - Jumat, 09.00 - 14.00");
          ("available", VBool true)] ].

(** The [try] block of [getMockData]: [Ret (Some v)] when it returns [v],
    [Ret None] when it falls through, [Throw] when [JSON.parse] throws. *)
Definition read_stored (key : string) (ls : gmap string string)
  : outcome (option value) :=
  match ls !! key with
  | Some stored =>
      if nonempty stored then
        let* v := JSON.parse stored in Ret (Some v)
      else Ret None
  | None => Ret None
  end.

Definition getMockData (key : string) (defaultData : value)
    (ls : gmap string string) : outcome value :=
  let* r := try_catch (read_stored key ls) (fun _ => Ret None) in
  Ret (default defaultData r).

(** [String(JSON.stringify(data))]: what [setItem] stores. *)
Definition stored_text (data : value) : string :=
  default "undefined" (JSON.stringify data).

(** [localStorage.setItem(key, text)]: it stores the text, or it throws
    and leaves the store as it was. *)
Definition setItem (key text : string) : M Local unit :=
  fun st =>
    if accepts st key text (localStorage st)
    then (Ret tt, {| localStorage := <[key := text]> (localStorage st);
                     accepts := accepts st;
                     MOCK_DOCTORS := MOCK_DOCTORS st |})
    else (Throw QuotaExceededError, st).

(** [JSON.stringify] does not throw on the values of this model; a
    [setItem] that throws is caught, and the write is dropped. *)
Definition setMockData (key : string) (data : value) : M Local unit :=
  try_catch_M (setItem key (stored_text data)) (fun _ => ret tt).

(** [getMockData] gives back [defaultData] itself, not a copy. *)
Definition is_default (key : string) (ls : gmap string string) : bool :=
  match try_catch (read_stored key ls) (fun _ => Ret None) with
  | Ret (Some _) => false
  | _ => true
  end.

Definition get_mock (key : string) (defaultData : value) : M Local value :=
  fun st => (getMockData key defaultData (localStorage st), st).

(** The doctors, read with [MOCK_DOCTORS] as the default. *)
Definition get_doctors : M Local value :=
  fun st => (getMockData "doctors" (VArr (MOCK_DOCTORS st)) (localStorage st), st).

(** An in-place change of the array [getMockData "doctors"] gave: it
    changes [MOCK_DOCTORS] when that is the array handed out. *)
Definition mutate_doctors (docs : list value) : M Local unit :=
  modify (fun st =>
    if is_default "doctors" (localStorage st)
    then {| localStorage := localStorage st; accepts := accepts st;
            MOCK_DOCTORS := docs |}
    else st).

(** ** The module that exports [api] *)

(** What a call reads from its surroundings: [Math.random()], [new
    Date().toISOString()] (also what [JSON.stringify] writes for [new
    Date()]) and [Date.now()]. *)
Record Ambient : Type := {
  random : Q;
  iso_now : string;
  now : Z
}.

Definition number_to_string (n : Z) : string :=
  string_of_list_ascii (JSON.print_number n).

(** [Math.floor(1000 + Math.random() * 9000)], in exact arithmetic. *)
Definition randomNum (rnd : Q) : Z := Qfloor (1000 + rnd * 9000)%Q.

Definition bookingCode (rnd : Q) : string :=
  "REG-" ++ number_to_string (randomNum rnd).

(** [r => r.nik === nik] and [d => d.id === id] *)
Definition has_nik (nik : string) (r : value) : outcome bool :=
  let* x := get_prop r "nik" in Ret (strict_eq x (VStr nik)).
Definition has_id (id : Z) (r : value) : outcome bool :=
  let* x := get_prop r "id" in Ret (strict_eq x (VNum id)).
Definition other_id (id : Z) (r : value) : outcome bool :=
  let* x := get_prop r "id" in Ret (negb (strict_eq x (VNum id))).

(** [v.length > 0] for a [v] that is not [null] or [undefined] and whose
    [length], if it has one, is a number: the rows a select answers. *)
Definition length_gt0 (v : value) : value :=
  match get_prop v "length" with
  | Ret (VNum n) => VBool (Z.ltb 0 n)
  | _ => VBool false
  end.

(** [v[0]] for a [v] that is not [null] or [undefined]. *)
Definition first_of (v : value) : value :=
  match get_prop v "0" with
  | Ret x => x
  | Throw _ => VUndefined
  end.

Definition opt_str (o : option string) : value :=
  match o with Some s => VStr s | None => VUndefined end.
Definition opt_num (o : option Z) : value :=
  match o with Some n => VNum n | None => VUndefined end.

(** [if (c) updates.k = x] and [if (x !== undefined) updates.k = x] *)
Definition set_if_truthy (k : string) (x : value) (u : list (string * value))
  : list (string * value) :=
  if truthy x then obj_set k x u else u.
Definition set_if_defined (k : string) (x : value) (u : list (string * value))
  : list (string * value) :=
  match x with VUndefined => u | _ => obj_set k x u end.

Section Api.

Variable env : ImportMetaEnv.

(** The remote database and the Supabase client: awaiting a request
    answers [{ data, error }] or rejects, and may change the database. *)
Variable Remote : Type.
Variable supabase : query -> M Remote response.

(** The two backing stores. *)
Record World : Type := { remote : Remote; local : Local }.

Definition on_remote {A} (m : M Remote A) : M World A :=
  fun w =>
    let '(o, r) := m (remote w) in (o, {| remote := r; local := local w |}).

Definition on_local {A} (m : M Local A) : M World A :=
  fun w =>
    let '(o, l) := m (local w) in (o, {| remote := remote w; local := l |}).

(** [trySupabase]: the remote operation when the client is enabled, and
    the fallback unless the operation gave data without an error. *)
Definition trySupabase {S} (operation : M S response) (fallback : M S value)
  : M S value :=
  fun s =>
    if isSupabaseEnabled env then
      match operation s with
      | (Ret r, s1) =>
          if negb (truthy (error r)) && negb (strict_eq (data r) VNull)
          then (Ret (data r), s1)
          else fallback s1
      | (Throw _, s1) => fallback s1
      end
    else fallback s.

Definition ok_with (d : value) (r : response) : response :=
  {| data := d; error := error r |}.

(** *** Public operations *)

Definition checkNik_remote (nik : string) : M Remote response :=
  r <- supabase (Select "registrations" "id" (Some ("nik", VStr nik)) None);
  ret (ok_with (js_and (data r) (length_gt0 (data r))) r).

Definition checkNik_fallback (nik : string) : M Local value :=
  regs <- get_mock "registrations" (VArr []);
  arr <- lift (as_array regs);
  b <- lift (js_some (has_nik nik) arr);
  ret (VBool b).

Definition checkNik (nik : string) : M World value :=
  trySupabase (on_remote (checkNik_remote nik)) (on_local (checkNik_fallback nik)).

Definition select_all (table : string) (order : option (string * bool))
  : M Remote response :=
  supabase (Select table "*" None order).

Definition getDoctors : M World value :=
  trySupabase (on_remote (select_all "doctors" None)) (on_local get_doctors).

Definition loginPatient_remote (nik : string) : M Remote response :=
  r <- supabase (Select "registrations" "*" (Some ("nik", VStr nik)) None);
  if truthy (error r) then ret {| data := VNull; error := error r |}
  else ret {| data := object [Field "found" (VBool true);
                              Field "data" (js_or (data r) (VArr []))];
              error := VNull |}.

Definition loginPatient_fallback (nik : string) : M Local value :=
  regs <- get_mock "registrations" (VArr []);
  arr <- lift (as_array regs);
  patientRegs <- lift (js_filter (has_nik nik) arr);
  if Nat.ltb 0 (length patientRegs)
  then ret (object [Field "found" (VBool true); Field "data" (VArr patientRegs)])
  else if Nat.leb 10 (String.length nik)
  then ret (object [Field "found" (VBool true); Field "data" (VArr [])])
  else throw (Error "NIK tidak ditemukan").

Definition loginPatient (nik : string) : M World value :=
  trySupabase (on_remote (loginPatient_remote nik))
              (on_local (loginPatient_fallback nik)).

(** The record [registerPatient] builds before it calls [trySupabase]. *)
Definition newData (amb : Ambient) (data : value) : outcome value :=
  let code := VStr (bookingCode (random amb)) in
  let* payment := get_prop data "payment" in
  let* detail := get_prop data "payment_detail" in
  let bpjs := strict_eq payment (VStr "bpjs") in
  Ret (object
         [ Spread data;
           Field "bookingCode" code;
           Field "booking_code" code;
           Field "payment_status" (VStr (if bpjs then "Paid" else "Unpaid"));
           Field "payment_detail"
             (if bpjs then VStr "BPJS Kesehatan" else js_or detail (VStr "Tunai"));
           Field "cost" (VNum 0);
           Field "status" (VStr "Pending");
           Field "created_at" (VStr (iso_now amb)) ]).

Definition registerPatient_remote (nd : value) : M Remote response :=
  r <- supabase (Insert "registrations" [nd] true);
  ret (ok_with
         (object
            [ Field "message" (VStr "success");
              Field "data"
                (object [Spread nd;
                         Spread (if truthy (data r) then first_of (data r)
                                 else object [])]) ]) r).

Definition registerPatient_fallback (amb : Ambient) (nd : value)
  : M Local value :=
  regs <- get_mock "registrations" (VArr []);
  let savedData := object [Field "id" (VNum (now amb)); Spread nd] in
  arr <- lift (as_array regs);
  setMockData "registrations" (VArr (arr ++ [savedData]));;
  ret (object [Field "message" (VStr "success"); Field "data" savedData]).

Definition registerPatient (amb : Ambient) (data : value) : M World value :=
  nd <- lift (newData amb data);
  trySupabase (on_remote (registerPatient_remote nd))
              (on_local (registerPatient_fallback amb nd)).

Definition insert_one (table : string) (row : value) (d : value)
  : M Remote response :=
  r <- supabase (Insert table [row] false);
  ret (ok_with d r).

Definition sendMessage_fallback (amb : Ambient) (data : value) : M Local value :=
  msgs <- get_mock "messages" (VArr []);
  arr <- lift (as_array msgs);
  setMockData "messages"
    (VArr (arr ++ [object [Field "id" (VNum (now amb)); Spread data;
                           Field "is_read" (VBool false);
                           Field "created_at" (VStr (iso_now amb))]]));;
  ret (object [Field "message" (VStr "success")]).

Definition sendMessage (amb : Ambient) (data : value) : M World value :=
  trySupabase
    (on_remote (insert_one "messages"
                  (object [Spread data; Field "is_read" (VBool false)])
                  (object [Field "message" (VStr "success")])))
    (on_local (sendMessage_fallback amb data)).

(** *** Administration *)

Definition getRegistrations : M World value :=
  trySupabase (on_remote (select_all "registrations" (Some ("created_at", false))))
              (on_local (get_mock "registrations" (VArr []))).

(** The object [updates] of [updateRegistration]. *)
Definition updates
    (status : string) (payment_status : option string) (cost : option Z)
    (payment_detail payment_proof class_type facility_notes : option string)
  : list (string * value) :=
  let u := [("status", VStr status)] in
  let u := set_if_truthy "payment_status" (opt_str payment_status) u in
  let u := set_if_defined "cost" (opt_num cost) u in
  let u := set_if_truthy "payment_detail" (opt_str payment_detail) u in
  let u := set_if_truthy "payment_proof" (opt_str payment_proof) u in
  let u := set_if_defined "class_type" (opt_str class_type) u in
  let u := set_if_defined "facility_notes" (opt_str facility_notes) u in
  u.

Definition update_by_id (table : string) (id : Z) (changes : value)
  : M Remote response :=
  r <- supabase (Update table changes ("id", VNum id));
  ret (ok_with (VBool true) r).

Definition delete_by_id (table : string) (id : Z) : M Remote response :=
  r <- supabase (Delete table ("id", VNum id));
  ret (ok_with (VBool true) r).

(** [arr[i] = { ...arr[i], ...changes }] for an index [findIndex] gave. *)
Definition merge_at (i : nat) (changes : value) (arr : list value)
  : list value :=
  <[i := object [Spread (default VUndefined (arr !! i)); Spread changes]]> arr.

(** The fallback of [updateRegistration] and [updateMessage]: the store
    is written only when the identity is found. *)
Definition update_found (key : string) (id : Z) (changes : value)
  : M Local value :=
  d <- get_mock key (VArr []);
  arr <- lift (as_array d);
  idx <- lift (js_findIndex (has_id id) arr);
  match idx with
  | Some i => setMockData key (VArr (merge_at i changes arr))
  | None => ret tt
  end;;
  ret (VBool true).

Definition updateRegistration
    (id : Z) (status : string) (payment_status : option string)
    (cost : option Z)
    (payment_detail payment_proof class_type facility_notes : option string)
  : M World value :=
  let u := VObj (updates status payment_status cost payment_detail
                   payment_proof class_type facility_notes) in
  trySupabase (on_remote (update_by_id "registrations" id u))
              (on_local (update_found "registrations" id u)).

Definition getMessages : M World value :=
  trySupabase (on_remote (select_all "messages" (Some ("created_at", false))))
              (on_local (get_mock "messages" (VArr []))).

Definition updateMessage (id : Z) (data : value) : M World value :=
  trySupabase (on_remote (update_by_id "messages" id data))
              (on_local (update_found "messages" id data)).

(** *** Doctors *)

Definition addDoctor_fallback (amb : Ambient) (data : value) : M Local value :=
  docs <- get_doctors;
  arr <- lift (as_array docs);
  let arr' := arr ++ [object [Field "id" (VNum (now amb)); Spread data]] in
  mutate_doctors arr';;
  setMockData "doctors" (VArr arr');;
  ret (VBool true).

Definition addDoctor (amb : Ambient) (data : value) : M World value :=
  trySupabase (on_remote (insert_one "doctors" data (VBool true)))
              (on_local (addDoctor_fallback amb data)).

Definition updateDoctor_fallback (id : Z) (data : value) : M Local value :=
  docs <- get_doctors;
  arr <- lift (as_array docs);
  idx <- lift (js_findIndex (has_id id) arr);
  match idx with
  | Some i =>
      mutate_doctors (merge_at i data arr);;
      setMockData "doctors" (VArr (merge_at i data arr))
  | None => ret tt
  end;;
  ret (VBool true).

Definition updateDoctor (id : Z) (data : value) : M World value :=
  trySupabase (on_remote (update_by_id "doctors" id data))
              (on_local (updateDoctor_fallback id data)).

Definition deleteDoctor_fallback (id : Z) : M Local value :=
  docs <- get_doctors;
  arr <- lift (as_array docs);
  kept <- lift (js_filter (other_id id) arr);
  setMockData "doctors" (VArr kept);;
  ret (VBool true).

Definition deleteDoctor (id : Z) : M World value :=
  trySupabase (on_remote (delete_by_id "doctors" id))
              (on_local (deleteDoctor_fallback id)).

(** *** Users, BPJS records, facilities, rooms and bank accounts

    The four operations are written out once per table in the source,
    with the same text but for the table name. *)

Definition add_fallback (key : string) (amb : Ambient) (data : value)
  : M Local value :=
  d <- get_mock key (VArr []);
  arr <- lift (as_array d);
  setMockData key
    (VArr (arr ++ [object [Field "id" (VNum (now amb)); Spread data]]));;
  ret (VBool true).

(** Here the store is written whether or not the identity is found. *)
Definition update_fallback (key : string) (id : Z) (data : value)
  : M Local value :=
  d <- get_mock key (VArr []);
  arr <- lift (as_array d);
  i <- lift (js_findIndex (has_id id) arr);
  setMockData key (VArr (match i with
                         | Some i => merge_at i data arr
                         | None => arr
                         end));;
  ret (VBool true).

Definition delete_fallback (key : string) (id : Z) : M Local value :=
  d <- get_mock key (VArr []);
  arr <- lift (as_array d);
  kept <- lift (js_filter (other_id id) arr);
  setMockData key (VArr kept);;
  ret (VBool true).

Definition get_rows (table : string) : M World value :=
  trySupabase (on_remote (select_all table None))
              (on_local (get_mock table (VArr []))).
Definition add_row (table : string) (amb : Ambient) (data : value)
  : M World value :=
  trySupabase (on_remote (insert_one table data (VBool true)))
              (on_local (add_fallback table amb data)).
Definition update_row (table : string) (id : Z) (data : value) : M World value :=
  trySupabase (on_remote (update_by_id table id data))
              (on_local (update_fallback table id data)).
Definition delete_row (table : string) (id : Z) : M World value :=
  trySupabase (on_remote (delete_by_id table id))
              (on_local (delete_fallback table id)).

Definition getUsers := get_rows "users".
Definition addUser := add_row "users".
Definition updateUser := update_row "users".
Definition deleteUser := delete_row "users".

Definition getBPJS := get_rows "bpjs_data".
Definition addBPJS := add_row "bpjs_data".
Definition updateBPJS := update_row "bpjs_data".
Definition deleteBPJS := delete_row "bpjs_data".

Definition getFacilities := get_rows "facilities".
Definition addFacility := add_row "facilities".
Definition updateFacility := update_row "facilities".
Definition deleteFacility := delete_row "facilities".

Definition getRooms := get_rows "rooms".
Definition addRoom := add_row "rooms".
Definition updateRoom := update_row "rooms".
Definition deleteRoom := delete_row "rooms".

(** [getBanks] answers [data || []]. *)
Definition getBanks_remote : M Remote response :=
  r <- supabase (Select "bank_accounts" "*" None None);
  ret (ok_with (js_or (data r) (VArr [])) r).
Definition getBanks : M World value :=
  trySupabase (on_remote getBanks_remote)
              (on_local (get_mock "bank_accounts" (VArr []))).
Definition addBank := add_row "bank_accounts".
Definition updateBank := update_row "bank_accounts".
Definition deleteBank := delete_row "bank_accounts".

(** *** The object [api]

    A call of one of its methods, with the arguments, and where needed
    with what the call reads from its surroundings. *)
Inductive call : Type :=
| CheckNik (nik : string)
| GetDoctors
| LoginPatient (nik : string)
| RegisterPatient (amb : Ambient) (data : value)
| SendMessage (amb : Ambient) (data : value)
| GetRegistrations
| UpdateRegistration (id : Z) (status : string) (payment_status : option string)
    (cost : option Z)
    (payment_detail payment_proof class_type facility_notes : option string)
| GetMessages
| UpdateMessage (id : Z) (data : value)
| AddDoctor (amb : Ambient) (data : value)
| UpdateDoctor (id : Z) (data : value)
| DeleteDoctor (id : Z)
| GetUsers | AddUser (amb : Ambient) (data : value)
| UpdateUser (id : Z) (data : value) | DeleteUser (id : Z)
| GetBPJS | AddBPJS (amb : Ambient) (data : value)
| UpdateBPJS (id : Z) (data : value) | DeleteBPJS (id : Z)
| GetFacilities | AddFacility (amb : Ambient) (data : value)
| UpdateFacility (id : Z) (data : value) | DeleteFacility (id : Z)
| GetRooms | AddRoom (amb : Ambient) (data : value)
| UpdateRoom (id : Z) (data : value) | DeleteRoom (id : Z)
| GetBanks | AddBank (amb : Ambient) (data : value)
| UpdateBank (id : Z) (data : value) | DeleteBank (id : Z).

Definition api (c : call) : M World value :=
  match c with
  | CheckNik nik => checkNik nik
  | GetDoctors => getDoctors
  | LoginPatient nik => loginPatient nik
  | RegisterPatient amb data => registerPatient amb data
  | SendMessage amb data => sendMessage amb data
  | GetRegistrations => getRegistrations
  | UpdateRegistration id status ps cost pd pp ct fn =>
      updateRegistration id status ps cost pd pp ct fn
  | GetMessages => getMessages
  | UpdateMessage id data => updateMessage id data
  | AddDoctor amb data => addDoctor amb data
  | UpdateDoctor id data => updateDoctor id data
  | DeleteDoctor id => deleteDoctor id
  | GetUsers => getUsers
  | AddUser amb data => addUser amb data
  | UpdateUser id data => updateUser id data
  | DeleteUser id => deleteUser id
  | GetBPJS => getBPJS
  | AddBPJS amb data => addBPJS amb data
  | UpdateBPJS id data => updateBPJS id data
  | DeleteBPJS id => deleteBPJS id
  | GetFacilities => getFacilities
  | AddFacility amb data => addFacility amb data
  | UpdateFacility id data => updateFacility id data
  | DeleteFacility id => deleteFacility id
  | GetRooms => getRooms
  | AddRoom amb data => addRoom amb data
  | UpdateRoom id data => updateRoom id data
  | DeleteRoom id => deleteRoom id
  | GetBanks => getBanks
  | AddBank amb data => addBank amb data
  | UpdateBank id data => updateBank id data
  | DeleteBank id => deleteBank id
  end.

End Api.

Arguments remote {Remote} _.
Arguments local {Remote} _.
Arguments Build_World {Remote} _ _.
Arguments on_remote {Remote A} m _.
Arguments on_local {Remote A} m _.
Arguments checkNik env {Remote} supabase.
Arguments getDoctors env {Remote} supabase.
Arguments loginPatient env {Remote} supabase.
Arguments registerPatient env {Remote} supabase.
Arguments sendMessage env {Remote} supabase.
Arguments getRegistrations env {Remote} supabase.
Arguments updateRegistration env {Remote} supabase.
Arguments getMessages env {Remote} supabase.
Arguments updateMessage env {Remote} supabase.
Arguments addDoctor env {Remote} supabase.
Arguments updateDoctor env {Remote} supabase.
Arguments deleteDoctor env {Remote} supabase.
Arguments get_rows env {Remote} supabase.
Arguments add_row env {Remote} supabase.
Arguments update_row env {Remote} supabase.
Arguments delete_row env {Remote} supabase.
Arguments getUsers env {Remote} supabase.
Arguments addUser env {Remote} supabase.
Arguments updateUser env {Remote} supabase.
Arguments deleteUser env {Remote} supabase.
Arguments getBPJS env {Remote} supabase.
Arguments addBPJS env {Remote} supabase.
Arguments updateBPJS env {Remote} supabase.
Arguments deleteBPJS env {Remote} supabase.
Arguments getFacilities env {Remote} supabase.
Arguments addFacility env {Remote} supabase.
Arguments updateFacility env {Remote} supabase.
Arguments deleteFacility env {Remote} supabase.
Arguments getRooms env {Remote} supabase.
Arguments addRoom env {Remote} supabase.
Arguments updateRoom env {Remote} supabase.
Arguments deleteRoom env {Remote} supabase.
Arguments getBanks env {Remote} supabase.
Arguments addBank env {Remote} supabase.
Arguments updateBank env {Remote} supabase.
Arguments deleteBank env {Remote} supabase.
Arguments api env {Remote} supabase.
Arguments checkNik_remote {Remote} supabase.
Arguments select_all {Remote} supabase.
Arguments loginPatient_remote {Remote} supabase.
Arguments registerPatient_remote {Remote} supabase.
Arguments insert_one {Remote} supabase.
Arguments update_by_id {Remote} supabase.
Arguments delete_by_id {Remote} supabase.
Arguments getBanks_remote {Remote} supabase.

(** * Vocabulary of the properties *)

(** ** JSON texts *)

Module JSON_spec.
Import JSON.

Local Open Scope char_scope.

(** The text after a number does not go on with a digit, a fraction or an
    exponent. *)
Definition ends_number (rest : list ascii) : Prop :=
  match rest with
  | [] => True
  | c :: _ => digit_of c = None /\ starts_fraction rest = false
  end.

(** The text after a value inside an array or an object, or at the end. *)
Definition delimited (rest : list ascii) : Prop :=
  match rest with
  | [] => True
  | c :: _ => c = "," \/ c = "]" \/ c = "}"
  end.

(** A text starts a value: not with white space, not with a closing
    bracket. *)
Definition head_ok (t : list ascii) : Prop :=
  match t with
  | [] => False
  | c :: _ => is_ws c = false /\ Ascii.eqb c "]" = false /\ Ascii.eqb c "}" = false
  end.

(** The text [t] is read as the value [n], whatever follows it. *)
Definition Parses (t : list ascii) (n : value) : Prop :=
  head_ok t /\
  forall fuel rest,
    (length (t ++ rest) < fuel)%nat -> delimited rest ->
    parse_value fuel (t ++ rest) = Some (n, rest).

Fixpoint elems_tail (items : list (list ascii * value)) : list ascii :=
  match items with
  | [] => ["]"]
  | it :: its => "," :: fst it ++ elems_tail its
  end.

Definition member_text (it : string * list ascii * value) : list ascii :=
  quote (fst (fst it)) ++ ":" :: snd (fst it).

Fixpoint members_tail (items : list (string * list ascii * value)) : list ascii :=
  match items with
  | [] => ["}"]
  | it :: its => "," :: member_text it ++ members_tail its
  end.

Definition member_kv (it : string * list ascii * value) : string * value :=
  (fst (fst it), snd it).

Definition set_kv (acc : list (string * value)) (kx : string * value)
  : list (string * value) :=
  obj_set (fst kx) (snd kx) acc.

(** What is written for an array element. *)
Definition el (x : value) : list ascii := default kw_null (print x).

Definition number_start (c : ascii) : bool :=
  Ascii.eqb c "-" || match digit_of c with Some _ => true | None => false end.

(** The members of an object that are written, each with its text and
    with what it is read back as. *)
Definition written (ps : list (string * value))
  : list (string * list ascii * value) :=
  omap (fun kx =>
          match print (snd kx) with
          | Some t => Some (fst kx, t, norm (snd kx))
          | None => None
          end) ps.

Fixpoint distinct (ks : list string) : bool :=
  match ks with
  | [] => true
  | k :: ks' => negb (existsb (String.eqb k) ks') && distinct ks'
  end.

(** No [undefined] anywhere, and no key twice in an object: the values
    [JSON.parse] gives. *)
Fixpoint plain (v : value) : bool :=
  match v with
  | VUndefined => false
  | VArr l => forallb plain l
  | VObj ps => distinct (map fst ps) && forallb (fun kx => plain (snd kx)) ps
  | _ => true
  end.

End JSON_spec.

(** ** The two paths of a call *)

(** The remote operation throws, or answers an error or [null] data. *)
Definition remote_fails {St} (operation : M St response) (s : St) : bool :=
  match operation s with
  | (Ret r, _) => truthy (error r) || strict_eq (data r) VNull
  | (Throw _, _) => true
  end.

(** Fallback mode: the client is disabled, or the remote operation
    fails. *)
Definition falls_back (env : ImportMetaEnv) {St}
    (operation : M St response) (s : St) : bool :=
  negb (isSupabaseEnabled env) || remote_fails operation s.

(** The store when the fallback starts. *)
Definition after_operation (env : ImportMetaEnv) {St}
    (operation : M St response) (s : St) : St :=
  if isSupabaseEnabled env then snd (operation s) else s.

(** A computation that counts its own invocations, and one that does not
    touch the counter. *)
Definition counted {St A} (m : M St A) : M (nat * St) A :=
  fun ns => let '(o, s') := m (snd ns) in (o, (S (fst ns), s')).
Definition uncounted {St A} (m : M St A) : M (nat * St) A :=
  fun ns => let '(o, s') := m (snd ns) in (o, (fst ns, s')).

(** The wrapper as the specification words it: the remote data when the
    client is enabled, the operation does not throw, its error is [null]
    or absent and its data is not [null]; the fallback in every other
    case. *)
Definition trySupabase_as_specified (env : ImportMetaEnv) {St}
    (operation : M St response) (fallback : M St value) : M St value :=
  fun s =>
    if isSupabaseEnabled env then
      match operation s with
      | (Ret r, s1) =>
          if nullish (error r) && negb (strict_eq (data r) VNull)
          then (Ret (data r), s1)
          else fallback s1
      | (Throw _, s1) => fallback s1
      end
    else fallback s.

(** A configuration with the client enabled, and one without keys. *)
Definition env_enabled : ImportMetaEnv :=
  {| VITE_SUPABASE_URL := Some "https://rsud.supabase.co";
     VITE_SUPABASE_ANON_KEY := Some "anon-key" |}.
Definition env_disabled : ImportMetaEnv :=
  {| VITE_SUPABASE_URL := None; VITE_SUPABASE_ANON_KEY := None |}.

(** ** Booking codes *)




Definition sample_ambient : Ambient :=
  {| random := (1 # 2)%Q; iso_now := "2024-05-17T03:12:45.120Z";
     now := 1715915565120 |}.

(** ** Stored collections *)

(** The element can be asked for a property: it is not [null] or
    [undefined]. *)
Definition readable (l : list value) : bool :=
  forallb (fun r => negb (nullish r)) l.

(** [r.nik === nik] and [r.id === id] as plain tests. *)
Definition nik_is (nik : string) (r : value) : bool :=
  match get_prop r "nik" with
  | Ret x => strict_eq x (VStr nik)
  | Throw _ => false
  end.
Definition id_is (id : Z) (r : value) : bool :=
  match get_prop r "id" with
  | Ret x => strict_eq x (VNum id)
  | Throw _ => false
  end.

(** No stored element has the identity. *)
Definition absent (id : Z) (l : list value) : bool :=
  forallb (fun r => negb (id_is id r)) l.

(** The answer of [loginPatient]. *)
Definition found (records : list value) : value :=
  VObj [("found", VBool true); ("data", VArr records)].


Definition defined (x : value) : bool :=
  match x with VUndefined => false | _ => true end.

(** The properties of [{ ...rec, ...changes }] for a stored record with the
    properties [rec]. *)
Definition merged (rec : list (string * value)) (changes : value)
  : list (string * value) :=
  fold_left assign_part [Spread (VObj rec); Spread changes] [].

(** ** The two closures of a call

    Every method of [api] hands [trySupabase] one closure over the client
    and one over the local store; [registerPatient] builds its record
    first, which throws when the argument is [null] or [undefined]. *)
Definition parts {Remote : Type} (supabase : query -> M Remote response)
    (c : call) : outcome (M Remote response * M Local value) :=
  match c with
  | CheckNik nik => Ret (checkNik_remote supabase nik, checkNik_fallback nik)
  | GetDoctors => Ret (select_all supabase "doctors" None, get_doctors)
  | LoginPatient nik =>
      Ret (loginPatient_remote supabase nik, loginPatient_fallback nik)
  | RegisterPatient amb data =>
      let* nd := newData amb data in
      Ret (registerPatient_remote supabase nd, registerPatient_fallback amb nd)
  | SendMessage amb data =>
      Ret (insert_one supabase "messages"
             (object [Spread data; Field "is_read" (VBool false)])
             (object [Field "message" (VStr "success")]),
           sendMessage_fallback amb data)
  | GetRegistrations =>
      Ret (select_all supabase "registrations" (Some ("created_at", false)),
           get_mock "registrations" (VArr []))
  | UpdateRegistration id status ps cost pd pp ct fn =>
      Ret (update_by_id supabase "registrations" id
             (VObj (updates status ps cost pd pp ct fn)),
           update_found "registrations" id
             (VObj (updates status ps cost pd pp ct fn)))
  | GetMessages =>
      Ret (select_all supabase "messages" (Some ("created_at", false)),
           get_mock "messages" (VArr []))
  | UpdateMessage id data =>
      Ret (update_by_id supabase "messages" id data,
           update_found "messages" id data)
  | AddDoctor amb data =>
      Ret (insert_one supabase "doctors" data (VBool true),
           addDoctor_fallback amb data)
  | UpdateDoctor id data =>
      Ret (update_by_id supabase "doctors" id data, updateDoctor_fallback id data)
  | DeleteDoctor id =>
      Ret (delete_by_id supabase "doctors" id, deleteDoctor_fallback id)
  | GetUsers => Ret (select_all supabase "users" None, get_mock "users" (VArr []))
  | AddUser amb data =>
      Ret (insert_one supabase "users" data (VBool true),
           add_fallback "users" amb data)
  | UpdateUser id data =>
      Ret (update_by_id supabase "users" id data, update_fallback "users" id data)
  | DeleteUser id =>
      Ret (delete_by_id supabase "users" id, delete_fallback "users" id)
  | GetBPJS =>
      Ret (select_all supabase "bpjs_data" None, get_mock "bpjs_data" (VArr []))
  | AddBPJS amb data =>
      Ret (insert_one supabase "bpjs_data" data (VBool true),
           add_fallback "bpjs_data" amb data)
  | UpdateBPJS id data =>
      Ret (update_by_id supabase "bpjs_data" id data,
           update_fallback "bpjs_data" id data)
  | DeleteBPJS id =>
      Ret (delete_by_id supabase "bpjs_data" id, delete_fallback "bpjs_data" id)
  | GetFacilities =>
      Ret (select_all supabase "facilities" None,
           get_mock "facilities" (VArr []))
  | AddFacility amb data =>
      Ret (insert_one supabase "facilities" data (VBool true),
           add_fallback "facilities" amb data)
  | UpdateFacility id data =>
      Ret (update_by_id supabase "facilities" id data,
           update_fallback "facilities" id data)
  | DeleteFacility id =>
      Ret (delete_by_id supabase "facilities" id,
           delete_fallback "facilities" id)
  | GetRooms => Ret (select_all supabase "rooms" None, get_mock "rooms" (VArr []))
  | AddRoom amb data =>
      Ret (insert_one supabase "rooms" data (VBool true),
           add_fallback "rooms" amb data)
  | UpdateRoom id data =>
      Ret (update_by_id supabase "rooms" id data, update_fallback "rooms" id data)
  | DeleteRoom id =>
      Ret (delete_by_id supabase "rooms" id, delete_fallback "rooms" id)
  | GetBanks =>
      Ret (getBanks_remote supabase, get_mock "bank_accounts" (VArr []))
  | AddBank amb data =>
      Ret (insert_one supabase "bank_accounts" data (VBool true),
           add_fallback "bank_accounts" amb data)
  | UpdateBank id data =>
      Ret (update_by_id supabase "bank_accounts" id data,
           update_fallback "bank_accounts" id data)
  | DeleteBank id =>
      Ret (delete_by_id supabase "bank_accounts" id,
           delete_fallback "bank_accounts" id)
  end.


(** ** Test doubles for the client

    The remote database as the list of the requests it has carried out. *)

(** Every request fails and leaves the database as it is. *)
Definition client_offline : query -> M (list query) response :=
  fun q db =>
    (Ret {| data := VNull;
            error := VObj [("message", VStr "TypeError: Failed to fetch")] |},
     db).

(** Every request is carried out and answered with no rows. *)
Definition client_online : query -> M (list query) response :=
  fun q db => (Ret {| data := VArr []; error := VNull |}, db ++ [q]).

(** Every request is carried out, and answered as failed: the answer is
    lost on its way back. *)
Definition client_flaky : query -> M (list query) response :=
  fun q db =>
    (Ret {| data := VNull;
            error := VObj [("message", VStr "TypeError: Failed to fetch")] |},
     db ++ [q]).

(** ** Writes to the local store *)

(** The browser takes the text of [data] under [key]. *)
Definition write_accepted (key : string) (data : value) (st : Local) : bool :=
  accepts st key (stored_text data) (localStorage st).

(** The items once [setItem] has stored the text of [data] under [key]. *)
Definition put (key : string) (data : value) (ls : gmap string string)
  : gmap string string :=
  <[key := stored_text data]> ls.

(** A browser that takes every text, and one that takes none. *)
Definition unlimited : string -> string -> gmap string string -> bool :=
  fun _ _ _ => true.
Definition storage_disabled : string -> string -> gmap string string -> bool :=
  fun _ _ _ => false.

Definition local_empty : Local :=
  {| localStorage := ∅; accepts := unlimited;
     MOCK_DOCTORS := MOCK_DOCTORS_initial |}.

(** ** Sample stores *)

Definition sample_regs : list value :=
  [ VObj [("id", VNum 1); ("nik", VStr "3502011234567890");
          ("status", VStr "Pending"); ("payment_status", VStr "Unpaid");
          ("cost", VNum 150000)];
    VObj [("id", VNum 2); ("nik", VStr "3502019876543210");
          ("status", VStr "Pending")] ].

Definition sample_users : list value :=
  [ VObj [("id", VNum 5); ("name", VStr "admin")] ].

Definition sample_local : Local :=
  {| localStorage :=
       put "registrations" (VArr sample_regs)
         (put "users" (VArr sample_users) ∅);
     accepts := unlimited;
     MOCK_DOCTORS := MOCK_DOCTORS_initial |}.

Definition sample_world : World (list query) :=
  {| remote := []; local := sample_local |}.

(** The same store in a browser that takes no text. *)
Definition sample_local_full : Local :=
  {| localStorage := localStorage sample_local;
     accepts := storage_disabled;
     MOCK_DOCTORS := MOCK_DOCTORS_initial |}.

Definition sample_world_full : World (list query) :=
  {| remote := []; local := sample_local_full |}.

(** ** Rows and arrays *)

Definition is_array (v : value) : bool :=
  match v with VArr _ => true | _ => false end.

(** Every property holds JSON data or [undefined]. *)
Definition plain_or_undefined (ps : list (string * value)) : bool :=
  forallb (fun kx => JSON_spec.plain (snd kx) || negb (defined (snd kx))) ps.

(** The properties that are written: those whose value is not
    [undefined]. *)
Definition written_props (ps : list (string * value)) : list (string * value) :=
  List.filter (fun kx => defined (snd kx)) ps.

(** The properties of [{ id: now, ...data }]. *)
Definition new_row (now : Z) (data : value) : list (string * value) :=
  fold_left assign_part [Field "id" (VNum now); Spread data] [].

(** The properties of the message [sendMessage] stores. *)
Definition message_row (amb : Ambient) (data : value) : list (string * value) :=
  fold_left assign_part
    [Field "id" (VNum (now amb)); Spread data; Field "is_read" (VBool false);
     Field "created_at" (VStr (iso_now amb))] [].

(** The keys [registerPatient] sets itself. *)
Definition derived_keys : list string :=
  ["bookingCode"; "booking_code"; "payment_status"; "payment_detail"; "cost";
   "status"; "created_at"].

(** The elements that do not have the identity, in their order. *)
Definition others (id : Z) (rows : list value) : list value :=
  List.filter (fun r => negb (id_is id r)) rows.

(** ** Invariants of the local store *)

(** A computation on the local store keeps a property of it. *)
Definition preserves {A} (I : Local -> Prop) (m : M Local A) : Prop :=
  forall st, I st -> I (snd (m st)).

(** Every text in the store parses, and to an array. *)
Definition arrays_only (st : Local) : Prop :=
  forall key s, localStorage st !! key = Some s ->
                exists l, JSON.parse s = Ret (VArr l).

(** The store has the items of [st0], in the same browser. *)
Definition same_items (st0 st : Local) : Prop :=
  localStorage st = localStorage st0 /\ accepts st = accepts st0.

(** The two methods that change the array they read in place. *)
Definition changes_doctors (c : call) : bool :=
  match c with
  | AddDoctor _ _ | UpdateDoctor _ _ => true
  | _ => false
  end.

(** The client answers every request with the same response and carries
    nothing out. *)
Definition client_answering (r : response) : query -> M (list query) response :=
  fun q db => (Ret r, db).

(** A store whose text under [rooms] parses to an object, not an array. *)
Definition sample_local_object : Local :=
  {| localStorage := put "rooms" (VObj [("total", VNum 3)]) ∅;
     accepts := unlimited;
     MOCK_DOCTORS := MOCK_DOCTORS_initial |}.

(** Rooms in which one identity is stored twice. *)
Definition sample_rooms : list value :=
  [ VObj [("id", VNum 1); ("name", VStr "Mawar")];
    VObj [("id", VNum 2); ("name", VStr "Melati")];
    VObj [("id", VNum 1); ("name", VStr "Anggrek")];
    VObj [("id", VNum 3); ("name", VStr "Dahlia")] ].

Definition sample_world_rooms : World (list query) :=
  {| remote := [];
     local := {| localStorage := put "rooms" (VArr sample_rooms) ∅;
                 accepts := unlimited;
                 MOCK_DOCTORS := MOCK_DOCTORS_initial |} |}.

Definition sample_patient : list (string * value) :=
  [("nik", VStr "3502015555555555"); ("name", VStr "Siti");
   ("payment", VStr "umum")].

(** The record [registerPatient] builds for [sample_patient] at
    [sample_ambient]. *)
Definition sample_record : list (string * value) :=
  [("nik", VStr "3502015555555555"); ("name", VStr "Siti");
   ("payment", VStr "umum"); ("bookingCode", VStr "REG-5500");
   ("booking_code", VStr "REG-5500"); ("payment_status", VStr "Unpaid");
   ("payment_detail", VStr "Tunai"); ("cost", VNum 0);
   ("status", VStr "Pending");
   ("created_at", VStr "2024-05-17T03:12:45.120Z")].

Definition sample_world_object : World (list query) :=
  {| remote := []; local := sample_local_object |}.

Definition answer_no_rows : response := {| data := VArr []; error := VNull |}.
Definition answer_null : response := {| data := VNull; error := VNull |}.
Definition answer_row : response :=
  {| data := VArr [VObj [("id", VNum 42); ("status", VStr "Queued")]];
     error := VNull |}.

(** * Properties *)

(** ** Writing a value and reading it back *)

Module JSON_facts.
Import JSON JSON_spec.

Local Open Scope char_scope.

Lemma parse_chars_escape (c : ascii) (tl : list ascii) :
  parse_chars (escape_char c ++ tl) = push_char c (parse_chars tl).
Proof.
  destruct c as [[] [] [] [] [] [] [] []]; reflexivity.
Qed.

Lemma parse_chars_quote_tail (s : string) (rest : list ascii) :
  parse_chars (quote_tail s ++ rest) = Some (s, rest).
Proof.
  induction s as [|c s IH]; simpl.
  - reflexivity.
  - rewrite <- app_assoc, parse_chars_escape, IH. reflexivity.
Qed.

Lemma read_digits_stop (rest : list ascii) :
  ends_number rest -> read_digits rest = (Decimal.Nil, rest).
Proof.
  destruct rest as [|c r]; simpl; [reflexivity|].
  intros [-> _]. reflexivity.
Qed.

Lemma read_digits_digits (d : Decimal.uint) (rest : list ascii) :
  ends_number rest -> read_digits (digits d ++ rest) = (d, rest).
Proof.
  intros Hr. unfold digits.
  induction d; cbn [NilEmpty.string_of_uint list_ascii_of_string app];
    try (cbn [read_digits]; change (read_digits (?l ++ rest)) with (read_digits (l ++ rest)));
    [apply read_digits_stop; assumption|..];
    (cbn -[read_digits] in *; unfold digit_of; cbn -[read_digits];
     rewrite IHd; reflexivity).
Qed.

Lemma nzhead_not_D0 (d d' : Decimal.uint) : Decimal.nzhead d <> Decimal.D0 d'.
Proof. induction d; simpl; congruence. Qed.

Lemma to_uint_unorm (p : positive) :
  Pos.to_uint p = Decimal.unorm (Pos.to_uint p).
Proof.
  rewrite <- (DecimalPos.Unsigned.to_of (Pos.to_uint p)).
  rewrite DecimalPos.Unsigned.of_to. reflexivity.
Qed.

Lemma to_uint_shape (p : positive) :
  Pos.to_uint p <> Decimal.Nil /\ forall d, Pos.to_uint p <> Decimal.D0 d.
Proof.
  split; [apply DecimalPos.Unsigned.to_uint_nonnil|].
  intros d Hd.
  pose proof (to_uint_unorm p) as Hn. unfold Decimal.unorm in Hn.
  pose proof (nzhead_not_D0 (Pos.to_uint p)) as Hz.
  destruct (Decimal.nzhead (Pos.to_uint p)) eqn:E.
  - apply (DecimalPos.Unsigned.to_uint_nonzero p). exact Hn.
  - apply (Hz d). congruence.
  - congruence.
  - congruence.
  - congruence.
  - congruence.
  - congruence.
  - congruence.
  - congruence.
  - congruence.
  - congruence.
Qed.

Lemma of_uint_to_uint (p : positive) : Z.of_uint (Pos.to_uint p) = Zpos p.
Proof.
  unfold Z.of_uint. rewrite DecimalPos.Unsigned.of_to. reflexivity.
Qed.

Lemma digits_head (p : positive) :
  exists c t, digits (Pos.to_uint p) = c :: t /\ Ascii.eqb c "-" = false.
Proof.
  destruct (to_uint_shape p) as [Hnil _].
  unfold digits.
  destruct (Pos.to_uint p); try congruence; simpl; eauto.
Qed.

Lemma parse_number_shape (neg : bool) (d : Decimal.uint) (r : list ascii) :
  d <> Decimal.Nil -> (forall d', d <> Decimal.D0 d') ->
  match d with
  | Decimal.Nil => None
  | Decimal.D0 Decimal.Nil => Some (0%Z, r)
  | Decimal.D0 _ => None
  | _ => Some (if neg then Z.opp (Z.of_uint d) else Z.of_uint d, r)
  end = Some (if neg then Z.opp (Z.of_uint d) else Z.of_uint d, r).
Proof.
  intros Hnil Hz. destruct d; try reflexivity; [congruence|].
  exfalso. eapply Hz. reflexivity.
Qed.

Lemma parse_number_print (n : Z) (rest : list ascii) :
  ends_number rest ->
  parse_number (print_number n ++ rest) = Some (n, rest).
Proof.
  intros Hr.
  assert (Hf : starts_fraction rest = false).
  { destruct rest; [reflexivity|]. apply Hr. }
  destruct n as [|p|p].
  - unfold parse_number. cbn -[starts_fraction].
    rewrite (read_digits_stop rest Hr).
    change (digit_of "0") with (Some Decimal.D0). cbv beta iota zeta.
    rewrite Hf. reflexivity.
  - unfold parse_number, print_number.
    destruct (digits_head p) as (c & t & E & Hc).
    rewrite E. cbn [app]. rewrite Hc.
    change (c :: t ++ rest) with ((c :: t) ++ rest). rewrite <- E.
    rewrite (read_digits_digits _ _ Hr), Hf.
    destruct (to_uint_shape p) as [Hnil Hz].
    rewrite (parse_number_shape false _ _ Hnil Hz), of_uint_to_uint.
    reflexivity.
  - unfold parse_number, print_number. cbn [app].
    change (Ascii.eqb "-" "-") with true. cbv iota.
    rewrite (read_digits_digits _ _ Hr), Hf.
    destruct (to_uint_shape p) as [Hnil Hz].
    rewrite (parse_number_shape true _ _ Hnil Hz), of_uint_to_uint.
    reflexivity.
Qed.

(** The unfolding of the three parsers. *)
Lemma parse_value_S (f : nat) (cs : list ascii) :
  parse_value (S f) cs =
  match skip_ws cs with
  | [] => None
  | c :: r =>
      if Ascii.eqb c "n" then
        match strip_prefix ["u"; "l"; "l"] r with
        | Some r' => Some (VNull, r') | None => None end
      else if Ascii.eqb c "t" then
        match strip_prefix ["r"; "u"; "e"] r with
        | Some r' => Some (VBool true, r') | None => None end
      else if Ascii.eqb c "f" then
        match strip_prefix ["a"; "l"; "s"; "e"] r with
        | Some r' => Some (VBool false, r') | None => None end
      else if Ascii.eqb c dquote then
        match parse_chars r with
        | Some (s, r') => Some (VStr s, r') | None => None end
      else if Ascii.eqb c "[" then
        match skip_ws r with
        | c' :: r' =>
            if Ascii.eqb c' "]" then Some (VArr [], r')
            else
              match parse_value f r with
              | Some (x, r1) => parse_elems f [x] r1
              | None => None
              end
        | [] => None
        end
      else if Ascii.eqb c "{" then
        match skip_ws r with
        | c' :: r' =>
            if Ascii.eqb c' "}" then Some (VObj [], r')
            else parse_member (parse_value f) (parse_members f) [] r
        | [] => None
        end
      else
        match parse_number (c :: r) with
        | Some (n, r') => Some (VNum n, r') | None => None end
  end.
Proof. reflexivity. Qed.

Lemma parse_elems_S (f : nat) (acc : list value) (cs : list ascii) :
  parse_elems (S f) acc cs =
  match skip_ws cs with
  | c :: r =>
      if Ascii.eqb c "]" then Some (VArr acc, r)
      else if Ascii.eqb c "," then
        match parse_value f r with
        | Some (x, r1) => parse_elems f (acc ++ [x]) r1
        | None => None
        end
      else None
  | [] => None
  end.
Proof. reflexivity. Qed.

Lemma parse_members_S (f : nat) (acc : list (string * value)) (cs : list ascii) :
  parse_members (S f) acc cs =
  match skip_ws cs with
  | c :: r =>
      if Ascii.eqb c "}" then Some (VObj acc, r)
      else if Ascii.eqb c "," then
        parse_member (parse_value f) (parse_members f) acc r
      else None
  | [] => None
  end.
Proof. reflexivity. Qed.

Global Opaque parse_value parse_elems parse_members.

Lemma delimited_ends_number (rest : list ascii) :
  delimited rest -> ends_number rest.
Proof.
  destruct rest as [|c r]; simpl; [trivial|].
  intros [-> | [-> | ->]]; split; reflexivity.
Qed.

Lemma head_ok_skip_ws (t rest : list ascii) :
  head_ok t -> skip_ws (t ++ rest) = t ++ rest.
Proof.
  destruct t as [|c t]; simpl; [tauto|]. intros (-> & _). reflexivity.
Qed.

Lemma head_ok_length (t : list ascii) : head_ok t -> (0 < length t)%nat.
Proof. destruct t; simpl; [tauto|lia]. Qed.

Ltac solve_len :=
  cbn [app length fst snd] in *;
  repeat rewrite ?length_app, ?length_cons in *;
  cbn [length] in *; lia.

(** *** Arrays *)

Lemma join_elems_tail (t : list ascii) (n : value)
    (its : list (list ascii * value)) :
  join (map fst ((t, n) :: its)) ++ ["]"] = t ++ elems_tail its.
Proof.
  revert t n. induction its as [|[t' n'] its IH]; intros t n.
  - reflexivity.
  - change (join (map fst ((t, n) :: (t', n') :: its)))
      with (t ++ "," :: join (map fst ((t', n') :: its))).
    rewrite <- app_assoc. cbn [app]. rewrite (IH t' n'). reflexivity.
Qed.

Lemma delimited_elems_tail (its : list (list ascii * value)) (rest : list ascii) :
  delimited (elems_tail its ++ rest).
Proof. destruct its; simpl; auto. Qed.

Lemma parse_elems_items (items : list (list ascii * value)) :
  Forall (fun it => Parses (fst it) (snd it)) items ->
  forall acc fuel rest,
    (length (elems_tail items ++ rest) < fuel)%nat ->
    parse_elems fuel acc (elems_tail items ++ rest)
    = Some (VArr (acc ++ map snd items), rest).
Proof.
  induction 1 as [|[t n] its [Hh Ht] _ IH]; intros acc fuel rest Hlen.
  - destruct fuel as [|f]; [simpl in Hlen; lia|].
    rewrite parse_elems_S. simpl. rewrite app_nil_r. reflexivity.
  - destruct fuel as [|f]; [simpl in Hlen; lia|].
    cbn [elems_tail] in Hlen.
    rewrite parse_elems_S. cbn [elems_tail fst snd app skip_ws] in *.
    change (is_ws ",") with false. cbv iota.
    change (Ascii.eqb "," "]") with false.
    change (Ascii.eqb "," ",") with true. cbv iota.
    rewrite <- app_assoc.
    rewrite Ht.
    + rewrite IH.
      * cbn [map snd]. rewrite <- app_assoc. reflexivity.
      * solve_len.
    + solve_len.
    + apply delimited_elems_tail.
Qed.

(** *** Objects *)

Lemma join_members_tail (it : string * list ascii * value)
    (its : list (string * list ascii * value)) :
  join (map member_text (it :: its)) ++ ["}"] = member_text it ++ members_tail its.
Proof.
  revert it. induction its as [|it' its IH]; intros it.
  - reflexivity.
  - change (join (map member_text (it :: it' :: its)))
      with (member_text it ++ "," :: join (map member_text (it' :: its))).
    rewrite <- app_assoc. cbn [app]. rewrite (IH it'). reflexivity.
Qed.

Lemma delimited_members_tail (its : list (string * list ascii * value))
    (rest : list ascii) :
  delimited (members_tail its ++ rest).
Proof. destruct its; simpl; auto. Qed.

Lemma parse_member_text (f : nat) (acc : list (string * value))
    (k : string) (t : list ascii) (n : value) (tl : list ascii) :
  Parses t n -> (length (t ++ tl) < f)%nat -> delimited tl ->
  parse_member (parse_value f) (parse_members f) acc
    (member_text (k, t, n) ++ tl)
  = parse_members f (obj_set k n acc) tl.
Proof.
  intros [_ Ht] Hlen Hd.
  unfold parse_member, member_text, quote. cbn [fst snd app skip_ws].
  change (is_ws dquote) with false. cbv iota.
  change (Ascii.eqb dquote dquote) with true. cbv iota.
  rewrite <- app_assoc, parse_chars_quote_tail.
  cbn [app skip_ws]. change (is_ws ":") with false. cbv iota.
  change (Ascii.eqb ":" ":") with true. cbv iota.
  rewrite (Ht f tl Hlen Hd). reflexivity.
Qed.

Lemma parse_members_items (items : list (string * list ascii * value)) :
  Forall (fun it => Parses (snd (fst it)) (snd it)) items ->
  forall acc fuel rest,
    (length (members_tail items ++ rest) < fuel)%nat ->
    parse_members fuel acc (members_tail items ++ rest)
    = Some (VObj (fold_left set_kv (map member_kv items) acc), rest).
Proof.
  induction 1 as [|[[k t] n] its Ht _ IH]; intros acc fuel rest Hlen.
  - destruct fuel as [|f]; [simpl in Hlen; lia|].
    rewrite parse_members_S. reflexivity.
  - destruct fuel as [|f]; [simpl in Hlen; lia|].
    cbn [members_tail] in Hlen.
    rewrite parse_members_S. cbn [members_tail app skip_ws].
    change (is_ws ",") with false. cbv iota.
    change (Ascii.eqb "," "}") with false.
    change (Ascii.eqb "," ",") with true. cbv iota.
    cbn [fst snd] in Ht.
    assert (Hl : (length (member_text (k, t, n) ++ members_tail its ++ rest) < f)%nat).
    { solve_len. }
    rewrite <- app_assoc.
    rewrite (parse_member_text f acc k t n _ Ht).
    + rewrite IH; [reflexivity|]. unfold member_text in Hl. solve_len.
    + unfold member_text in Hl. solve_len.
    + apply delimited_members_tail.
Qed.

(** *** Every value *)

Lemma parse_value_number (f : nat) (c : ascii) (r : list ascii) :
  number_start c = true ->
  parse_value (S f) (c :: r)
  = match parse_number (c :: r) with
    | Some (n, r') => Some (VNum n, r')
    | None => None
    end.
Proof.
  intros Hc. rewrite parse_value_S.
  destruct c as [[] [] [] [] [] [] [] []]; try discriminate Hc; reflexivity.
Qed.

Lemma number_start_head_ok (c : ascii) (t : list ascii) :
  number_start c = true -> head_ok (c :: t).
Proof.
  intros Hc.
  destruct c as [[] [] [] [] [] [] [] []]; try discriminate Hc;
    repeat split; reflexivity.
Qed.

Lemma print_number_head (n : Z) :
  exists c t, print_number n = c :: t /\ number_start c = true.
Proof.
  destruct n as [|p|p]; simpl; eauto.
  destruct (to_uint_shape p) as [Hnil _]. unfold digits.
  destruct (Pos.to_uint p); try congruence; simpl; eauto.
Qed.

Lemma Parses_number (n : Z) : Parses (print_number n) (VNum n).
Proof.
  destruct (print_number_head n) as (c & t & E & Hc). split.
  - rewrite E. apply number_start_head_ok, Hc.
  - intros fuel rest Hlen Hd.
    destruct fuel as [|f]; [lia|].
    rewrite E. cbn [app]. rewrite (parse_value_number f c _ Hc).
    change (c :: t ++ rest) with ((c :: t) ++ rest). rewrite <- E.
    rewrite parse_number_print; [reflexivity|].
    apply delimited_ends_number, Hd.
Qed.

Lemma Parses_keyword (kw : list ascii) (v : value) :
  (kw, v) = (kw_null, VNull) \/ (kw, v) = (kw_true, VBool true)
  \/ (kw, v) = (kw_false, VBool false) ->
  Parses kw v.
Proof.
  intros H. split.
  - destruct H as [[= -> ->] | [[= -> ->] | [= -> ->]]]; repeat split; reflexivity.
  - intros fuel rest Hlen _. destruct fuel as [|f]; [lia|].
    rewrite parse_value_S.
    destruct H as [[= -> ->] | [[= -> ->] | [= -> ->]]]; reflexivity.
Qed.

Lemma Parses_string (s : string) : Parses (quote s) (VStr s).
Proof.
  split.
  - repeat split; reflexivity.
  - intros fuel rest Hlen _. destruct fuel as [|f]; [lia|].
    rewrite parse_value_S. unfold quote. cbn [app skip_ws].
    change (is_ws dquote) with false. cbv iota.
    change (Ascii.eqb dquote "n") with false.
    change (Ascii.eqb dquote "t") with false.
    change (Ascii.eqb dquote "f") with false.
    change (Ascii.eqb dquote dquote) with true. cbv iota.
    rewrite parse_chars_quote_tail. reflexivity.
Qed.

Lemma Parses_array (items : list (list ascii * value)) :
  Forall (fun it => Parses (fst it) (snd it)) items ->
  Parses ("[" :: join (map fst items) ++ ["]"]) (VArr (map snd items)).
Proof.
  intros Hall. split; [repeat split; reflexivity|].
  intros fuel rest Hlen _. destruct fuel as [|f]; [lia|].
  rewrite parse_value_S. cbn [app skip_ws].
  change (is_ws "[") with false. cbv iota.
  change (Ascii.eqb "[" "n") with false.
  change (Ascii.eqb "[" "t") with false.
  change (Ascii.eqb "[" "f") with false.
  change (Ascii.eqb "[" dquote) with false.
  change (Ascii.eqb "[" "[") with true. cbv iota.
  destruct items as [|[t n] its].
  - reflexivity.
  - rewrite join_elems_tail in *. rewrite <- app_assoc in *.
    inversion Hall as [|? ? [Hh Ht] Hits]; subst. cbn [fst snd] in *.
    rewrite (head_ok_skip_ws _ _ Hh).
    destruct t as [|c t']; [destruct Hh|].
    destruct Hh as (_ & Hc & _). cbn [app]. rewrite Hc.
    change (c :: t' ++ elems_tail its ++ rest)
      with ((c :: t') ++ elems_tail its ++ rest).
    rewrite Ht.
    + rewrite (parse_elems_items its Hits); [reflexivity|]. solve_len.
    + solve_len.
    + apply delimited_elems_tail.
Qed.

Lemma Parses_object (items : list (string * list ascii * value)) :
  Forall (fun it => Parses (snd (fst it)) (snd it)) items ->
  Parses ("{" :: join (map member_text items) ++ ["}"])
         (VObj (fold_left set_kv (map member_kv items) [])).
Proof.
  intros Hall. split; [repeat split; reflexivity|].
  intros fuel rest Hlen _. destruct fuel as [|f]; [lia|].
  rewrite parse_value_S. cbn [app skip_ws].
  change (is_ws "{") with false. cbv iota.
  change (Ascii.eqb "{" "n") with false.
  change (Ascii.eqb "{" "t") with false.
  change (Ascii.eqb "{" "f") with false.
  change (Ascii.eqb "{" dquote) with false.
  change (Ascii.eqb "{" "[") with false.
  change (Ascii.eqb "{" "{") with true. cbv iota.
  destruct items as [|[[k t] n] its].
  - reflexivity.
  - rewrite join_members_tail in *. rewrite <- app_assoc in *.
    inversion Hall as [|? ? Ht Hits]; subst. cbn [fst snd] in *.
    assert (Hsk : skip_ws (member_text (k, t, n) ++ members_tail its ++ rest)
                  = dquote :: quote_tail k ++ ":" :: t ++ members_tail its ++ rest).
    { unfold member_text, quote. cbn [fst snd app skip_ws].
      rewrite <- app_assoc. reflexivity. }
    rewrite Hsk. change (Ascii.eqb dquote "}") with false. cbv iota.
    assert (Hl : (length (member_text (k, t, n) ++ members_tail its ++ rest) < f)%nat)
      by solve_len.
    rewrite (parse_member_text f [] k t n _ Ht).
    + rewrite (parse_members_items its Hits); [reflexivity|].
      unfold member_text in Hl. solve_len.
    + unfold member_text in Hl. solve_len.
    + apply delimited_members_tail.
Qed.

Lemma print_None (v : value) : print v = None <-> v = VUndefined.
Proof. destruct v as [| |[]| | | |]; simpl; split; congruence. Qed.

Lemma written_texts (ps : list (string * value)) :
  omap (fun kx =>
          match print (snd kx) with
          | Some t => Some (quote (fst kx) ++ ":" :: t)
          | None => None
          end) ps
  = map member_text (written ps).
Proof.
  unfold written. induction ps as [|[k x] ps IH]; [reflexivity|].
  simpl. destruct (print x); simpl; [f_equal|]; exact IH.
Qed.

Lemma print_object (ps : list (string * value)) :
  print (VObj ps) = Some ("{" :: join (map member_text (written ps)) ++ ["}"]).
Proof. rewrite <- written_texts. reflexivity. Qed.

Lemma written_kvs (ps : list (string * value)) :
  omap (fun kx =>
          match snd kx with
          | VUndefined => None
          | _ => Some (fst kx, norm (snd kx))
          end) ps
  = map member_kv (written ps).
Proof.
  unfold written. induction ps as [|[k x] ps IH]; [reflexivity|].
  destruct x as [| |[]| | | |]; simpl; first [exact IH | f_equal; exact IH].
Qed.

Lemma norm_object (ps : list (string * value)) :
  norm (VObj ps) = VObj (fold_left set_kv (map member_kv (written ps)) []).
Proof. rewrite <- written_kvs. reflexivity. Qed.

Lemma print_array (l : list value) :
  print (VArr l)
  = Some ("[" :: join (map fst (map (fun x => (el x, norm x)) l)) ++ ["]"]).
Proof.
  cbn [print]. rewrite map_map. reflexivity.
Qed.

Lemma norm_array (l : list value) :
  norm (VArr l) = VArr (map snd (map (fun x => (el x, norm x)) l)).
Proof. cbn [norm]. rewrite map_map. reflexivity. Qed.

(** Every value is read back from its text as its normal form. *)
Theorem Parses_el (v : value) : Parses (el v) (norm v).
Proof.
  induction v as [| |b|n|s|l IH|ps IH] using value_ind.
  - apply Parses_keyword. auto.
  - apply Parses_keyword. auto.
  - destruct b; apply Parses_keyword; auto.
  - apply Parses_number.
  - apply Parses_string.
  - unfold el. rewrite print_array, norm_array. cbn [default].
    apply Parses_array. rewrite Forall_map. exact IH.
  - unfold el. rewrite print_object, norm_object. cbn [default].
    apply Parses_object. unfold written.
    induction IH as [|[k x] ps Hx _ IHps]; [constructor|].
    cbn [omap list_omap fst snd] in *.
    destruct (print x) eqn:E; [|exact IHps].
    constructor; [|exact IHps].
    cbn [fst snd]. unfold el in Hx. rewrite E in Hx. exact Hx.
Qed.

(** [JSON.parse (JSON.stringify v)] is the normal form of [v]. *)
Theorem parse_stringify (v : value) (s : string) :
  stringify v = Some s -> parse s = Ret (norm v).
Proof.
  unfold stringify, parse. intros Hs.
  destruct (print v) as [t|] eqn:E; [|discriminate].
  injection Hs as <-. rewrite list_ascii_of_string_of_list_ascii.
  destruct (Parses_el v) as [_ Hp]. unfold el in Hp. rewrite E in Hp.
  change (default kw_null (Some t)) with t in Hp.
  specialize (Hp (S (length t)) []). rewrite app_nil_r in Hp.
  rewrite Hp; [reflexivity|lia|exact I].
Qed.

(** *** Values that are read back as they are *)

Lemma obj_set_fresh (k : string) (x : value) (ps : list (string * value)) :
  existsb (String.eqb k) (map fst ps) = false ->
  obj_set k x ps = ps ++ [(k, x)].
Proof.
  induction ps as [|[k' y] ps IH]; simpl; [reflexivity|].
  intros H. apply orb_false_iff in H as [-> H]. rewrite (IH H). reflexivity.
Qed.

Lemma fold_set_distinct (ps acc : list (string * value)) :
  distinct (map fst (acc ++ ps)) = true ->
  fold_left set_kv ps acc = acc ++ ps.
Proof.
  revert acc. induction ps as [|[k x] ps IH]; intros acc H; simpl.
  - rewrite app_nil_r. reflexivity.
  - assert (Hk : existsb (String.eqb k) (map fst acc) = false).
    { clear IH. induction acc as [|[k' y] acc IHa]; simpl in *; [reflexivity|].
      apply andb_true_iff in H as [H1 H2].
      rewrite (IHa H2), orb_false_r.
      rewrite map_app, existsb_app in H1. simpl in H1.
      rewrite (String.eqb_sym k k').
      destruct (String.eqb k' k); [|reflexivity].
      rewrite orb_true_r in H1. discriminate. }
    unfold set_kv at 2. cbn [fst snd]. rewrite (obj_set_fresh _ _ _ Hk).
    rewrite IH; rewrite <- app_assoc; [reflexivity|exact H].
Qed.

Theorem norm_plain (v : value) : plain v = true -> norm v = v.
Proof.
  induction v as [| |b|n|s|l IH|ps IH] using value_ind; try reflexivity.
  - discriminate.
  - cbn [plain norm]. intros H. f_equal.
    induction IH as [|x l Hx _ IHl]; [reflexivity|].
    simpl in H. apply andb_true_iff in H as [H1 H2].
    simpl. rewrite (Hx H1), (IHl H2). reflexivity.
  - cbn [plain]. intros H. apply andb_true_iff in H as [Hd Hp].
    cbn [norm]. f_equal.
    assert (E : omap (fun kx : string * value =>
                        match snd kx with
                        | VUndefined => None
                        | _ => Some (fst kx, norm (snd kx))
                        end) ps = ps).
    { clear Hd. induction IH as [|[k x] ps Hx _ IHps]; [reflexivity|].
      simpl in Hp. apply andb_true_iff in Hp as [H1 H2].
      cbn [fst snd] in Hx. specialize (Hx H1). specialize (IHps H2).
      destruct x; simpl in *; try discriminate; rewrite ?Hx; f_equal;
        exact IHps. }
    rewrite E. apply (fold_set_distinct ps []). exact Hd.
Qed.

Lemma existsb_obj_set (k k' : string) (x : value) (ps : list (string * value)) :
  existsb (String.eqb k') (map fst (obj_set k x ps))
  = String.eqb k' k || existsb (String.eqb k') (map fst ps).
Proof.
  induction ps as [|[k0 y] ps IH]; simpl.
  - reflexivity.
  - destruct (String.eqb k k0) eqn:E; simpl.
    + apply String.eqb_eq in E. subst k0.
      destruct (String.eqb k' k); reflexivity.
    + rewrite IH. destruct (String.eqb k' k0), (String.eqb k' k); reflexivity.
Qed.

Lemma distinct_obj_set (k : string) (x : value) (ps : list (string * value)) :
  distinct (map fst ps) = true -> distinct (map fst (obj_set k x ps)) = true.
Proof.
  induction ps as [|[k0 y] ps IH]; simpl; [reflexivity|].
  intros H. apply andb_true_iff in H as [H1 H2].
  destruct (String.eqb k k0) eqn:E; simpl.
  - apply String.eqb_eq in E. subst k0. rewrite H1, H2. reflexivity.
  - rewrite existsb_obj_set, (IH H2).
    rewrite (String.eqb_sym k0 k), E. simpl.
    rewrite H1. reflexivity.
Qed.

Lemma plain_obj_set (k : string) (x : value) (ps : list (string * value)) :
  plain (VObj ps) = true -> plain x = true ->
  plain (VObj (obj_set k x ps)) = true.
Proof.
  cbn [plain]. intros H Hx. apply andb_true_iff in H as [Hd Hp].
  rewrite (distinct_obj_set k x ps Hd). simpl.
  clear Hd. induction ps as [|[k0 y] ps IH]; simpl in *.
  - rewrite Hx. reflexivity.
  - apply andb_true_iff in Hp as [H1 H2].
    destruct (String.eqb k k0); simpl; [rewrite Hx, H2|rewrite H1, (IH H2)];
      reflexivity.
Qed.

Lemma parse_member_plain
    (pv : list ascii -> option (value * list ascii))
    (pm : list (string * value) -> list ascii -> option (value * list ascii)) :
  (forall cs v r, pv cs = Some (v, r) -> plain v = true) ->
  (forall acc cs v r,
      plain (VObj acc) = true -> pm acc cs = Some (v, r) -> plain v = true) ->
  forall acc cs v r,
    plain (VObj acc) = true ->
    parse_member pv pm acc cs = Some (v, r) -> plain v = true.
Proof.
  intros Hpv Hpm acc cs v r Hacc. unfold parse_member.
  destruct (skip_ws cs) as [|c r0]; [discriminate|].
  destruct (Ascii.eqb c dquote); [|discriminate].
  destruct (parse_chars r0) as [[k r1]|]; [|discriminate].
  destruct (skip_ws r1) as [|c1 r2]; [discriminate|].
  destruct (Ascii.eqb c1 ":"); [|discriminate].
  destruct (pv r2) as [[x r3]|] eqn:E; [|discriminate].
  apply Hpm. apply plain_obj_set; [exact Hacc|exact (Hpv _ _ _ E)].
Qed.

(** Whatever the parsers give is plain. *)
Lemma parsers_plain (fuel : nat) :
  (forall cs v r, parse_value fuel cs = Some (v, r) -> plain v = true)
  /\ (forall acc cs v r,
         plain (VArr acc) = true ->
         parse_elems fuel acc cs = Some (v, r) -> plain v = true)
  /\ (forall acc cs v r,
         plain (VObj acc) = true ->
         parse_members fuel acc cs = Some (v, r) -> plain v = true).
Proof.
  induction fuel as [|f (IHv & IHe & IHm)].
  - repeat split; intros; discriminate.
  - repeat split.
    + intros cs v r. rewrite parse_value_S.
      destruct (skip_ws cs) as [|c r0]; [discriminate|].
      destruct (Ascii.eqb c "n").
      { destruct (strip_prefix _ r0); intros [= <- <-] || discriminate.
        reflexivity. }
      destruct (Ascii.eqb c "t").
      { destruct (strip_prefix _ r0); intros [= <- <-] || discriminate.
        reflexivity. }
      destruct (Ascii.eqb c "f").
      { destruct (strip_prefix _ r0); intros [= <- <-] || discriminate.
        reflexivity. }
      destruct (Ascii.eqb c dquote).
      { destruct (parse_chars r0) as [[s r1]|]; intros [= <- <-] || discriminate.
        reflexivity. }
      destruct (Ascii.eqb c "[").
      { destruct (skip_ws r0) as [|c' r']; [discriminate|].
        destruct (Ascii.eqb c' "]"); [intros [= <- <-]; reflexivity|].
        destruct (parse_value f r0) as [[x r1]|] eqn:E; [|discriminate].
        apply IHe. cbn [plain forallb]. rewrite (IHv _ _ _ E). reflexivity. }
      destruct (Ascii.eqb c "{").
      { destruct (skip_ws r0) as [|c' r']; [discriminate|].
        destruct (Ascii.eqb c' "}"); [intros [= <- <-]; reflexivity|].
        apply (parse_member_plain _ _ IHv IHm). reflexivity. }
      destruct (parse_number (c :: r0)) as [[n r1]|]; intros [= <- <-] || discriminate.
      reflexivity.
    + intros acc cs v r Hacc. rewrite parse_elems_S.
      destruct (skip_ws cs) as [|c r0]; [discriminate|].
      destruct (Ascii.eqb c "]"); [intros [= <- <-]; exact Hacc|].
      destruct (Ascii.eqb c ","); [|discriminate].
      destruct (parse_value f r0) as [[x r1]|] eqn:E; [|discriminate].
      apply IHe. cbn [plain] in *. rewrite forallb_app, Hacc. simpl.
      rewrite (IHv _ _ _ E). reflexivity.
    + intros acc cs v r Hacc. rewrite parse_members_S.
      destruct (skip_ws cs) as [|c r0]; [discriminate|].
      destruct (Ascii.eqb c "}"); [intros [= <- <-]; exact Hacc|].
      destruct (Ascii.eqb c ","); [|discriminate].
      apply (parse_member_plain _ _ IHv IHm). exact Hacc.
Qed.

Theorem parse_plain (s : string) (v : value) :
  parse s = Ret v -> plain v = true.
Proof.
  unfold parse.
  destruct (parse_value _ _) as [[x r]|] eqn:E; [|discriminate].
  destruct (skip_ws r); [|discriminate].
  intros [= <-]. exact (proj1 (parsers_plain _) _ _ _ E).
Qed.

End JSON_facts.

(** ** The local store *)

Section local_store.

Import JSON_spec JSON_facts.

Lemma parse_empty : JSON.parse "" = Throw SyntaxError.
Proof. reflexivity. Qed.

Lemma read_stored_cases (key : string) (ls : gmap string string) :
  try_catch (read_stored key ls) (fun _ => Ret None)
  = Ret (match ls !! key with
         | Some stored =>
             match JSON.parse stored with
             | Ret v => Some v
             | Throw _ => None
             end
         | None => None
         end).
Proof.
  unfold read_stored. destruct (ls !! key) as [stored|]; [|reflexivity].
  unfold nonempty. destruct (String.eqb_spec stored "") as [->|_].
  - reflexivity.
  - simpl. destruct (JSON.parse stored); reflexivity.
Qed.

Lemma getMockData_cases (key : string) (defaultData : value)
    (ls : gmap string string) :
  getMockData key defaultData ls
  = Ret (match ls !! key with
         | Some stored =>
             match JSON.parse stored with
             | Ret v => v
             | Throw _ => defaultData
             end
         | None => defaultData
         end).
Proof.
  unfold getMockData. rewrite read_stored_cases. simpl.
  destruct (ls !! key) as [stored|]; [|reflexivity].
  destruct (JSON.parse stored); reflexivity.
Qed.

(** C7.  [getMockData] never throws: it answers what [JSON.parse] reads
    from the text stored under the key, and the caller's default when
    nothing is stored there or the text does not parse. *)
Theorem getMockData_total (key : string) (defaultData : value)
    (ls : gmap string string) :
  getMockData key defaultData ls
  = Ret (match ls !! key with
         | Some stored =>
             match JSON.parse stored with
             | Ret v => v
             | Throw _ => defaultData
             end
         | None => defaultData
         end).
Proof. apply getMockData_cases. Qed.

Lemma stored_text_stringify (data : value) :
  data <> VUndefined -> JSON.stringify data = Some (stored_text data).
Proof.
  intros Hd. unfold stored_text, JSON.stringify.
  destruct (JSON.print data) eqn:E; [reflexivity|].
  apply print_None in E. contradiction.
Qed.

Lemma getMockData_put (key : string) (data defaultData : value)
    (ls : gmap string string) :
  data <> VUndefined ->
  getMockData key defaultData (put key data ls) = Ret (JSON.norm data).
Proof.
  intros Hd. rewrite getMockData_cases. unfold put.
  rewrite lookup_insert_eq.
  rewrite (parse_stringify data _ (stored_text_stringify data Hd)).
  reflexivity.
Qed.

(** [setMockData] never throws; it stores the text when the browser takes
    it and changes nothing when it does not. *)
Lemma setMockData_cases (key : string) (data : value) (st : Local) :
  setMockData key data st
  = (Ret tt,
     if write_accepted key data st
     then {| localStorage := put key data (localStorage st);
             accepts := accepts st;
             MOCK_DOCTORS := MOCK_DOCTORS st |}
     else st).
Proof.
  unfold setMockData, try_catch_M, setItem, write_accepted, put.
  destruct (accepts st key (stored_text data) (localStorage st)); reflexivity.
Qed.

Lemma setMockData_other_key (key key' : string) (data : value) (st : Local) :
  key' <> key ->
  localStorage (snd (setMockData key data st)) !! key'
  = localStorage st !! key'.
Proof.
  intros Hk. rewrite setMockData_cases. cbn [snd].
  destruct (write_accepted key data st); [|reflexivity].
  cbn [localStorage]. unfold put. apply lookup_insert_ne. congruence.
Qed.

Lemma setMockData_MOCK_DOCTORS (key : string) (data : value) (st : Local) :
  MOCK_DOCTORS (snd (setMockData key data st)) = MOCK_DOCTORS st.
Proof.
  rewrite setMockData_cases. cbn [snd].
  destruct (write_accepted key data st); reflexivity.
Qed.



End local_store.

(** ** The wrapper *)

Section wrapper.

Variable env : ImportMetaEnv.
Context {St : Type}.
Variables (operation : M St response) (fallback : M St value).

Lemma trySupabase_disabled (s : St) :
  isSupabaseEnabled env = false ->
  trySupabase env operation fallback s = fallback s.
Proof. unfold trySupabase. intros ->. reflexivity. Qed.

Lemma trySupabase_falls_back (s : St) :
  falls_back env operation s = true ->
  trySupabase env operation fallback s
  = fallback (after_operation env operation s).
Proof.
  unfold falls_back, remote_fails, after_operation, trySupabase.
  destruct (isSupabaseEnabled env); [|reflexivity]. simpl.
  destruct (operation s) as [[r|e] s1]; [|reflexivity]. simpl.
  intros H. rewrite <- negb_orb, H. reflexivity.
Qed.

Lemma trySupabase_remote (s : St) :
  falls_back env operation s = false ->
  exists r, operation s = (Ret r, snd (operation s))
            /\ trySupabase env operation fallback s
               = (Ret (data r), snd (operation s)).
Proof.
  unfold falls_back, remote_fails, trySupabase.
  destruct (isSupabaseEnabled env); [|discriminate]. simpl.
  destruct (operation s) as [[r|e] s1]; [|discriminate]. simpl.
  intros H. exists r. rewrite <- negb_orb, H. split; reflexivity.
Qed.

End wrapper.

(** C1, as the code has it.  With the client disabled the fallback runs on
    the untouched store and the operation is never invoked, whatever it
    is.  With the client enabled the operation runs once; its data is the
    result when it does not throw, its error is falsy ([null], [undefined],
    [false], [0] or the empty string) and its data is not [null]; in every
    other case the fallback runs next and its result is the result. *)
Theorem trySupabase_cases (env : ImportMetaEnv) (St : Type)
    (operation : M St response) (fallback : M St value) (s : St) :
  (isSupabaseEnabled env = false ->
     trySupabase env operation fallback s = fallback s
     /\ forall n : nat,
          fst (snd (trySupabase env (counted operation) (uncounted fallback) (n, s)))
          = n)
  /\ (isSupabaseEnabled env = true ->
      forall r s1, operation s = (Ret r, s1) ->
        (truthy (error r) = false -> data r <> VNull ->
           trySupabase env operation fallback s = (Ret (data r), s1))
        /\ (truthy (error r) = true ->
              trySupabase env operation fallback s = fallback s1)
        /\ (data r = VNull ->
              trySupabase env operation fallback s = fallback s1))
  /\ (isSupabaseEnabled env = true ->
      forall e s1, operation s = (Throw e, s1) ->
        trySupabase env operation fallback s = fallback s1).
Proof.
  unfold trySupabase. split; [|split].
  - intros ->. split; [reflexivity|].
    intros n. unfold uncounted. simpl. destruct (fallback s). reflexivity.
  - intros -> r s1 ->. split; [|split].
    + intros -> Hd. simpl. destruct (data r); try reflexivity. contradiction.
    + intros ->. reflexivity.
    + intros ->. rewrite andb_false_r. reflexivity.
  - intros -> e s1 ->. reflexivity.
Qed.

Lemma trySupabase_cases_witness :
  trySupabase env_enabled
    (ret {| data := VArr [VNum 7]; error := VNull |}) (ret (VArr [])) tt
  = (Ret (VArr [VNum 7]), tt)
  /\ trySupabase env_disabled
       (ret {| data := VArr [VNum 7]; error := VNull |}) (ret (VArr [])) tt
     = (Ret (VArr []), tt).
Proof.
  split.
  - apply (proj1 (proj1 (proj2 (trySupabase_cases env_enabled unit
                                  (ret {| data := VArr [VNum 7]; error := VNull |})
                                  (ret (VArr [])) tt))
                          eq_refl _ _ eq_refl));
      [reflexivity|discriminate].
  - apply (proj1 (proj1 (trySupabase_cases env_disabled unit
                           (ret {| data := VArr [VNum 7]; error := VNull |})
                           (ret (VArr [])) tt) eq_refl)).
Defined.

(** C1, the gap.  An operation that answers data with the error [false]
    has a non-null error: as specified the fallback's result comes back,
    and the code gives the remote data. *)
Lemma trySupabase_falsy_error :
  let operation : M unit response :=
    ret {| data := VNum 1; error := VBool false |} in
  let fallback : M unit value := ret (VNum 2) in
  trySupabase_as_specified env_enabled operation fallback tt = (Ret (VNum 2), tt)
  /\ trySupabase env_enabled operation fallback tt = (Ret (VNum 1), tt).
Proof. split; reflexivity. Qed.

(** ** Registration *)

Section registration.

Import JSON_spec JSON_facts.

Lemma assoc_obj_set_eq (k : string) (x : value) (ps : list (string * value)) :
  assoc k (obj_set k x ps) = Some x.
Proof.
  induction ps as [|[k' y] ps IH]; simpl.
  - rewrite String.eqb_refl. reflexivity.
  - destruct (String.eqb k k') eqn:E; simpl.
    + rewrite String.eqb_refl. reflexivity.
    + rewrite E. exact IH.
Qed.

Lemma assoc_obj_set_ne (k k' : string) (x : value) (ps : list (string * value)) :
  String.eqb k' k = false ->
  assoc k' (obj_set k x ps) = assoc k' ps.
Proof.
  intros Hne. induction ps as [|[k0 y] ps IH]; simpl.
  - rewrite Hne. reflexivity.
  - destruct (String.eqb k k0) eqn:E; simpl.
    + apply String.eqb_eq in E. subst k0. rewrite Hne. reflexivity.
    + rewrite IH. reflexivity.
Qed.






End registration.

(** ** Calls in fallback mode *)

Section fallback_mode.

Variable env : ImportMetaEnv.
Context {Remote : Type}.

Lemma on_remote_fails (op : M Remote response) (w : World Remote) :
  remote_fails (on_remote op) w = remote_fails op (remote w).
Proof.
  unfold remote_fails, on_remote.
  destruct (op (remote w)) as [[r|e] r1]; reflexivity.
Qed.

(** In fallback mode a call is its fallback on the local store; the
    remote store is where the failed operation left it. *)
Lemma api_falls_back (op : M Remote response) (fb : M Local value)
    (w : World Remote) :
  falls_back env op (remote w) = true ->
  trySupabase env (on_remote op) (on_local fb) w
  = (fst (fb (local w)),
     {| remote := after_operation env op (remote w);
        local := snd (fb (local w)) |}).
Proof.
  intros H. rewrite trySupabase_falls_back.
  - unfold after_operation, on_local, on_remote.
    destruct (isSupabaseEnabled env); simpl.
    + destruct (op (remote w)) as [o r1]. simpl.
      destruct (fb (local w)). reflexivity.
    + destruct (fb (local w)). reflexivity.
  - unfold falls_back in *. rewrite on_remote_fails. exact H.
Qed.

End fallback_mode.

Section collections.

Lemma js_filter_readable (p : value -> outcome bool) (q : value -> bool)
    (l : list value) :
  (forall r, nullish r = false -> p r = Ret (q r)) ->
  readable l = true ->
  js_filter p l = Ret (List.filter q l).
Proof.
  intros Hp. induction l as [|x l IH]; [reflexivity|].
  cbn [readable forallb]. intros H. apply andb_true_iff in H as [Hx Hl].
  apply negb_true_iff in Hx. cbn [js_filter].
  rewrite (Hp x Hx), (IH Hl). cbn [obind List.filter].
  destruct (q x); reflexivity.
Qed.

Lemma has_nik_readable (nik : string) (r : value) :
  nullish r = false -> has_nik nik r = Ret (nik_is nik r).
Proof.
  intros Hr. unfold has_nik, nik_is.
  destruct r; try discriminate; simpl; try reflexivity.
Qed.

Lemma has_id_readable (id : Z) (r : value) :
  nullish r = false -> has_id id r = Ret (id_is id r).
Proof.
  intros Hr. unfold has_id, id_is.
  destruct r; try discriminate; simpl; try reflexivity.
Qed.

Lemma other_id_readable (id : Z) (r : value) :
  nullish r = false -> other_id id r = Ret (negb (id_is id r)).
Proof.
  intros Hr. unfold other_id, id_is.
  destruct r; try discriminate; simpl; try reflexivity.
Qed.

End collections.

(** ** Login *)

(** C3.  In fallback mode, with readable registrations stored,
    [loginPatient] answers [found] with exactly the registrations of the
    national ID when there is one, [found] with none when there is none and
    the ID has at least 10 characters, and throws [NIK tidak ditemukan]
    when there is none and the ID is shorter; the local store is as it
    was. *)
Theorem loginPatient_fallback_mode (env : ImportMetaEnv) (Remote : Type)
    (supabase : query -> M Remote response) (nik : string)
    (w : World Remote) (regs : list value) :
  falls_back env (loginPatient_remote supabase nik) (remote w) = true ->
  getMockData "registrations" (VArr []) (localStorage (local w))
  = Ret (VArr regs) ->
  readable regs = true ->
  local (snd (loginPatient env supabase nik w)) = local w
  /\ fst (loginPatient env supabase nik w)
     = match List.filter (nik_is nik) regs with
       | _ :: _ => Ret (found (List.filter (nik_is nik) regs))
       | [] =>
           if Nat.leb 10 (String.length nik) then Ret (found [])
           else Throw (Error "NIK tidak ditemukan")
       end.
Proof.
  intros Hfb Hregs Hread. unfold loginPatient.
  rewrite (api_falls_back env _ _ w Hfb). cbn [fst snd local].
  unfold loginPatient_fallback, bind, get_mock, lift. rewrite Hregs.
  cbn [as_array].
  rewrite (js_filter_readable _ (nik_is nik) regs (has_nik_readable nik) Hread).
  destruct (List.filter (nik_is nik) regs) as [|r rs] eqn:E.
  - change (Nat.ltb 0 (@length value [])) with false. cbv iota.
    destruct (Nat.leb 10 (String.length nik)); split; reflexivity.
  - split; reflexivity.
Qed.

(** ** Updates *)

Section updating.

Import JSON_spec JSON_facts.

Lemma assoc_set_if_truthy (k' k : string) (x : value)
    (u : list (string * value)) :
  assoc k' (set_if_truthy k x u)
  = if String.eqb k' k && truthy x then Some x else assoc k' u.
Proof.
  unfold set_if_truthy. destruct (truthy x).
  - destruct (String.eqb k' k) eqn:E; simpl.
    + apply String.eqb_eq in E. subst k'. apply assoc_obj_set_eq.
    + apply assoc_obj_set_ne, E.
  - rewrite andb_false_r. reflexivity.
Qed.

Lemma assoc_set_if_defined (k' k : string) (x : value)
    (u : list (string * value)) :
  assoc k' (set_if_defined k x u)
  = if String.eqb k' k && defined x then Some x else assoc k' u.
Proof.
  unfold set_if_defined.
  destruct (String.eqb k' k) eqn:E; simpl.
  - apply String.eqb_eq in E. subst k'.
    destruct x; simpl; try apply assoc_obj_set_eq. reflexivity.
  - destruct x; simpl; try (apply assoc_obj_set_ne, E). reflexivity.
Qed.

(** What [updates] holds under a key. *)
Lemma assoc_updates (k : string)
    (status : string) (payment_status : option string) (cost : option Z)
    (payment_detail payment_proof class_type facility_notes : option string) :
  assoc k (updates status payment_status cost payment_detail payment_proof
             class_type facility_notes)
  = if String.eqb k "facility_notes" && defined (opt_str facility_notes)
    then Some (opt_str facility_notes)
    else if String.eqb k "class_type" && defined (opt_str class_type)
    then Some (opt_str class_type)
    else if String.eqb k "payment_proof" && truthy (opt_str payment_proof)
    then Some (opt_str payment_proof)
    else if String.eqb k "payment_detail" && truthy (opt_str payment_detail)
    then Some (opt_str payment_detail)
    else if String.eqb k "cost" && defined (opt_num cost)
    then Some (opt_num cost)
    else if String.eqb k "payment_status" && truthy (opt_str payment_status)
    then Some (opt_str payment_status)
    else if String.eqb k "status" then Some (VStr status)
    else None.
Proof.
  unfold updates.
  rewrite !assoc_set_if_defined, !assoc_set_if_truthy, !assoc_set_if_defined,
    !assoc_set_if_truthy.
  reflexivity.
Qed.

Lemma plain_set_if_truthy (k : string) (x : value) (u : list (string * value)) :
  (truthy x = true -> plain x = true) ->
  plain (VObj u) = true -> plain (VObj (set_if_truthy k x u)) = true.
Proof.
  intros Hx Hu. unfold set_if_truthy.
  destruct (truthy x); [apply plain_obj_set; auto|assumption].
Qed.

Lemma plain_set_if_defined (k : string) (x : value) (u : list (string * value)) :
  (defined x = true -> plain x = true) ->
  plain (VObj u) = true -> plain (VObj (set_if_defined k x u)) = true.
Proof.
  intros Hx Hu. unfold set_if_defined.
  destruct x; try exact Hu; apply plain_obj_set; try assumption;
    apply Hx; reflexivity.
Qed.

Lemma plain_opt_str (o : option string) : plain (opt_str o) = defined (opt_str o).
Proof. destruct o; reflexivity. Qed.

Lemma plain_opt_num (o : option Z) : plain (opt_num o) = defined (opt_num o).
Proof. destruct o; reflexivity. Qed.

Lemma truthy_defined (x : value) : truthy x = true -> defined x = true.
Proof. destruct x; simpl; congruence. Qed.

Lemma plain_updates
    (status : string) (payment_status : option string) (cost : option Z)
    (payment_detail payment_proof class_type facility_notes : option string) :
  plain (VObj (updates status payment_status cost payment_detail payment_proof
                 class_type facility_notes)) = true.
Proof.
  unfold updates.
  repeat first
    [ apply plain_set_if_defined;
      [ rewrite ?plain_opt_str, ?plain_opt_num; trivial | ]
    | apply plain_set_if_truthy;
      [ rewrite ?plain_opt_str; apply truthy_defined | ] ].
  reflexivity.
Qed.

(** The value of a key after a spread of [u] over [acc]. *)
Lemma assoc_fold_set (k : string) (u acc : list (string * value)) :
  distinct (map fst u) = true ->
  assoc k (fold_left set_kv u acc)
  = match assoc k u with
    | Some x => Some x
    | None => assoc k acc
    end.
Proof.
  revert acc. induction u as [|[k0 x0] u IH]; intros acc Hd; [reflexivity|].
  cbn [map fst distinct] in Hd. apply andb_true_iff in Hd as [Hk Hd].
  apply negb_true_iff in Hk.
  cbn [fold_left assoc]. rewrite (IH _ Hd). unfold set_kv at 1. cbn [fst snd].
  destruct (String.eqb k k0) eqn:E.
  - apply String.eqb_eq in E. subst k0.
    assert (Hn : assoc k u = None).
    { clear -Hk. induction u as [|[k1 x1] u IHu]; [reflexivity|].
      simpl in *. apply orb_false_iff in Hk as [-> Hk]. auto. }
    rewrite Hn. apply assoc_obj_set_eq.
  - destruct (assoc k u); [reflexivity|]. apply assoc_obj_set_ne, E.
Qed.

Lemma plain_distinct (ps : list (string * value)) :
  plain (VObj ps) = true -> distinct (map fst ps) = true.
Proof. cbn [plain]. intros H. apply andb_true_iff in H. apply H. Qed.

Lemma plain_fold_set (u acc : list (string * value)) :
  forallb (fun kx => plain (snd kx)) u = true ->
  plain (VObj acc) = true ->
  plain (VObj (fold_left set_kv u acc)) = true.
Proof.
  revert acc. induction u as [|[k x] u IH]; intros acc Hu Hacc; [exact Hacc|].
  cbn [forallb snd] in Hu. apply andb_true_iff in Hu as [Hx Hu].
  cbn [fold_left]. apply IH; [exact Hu|].
  unfold set_kv. apply plain_obj_set; assumption.
Qed.

(** The record after [{ ...rec, ...changes }]: the value of [changes]
    where it has the key, the value of [rec] elsewhere. *)
Lemma assoc_merged (k : string) (rec u : list (string * value)) :
  distinct (map fst rec) = true -> distinct (map fst u) = true ->
  assoc k (merged rec (VObj u))
  = match assoc k u with
    | Some x => Some x
    | None => assoc k rec
    end.
Proof.
  intros Hrec Hu. unfold merged. cbn [fold_left assign_part own_props].
  change (fun acc kx => obj_set (fst kx) (snd kx) acc) with set_kv.
  rewrite (assoc_fold_set k u _ Hu).
  rewrite (fold_set_distinct rec [] Hrec). reflexivity.
Qed.

Lemma plain_merged (rec u : list (string * value)) :
  plain (VObj rec) = true -> plain (VObj u) = true ->
  plain (VObj (merged rec (VObj u))) = true.
Proof.
  intros Hrec Hu. unfold merged. cbn [fold_left assign_part own_props].
  change (fun acc kx => obj_set (fst kx) (snd kx) acc) with set_kv.
  cbn [plain] in Hrec, Hu.
  apply andb_true_iff in Hrec as [_ Hrec]. apply andb_true_iff in Hu as [_ Hu].
  apply plain_fold_set; [exact Hu|].
  apply plain_fold_set; [exact Hrec|reflexivity].
Qed.

Lemma js_findIndex_Some (p : value -> outcome bool) (l : list value) (i : nat) :
  js_findIndex p l = Ret (Some i) ->
  exists r, l !! i = Some r /\ p r = Ret true.
Proof.
  revert i. induction l as [|x l IH]; intros i; [discriminate|].
  cbn [js_findIndex]. destruct (p x) as [[]|e] eqn:E; cbn [obind].
  - intros [= <-]. exists x. split; [reflexivity|exact E].
  - destruct (js_findIndex p l) as [[j|]|e]; cbn [obind fmap option_map];
      try discriminate.
    intros [= <-]. destruct (IH j eq_refl) as (r & Hr & Hp).
    exists r. split; assumption.
  - discriminate.
Qed.

Lemma assoc_id_indexed {A} (f : A -> value) (l : list A) (i : nat) :
  assoc "id" (indexed i (map f l)) = None.
Proof.
  revert i. induction l as [|x l IH]; intros i; [reflexivity|].
  cbn [map indexed assoc]. rewrite IH.
  unfold index_key. destruct (Nat.to_uint i); reflexivity.
Qed.

Lemma chars_map (s : string) :
  chars s = map (fun c => VStr (String c EmptyString)) (list_ascii_of_string s).
Proof. induction s as [|c s IH]; simpl; [|rewrite IH]; reflexivity. Qed.

(** Only an object has the identity the code looks for. *)
Lemma has_id_true (id : Z) (r : value) :
  has_id id r = Ret true ->
  exists ps, r = VObj ps /\ assoc "id" ps = Some (VNum id).
Proof.
  unfold has_id. destruct r as [| |b|n|s|l|ps]; simpl; try discriminate.
  - rewrite chars_map, assoc_id_indexed. discriminate.
  - rewrite <- (map_id l), assoc_id_indexed. discriminate.
  - destruct (assoc "id" ps) as [[| |b|n|s|l|ps']|] eqn:E; simpl;
      try discriminate.
    destruct (Z.eqb_spec n id) as [->|]; [|discriminate].
    intros _. exists ps. split; [reflexivity|exact E].
Qed.

Lemma plain_lookup (l : list value) (i : nat) (r : value) :
  plain (VArr l) = true -> l !! i = Some r -> plain r = true.
Proof.
  cbn [plain]. rewrite forallb_forall. intros H Hi. apply H.
  apply list_elem_of_In. eapply list_elem_of_lookup_2. exact Hi.
Qed.

Lemma plain_insert (l : list value) (i : nat) (r : value) :
  plain (VArr l) = true -> plain r = true ->
  plain (VArr (<[i:=r]> l)) = true.
Proof.
  cbn [plain]. revert i. induction l as [|x l IH]; intros i H Hr; [reflexivity|].
  cbn [forallb] in H. apply andb_true_iff in H as [Hx Hl].
  destruct i; simpl.
  - rewrite Hr, Hl. reflexivity.
  - rewrite Hx, (IH i Hl Hr). reflexivity.
Qed.

Lemma getMockData_plain (key : string) (d v : value) (ls : gmap string string) :
  plain d = true -> getMockData key d ls = Ret v -> plain v = true.
Proof.
  intros Hd. rewrite getMockData_cases. intros [= <-].
  destruct (ls !! key) as [stored|]; [|exact Hd].
  destruct (JSON.parse stored) eqn:E; [|exact Hd].
  exact (parse_plain _ _ E).
Qed.

Lemma update_found_hit (key : string) (id : Z) (changes : value)
    (st : Local) (arr : list value) (i : nat) :
  getMockData key (VArr []) (localStorage st) = Ret (VArr arr) ->
  js_findIndex (has_id id) arr = Ret (Some i) ->
  update_found key id changes st
  = (Ret (VBool true),
     snd (setMockData key (VArr (merge_at i changes arr)) st)).
Proof.
  intros Hg Hi. unfold update_found, bind, get_mock, lift.
  rewrite Hg. cbn [as_array]. rewrite Hi, setMockData_cases. reflexivity.
Qed.

Lemma update_found_miss (key : string) (id : Z) (changes : value)
    (st : Local) (arr : list value) :
  getMockData key (VArr []) (localStorage st) = Ret (VArr arr) ->
  js_findIndex (has_id id) arr = Ret None ->
  update_found key id changes st = (Ret (VBool true), st).
Proof.
  intros Hg Hi. unfold update_found, bind, get_mock, lift.
  rewrite Hg. cbn [as_array]. rewrite Hi. reflexivity.
Qed.

Lemma merge_at_object (i : nat) (changes : value) (arr : list value)
    (rec : list (string * value)) :
  arr !! i = Some (VObj rec) ->
  merge_at i changes arr = <[i := VObj (merged rec changes)]> arr.
Proof. intros H. unfold merge_at. rewrite H. reflexivity. Qed.



End updating.


(** C9.  The optional arguments of [updateRegistration] are not treated
    alike.  A call with an empty [payment_status] or [payment_detail] is
    the call that leaves it out.  In fallback mode, on a stored record and
    when the browser takes the text, the record read back has the [status]
    given, whatever it is; the [payment_status], [payment_detail] and
    [payment_proof] given unless they are empty or left out, and then the
    stored ones; and the [cost], [class_type] and [facility_notes] given
    unless they are left out, so that a [cost] of 0 and an empty
    [class_type] or [facility_notes] replace the stored value. *)
Theorem updateRegistration_optional_arguments
    (env : ImportMetaEnv) (Remote : Type)
    (supabase : query -> M Remote response)
    (id : Z) (status : string) (payment_status : option string)
    (cost : option Z)
    (payment_detail payment_proof class_type facility_notes : option string)
    (w : World Remote) (regs : list value) (i : nat) :
  updateRegistration env supabase id status (Some "") cost payment_detail
    payment_proof class_type facility_notes
  = updateRegistration env supabase id status None cost payment_detail
      payment_proof class_type facility_notes
  /\ updateRegistration env supabase id status payment_status cost (Some "")
       payment_proof class_type facility_notes
     = updateRegistration env supabase id status payment_status cost None
         payment_proof class_type facility_notes
  /\ (falls_back env
        (update_by_id supabase "registrations" id
           (VObj (updates status payment_status cost payment_detail
                    payment_proof class_type facility_notes)))
        (remote w) = true ->
      getMockData "registrations" (VArr []) (localStorage (local w))
      = Ret (VArr regs) ->
      js_findIndex (has_id id) regs = Ret (Some i) ->
      write_accepted "registrations"
        (VArr (merge_at i
                 (VObj (updates status payment_status cost payment_detail
                          payment_proof class_type facility_notes)) regs))
        (local w) = true ->
      exists rec rec' : list (string * value),
        regs !! i = Some (VObj rec)
        /\ getMockData "registrations" (VArr [])
             (localStorage
                (local (snd (updateRegistration env supabase id status
                               payment_status cost payment_detail
                               payment_proof class_type facility_notes w))))
           = Ret (VArr (<[i := VObj rec']> regs))
        /\ assoc "status" rec' = Some (VStr status)
        /\ assoc "payment_status" rec'
           = match payment_status with
             | Some s => if String.eqb s "" then assoc "payment_status" rec
                         else Some (VStr s)
             | None => assoc "payment_status" rec
             end
        /\ assoc "payment_detail" rec'
           = match payment_detail with
             | Some s => if String.eqb s "" then assoc "payment_detail" rec
                         else Some (VStr s)
             | None => assoc "payment_detail" rec
             end
        /\ assoc "payment_proof" rec'
           = match payment_proof with
             | Some s => if String.eqb s "" then assoc "payment_proof" rec
                         else Some (VStr s)
             | None => assoc "payment_proof" rec
             end
        /\ assoc "cost" rec'
           = match cost with
             | Some n => Some (VNum n)
             | None => assoc "cost" rec
             end
        /\ assoc "class_type" rec'
           = match class_type with
             | Some s => Some (VStr s)
             | None => assoc "class_type" rec
             end
        /\ assoc "facility_notes" rec'
           = match facility_notes with
             | Some s => Some (VStr s)
             | None => assoc "facility_notes" rec
             end).
Proof.
  split; [reflexivity|]. split; [reflexivity|].
  intros Hfb Hg Hi Hacc.
  set (u := updates status payment_status cost payment_detail payment_proof
              class_type facility_notes) in *.
  destruct (js_findIndex_Some _ _ _ Hi) as (r & Hr & Hid).
  destruct (has_id_true _ _ Hid) as (rec & -> & _).
  assert (Hregs : JSON_spec.plain (VArr regs) = true)
    by (eapply getMockData_plain; [|exact Hg]; reflexivity).
  assert (Hrec : JSON_spec.plain (VObj rec) = true)
    by (eapply plain_lookup; eassumption).
  assert (Hu : JSON_spec.plain (VObj u) = true) by apply plain_updates.
  exists rec, (merged rec (VObj u)). split; [exact Hr|]. split.
  - unfold updateRegistration. fold u.
    rewrite (api_falls_back env _ _ w Hfb). cbn [fst snd local].
    rewrite (update_found_hit _ _ _ _ _ _ Hg Hi). cbn [fst snd].
    rewrite setMockData_cases, Hacc. cbn [snd localStorage].
    rewrite (merge_at_object _ _ _ _ Hr).
    rewrite getMockData_put by discriminate.
    rewrite JSON_facts.norm_plain; [reflexivity|].
    apply plain_insert; [exact Hregs|]. apply plain_merged; assumption.
  - rewrite !(assoc_merged _ rec u (plain_distinct _ Hrec)
                (plain_distinct _ Hu)).
    unfold u. rewrite !assoc_updates.
    repeat split;
      destruct facility_notes, class_type, payment_proof as [[|? ?]|],
        payment_detail as [[|? ?]|], cost, payment_status as [[|? ?]|];
      reflexivity.
Qed.

(** ** An identity that is not stored *)

Section absent_identity.

Import JSON_spec JSON_facts.

Lemma js_filter_absent (id : Z) (l : list value) :
  readable l = true -> absent id l = true ->
  js_filter (other_id id) l = Ret l.
Proof.
  intros Hr Ha.
  rewrite (js_filter_readable _ (fun r => negb (id_is id r)) l
             (other_id_readable id) Hr).
  f_equal. clear Hr. induction l as [|x l IH]; [reflexivity|].
  cbn [absent forallb] in Ha. apply andb_true_iff in Ha as [Hx Hl].
  cbn [List.filter]. rewrite Hx, (IH Hl). reflexivity.
Qed.

Lemma js_findIndex_absent (id : Z) (l : list value) :
  readable l = true -> absent id l = true ->
  js_findIndex (has_id id) l = Ret None.
Proof.
  induction l as [|x l IH]; [reflexivity|].
  cbn [readable absent forallb]. intros Hr Ha.
  apply andb_true_iff in Hr as [Hx Hr]. apply andb_true_iff in Ha as [Hi Ha].
  apply negb_true_iff in Hx, Hi.
  cbn [js_findIndex]. rewrite (has_id_readable id x Hx), Hi. cbn [obind].
  rewrite (IH Hr Ha). reflexivity.
Qed.

(** Writing back what was read leaves what is read. *)
Lemma write_back (key : string) (d : value) (ls : gmap string string)
    (rows : list value) :
  plain d = true ->
  getMockData key d ls = Ret (VArr rows) ->
  forall d', getMockData key d' (put key (VArr rows) ls)
             = Ret (VArr rows).
Proof.
  intros Hd Hg d'. rewrite getMockData_put by discriminate.
  rewrite norm_plain; [reflexivity|]. exact (getMockData_plain _ _ _ _ Hd Hg).
Qed.

(** The same through [setMockData], whether or not the browser takes the
    text. *)
Lemma setMockData_write_back (key : string) (d : value) (st : Local)
    (rows : list value) :
  plain d = true ->
  getMockData key d (localStorage st) = Ret (VArr rows) ->
  getMockData key d (localStorage (snd (setMockData key (VArr rows) st)))
  = Ret (VArr rows).
Proof.
  intros Hd Hg. rewrite setMockData_cases. cbn [snd].
  destruct (write_accepted key (VArr rows) st); [|exact Hg].
  cbn [localStorage]. exact (write_back key d _ rows Hd Hg d).
Qed.

Lemma delete_fallback_absent (key : string) (id : Z) (st : Local)
    (rows : list value) :
  getMockData key (VArr []) (localStorage st) = Ret (VArr rows) ->
  readable rows = true -> absent id rows = true ->
  delete_fallback key id st
  = (Ret (VBool true), snd (setMockData key (VArr rows) st)).
Proof.
  intros Hg Hr Ha. unfold delete_fallback, bind, get_mock, lift.
  rewrite Hg. cbn [as_array]. rewrite (js_filter_absent id rows Hr Ha).
  cbn [obind]. rewrite setMockData_cases. reflexivity.
Qed.

Lemma deleteDoctor_fallback_absent (id : Z) (st : Local) (docs : list value) :
  getMockData "doctors" (VArr (MOCK_DOCTORS st)) (localStorage st)
  = Ret (VArr docs) ->
  readable docs = true -> absent id docs = true ->
  deleteDoctor_fallback id st
  = (Ret (VBool true), snd (setMockData "doctors" (VArr docs) st)).
Proof.
  intros Hg Hr Ha. unfold deleteDoctor_fallback, bind, get_doctors, lift.
  rewrite Hg. cbn [as_array]. rewrite (js_filter_absent id docs Hr Ha).
  cbn [obind]. rewrite setMockData_cases. reflexivity.
Qed.

Lemma update_fallback_absent (key : string) (id : Z) (data : value)
    (st : Local) (rows : list value) :
  getMockData key (VArr []) (localStorage st) = Ret (VArr rows) ->
  readable rows = true -> absent id rows = true ->
  update_fallback key id data st
  = (Ret (VBool true), snd (setMockData key (VArr rows) st)).
Proof.
  intros Hg Hr Ha. unfold update_fallback, bind, get_mock, lift.
  rewrite Hg. cbn [as_array]. rewrite (js_findIndex_absent id rows Hr Ha).
  cbn [obind]. rewrite setMockData_cases. reflexivity.
Qed.

Lemma updateDoctor_fallback_absent (id : Z) (data : value) (st : Local)
    (docs : list value) :
  getMockData "doctors" (VArr (MOCK_DOCTORS st)) (localStorage st)
  = Ret (VArr docs) ->
  readable docs = true -> absent id docs = true ->
  updateDoctor_fallback id data st = (Ret (VBool true), st).
Proof.
  intros Hg Hr Ha. unfold updateDoctor_fallback, bind, get_doctors, lift.
  rewrite Hg. cbn [as_array]. rewrite (js_findIndex_absent id docs Hr Ha).
  reflexivity.
Qed.

End absent_identity.

(** C6.  In fallback mode, deleting an identity that no stored element has
    answers [true] and the collection read afterwards is the collection
    read before; other keys and [MOCK_DOCTORS] are untouched.  For the
    doctors, whose default is [MOCK_DOCTORS], and for the tables whose
    default is the empty array ([deleteUser], [deleteBPJS],
    [deleteFacility], [deleteRoom], [deleteBank]). *)
Theorem delete_absent (env : ImportMetaEnv) (Remote : Type)
    (supabase : query -> M Remote response) (id : Z) (w : World Remote) :
  (forall docs : list value,
      falls_back env (delete_by_id supabase "doctors" id) (remote w) = true ->
      JSON_spec.plain (VArr (MOCK_DOCTORS (local w))) = true ->
      getMockData "doctors" (VArr (MOCK_DOCTORS (local w)))
        (localStorage (local w)) = Ret (VArr docs) ->
      readable docs = true -> absent id docs = true ->
      let w' := snd (deleteDoctor env supabase id w) in
      fst (deleteDoctor env supabase id w) = Ret (VBool true)
      /\ getMockData "doctors" (VArr (MOCK_DOCTORS (local w')))
           (localStorage (local w')) = Ret (VArr docs)
      /\ MOCK_DOCTORS (local w') = MOCK_DOCTORS (local w)
      /\ forall key, key <> "doctors" ->
           localStorage (local w') !! key = localStorage (local w) !! key)
  /\ (forall (table : string) (rows : list value),
         falls_back env (delete_by_id supabase table id) (remote w) = true ->
         getMockData table (VArr []) (localStorage (local w)) = Ret (VArr rows) ->
         readable rows = true -> absent id rows = true ->
         let w' := snd (delete_row env supabase table id w) in
         fst (delete_row env supabase table id w) = Ret (VBool true)
         /\ getMockData table (VArr []) (localStorage (local w'))
            = Ret (VArr rows)
         /\ MOCK_DOCTORS (local w') = MOCK_DOCTORS (local w)
         /\ forall key, key <> table ->
              localStorage (local w') !! key = localStorage (local w) !! key).
Proof.
  split.
  - intros docs Hfb Hp Hg Hr Ha. unfold deleteDoctor.
    rewrite (api_falls_back env _ _ w Hfb).
    rewrite (deleteDoctor_fallback_absent id _ docs Hg Hr Ha).
    cbn [fst snd local]. rewrite setMockData_MOCK_DOCTORS.
    split; [reflexivity|]. split; [|split; [reflexivity|]].
    + exact (setMockData_write_back _ _ _ _ Hp Hg).
    + intros key Hk. apply setMockData_other_key, Hk.
  - intros table rows Hfb Hg Hr Ha. unfold delete_row.
    rewrite (api_falls_back env _ _ w Hfb).
    rewrite (delete_fallback_absent table id _ rows Hg Hr Ha).
    cbn [fst snd local]. rewrite setMockData_MOCK_DOCTORS.
    split; [reflexivity|]. split; [|split; [reflexivity|]].
    + exact (setMockData_write_back table (VArr []) _ rows eq_refl Hg).
    + intros key Hk. apply setMockData_other_key, Hk.
Qed.

(** C10.  In fallback mode, updating an identity that no stored element
    has answers [true], not an error, and leaves the collection as it was:
    [updateRegistration], [updateMessage] and [updateDoctor] do not write
    at all; the other updates write back what they read, so that the
    collection read afterwards is the collection read before. *)
Theorem update_absent (env : ImportMetaEnv) (Remote : Type)
    (supabase : query -> M Remote response) (id : Z) (data : value)
    (w : World Remote) :
  (forall (status : string) (payment_status : option string) (cost : option Z)
          (payment_detail payment_proof class_type facility_notes
           : option string) (regs : list value),
      falls_back env
        (update_by_id supabase "registrations" id
           (VObj (updates status payment_status cost payment_detail
                    payment_proof class_type facility_notes)))
        (remote w) = true ->
      getMockData "registrations" (VArr []) (localStorage (local w))
      = Ret (VArr regs) ->
      readable regs = true -> absent id regs = true ->
      fst (updateRegistration env supabase id status payment_status cost
             payment_detail payment_proof class_type facility_notes w)
      = Ret (VBool true)
      /\ local (snd (updateRegistration env supabase id status payment_status
                       cost payment_detail payment_proof class_type
                       facility_notes w)) = local w)
  /\ (forall msgs : list value,
         falls_back env (update_by_id supabase "messages" id data) (remote w) = true ->
         getMockData "messages" (VArr []) (localStorage (local w)) = Ret (VArr msgs) ->
         readable msgs = true -> absent id msgs = true ->
         fst (updateMessage env supabase id data w) = Ret (VBool true)
         /\ local (snd (updateMessage env supabase id data w)) = local w)
  /\ (forall docs : list value,
         falls_back env (update_by_id supabase "doctors" id data) (remote w) = true ->
         getMockData "doctors" (VArr (MOCK_DOCTORS (local w)))
           (localStorage (local w)) = Ret (VArr docs) ->
         readable docs = true -> absent id docs = true ->
         fst (updateDoctor env supabase id data w) = Ret (VBool true)
         /\ local (snd (updateDoctor env supabase id data w)) = local w)
  /\ (forall (table : string) (rows : list value),
         falls_back env (update_by_id supabase table id data) (remote w) = true ->
         getMockData table (VArr []) (localStorage (local w)) = Ret (VArr rows) ->
         readable rows = true -> absent id rows = true ->
         let w' := snd (update_row env supabase table id data w) in
         fst (update_row env supabase table id data w) = Ret (VBool true)
         /\ getMockData table (VArr []) (localStorage (local w'))
            = Ret (VArr rows)
         /\ MOCK_DOCTORS (local w') = MOCK_DOCTORS (local w)
         /\ forall key, key <> table ->
              localStorage (local w') !! key = localStorage (local w) !! key).
Proof.
  split; [|split; [|split]].
  - intros status payment_status cost payment_detail payment_proof class_type
      facility_notes regs Hfb Hg Hr Ha. unfold updateRegistration.
    rewrite (api_falls_back env _ _ w Hfb).
    rewrite (update_found_miss _ _ _ _ _ Hg (js_findIndex_absent id regs Hr Ha)).
    split; reflexivity.
  - intros msgs Hfb Hg Hr Ha. unfold updateMessage.
    rewrite (api_falls_back env _ _ w Hfb).
    rewrite (update_found_miss _ _ _ _ _ Hg (js_findIndex_absent id msgs Hr Ha)).
    split; reflexivity.
  - intros docs Hfb Hg Hr Ha. unfold updateDoctor.
    rewrite (api_falls_back env _ _ w Hfb).
    rewrite (updateDoctor_fallback_absent id data _ docs Hg Hr Ha).
    split; reflexivity.
  - intros table rows Hfb Hg Hr Ha. unfold update_row.
    rewrite (api_falls_back env _ _ w Hfb).
    rewrite (update_fallback_absent table id data _ rows Hg Hr Ha).
    cbn [fst snd local]. rewrite setMockData_MOCK_DOCTORS.
    split; [reflexivity|]. split; [|split; [reflexivity|]].
    + exact (setMockData_write_back table (VArr []) _ rows eq_refl Hg).
    + intros key Hk. apply setMockData_other_key, Hk.
Qed.

(** ** One store per call *)

Section one_store.

Variable env : ImportMetaEnv.
Context {Remote : Type}.
Variable supabase : query -> M Remote response.

Lemma api_parts (c : call) (op : M Remote response) (fb : M Local value) :
  parts supabase c = Ret (op, fb) ->
  forall w, api env supabase c w
            = trySupabase env (on_remote op) (on_local fb) w.
Proof.
  destruct c; cbn [parts]; try (intros [= <- <-]; reflexivity).
  intros H w. cbn [api]. unfold registerPatient, bind, lift.
  match type of H with
  | context [newData ?a ?d] => destruct (newData a d) as [nd|e]
  end; [|discriminate].
  cbn [obind] in H. injection H as <- <-. reflexivity.
Qed.

Lemma api_parts_throw (c : call) (e : exn) :
  parts supabase c = Throw e ->
  forall w, api env supabase c w = (Throw e, w).
Proof.
  destruct c; cbn [parts]; try discriminate.
  intros H w. cbn [api]. unfold registerPatient, bind, lift.
  match type of H with
  | context [newData ?a ?d] => destruct (newData a d) as [nd|e']
  end; [discriminate|].
  cbn [obind] in H. injection H as <-. reflexivity.
Qed.

Lemma on_remote_succeeds (op : M Remote response) (fb : M Local value)
    (w : World Remote) :
  falls_back env op (remote w) = false ->
  exists r,
    op (remote w) = (Ret r, snd (op (remote w)))
    /\ trySupabase env (on_remote op) (on_local fb) w
       = (Ret (data r),
          {| remote := snd (op (remote w)); local := local w |}).
Proof.
  intros H.
  destruct (trySupabase_remote env (on_remote op) (on_local fb) w)
    as (r & Hr & Ht).
  { unfold falls_back in *. rewrite on_remote_fails. exact H. }
  rewrite Ht. clear Ht. unfold on_remote in *.
  destruct (op (remote w)) as [o r1]. cbn [fst snd] in *.
  injection Hr as ->. exists r. split; reflexivity.
Qed.

End one_store.

(** C8, as the code has it.  The remote closure of a call works on the
    remote store alone and its fallback on the local store alone.  When the
    remote path succeeds the result is the remote data and the local store
    is as it was.  When the client is disabled the remote store is as it
    was, and the result and the local store are those of the fallback.
    When the client is enabled and the request fails, the fallback runs on
    the local store after the request has run on the remote one: the
    remote store is as the failed request left it, changed or not.  A call
    that throws before either closure runs touches neither. *)
Theorem one_store_per_call (env : ImportMetaEnv) (Remote : Type)
    (supabase : query -> M Remote response) (c : call) (w : World Remote) :
  (forall e, parts supabase c = Throw e -> api env supabase c w = (Throw e, w))
  /\ (forall op fb,
        parts supabase c = Ret (op, fb) ->
        if falls_back env op (remote w)
        then fst (api env supabase c w) = fst (fb (local w))
             /\ local (snd (api env supabase c w)) = snd (fb (local w))
             /\ (isSupabaseEnabled env = false ->
                 remote (snd (api env supabase c w)) = remote w)
             /\ (isSupabaseEnabled env = true ->
                 remote (snd (api env supabase c w)) = snd (op (remote w)))
        else exists r,
               op (remote w) = (Ret r, snd (op (remote w)))
               /\ api env supabase c w
                  = (Ret (data r),
                     {| remote := snd (op (remote w)); local := local w |})).
Proof.
  split.
  - intros e He. apply api_parts_throw, He.
  - intros op fb Hp. rewrite (api_parts env supabase c op fb Hp).
    destruct (falls_back env op (remote w)) eqn:Hfb.
    + rewrite (api_falls_back env op fb w Hfb). cbn [fst snd local remote].
      unfold after_operation.
      repeat split; intros ->; reflexivity.
    + apply on_remote_succeeds, Hfb.
Qed.

(** C8, the gap.  With the client enabled and a request that is carried
    out but answered as failed, one [addUser] writes both stores and
    answers [true]: the remote store has the insert, and the local store
    has the new user. *)
Lemma both_stores_written :
  let c := AddUser sample_ambient (VObj [("name", VStr "Budi")]) in
  let w' := snd (api env_enabled client_flaky c sample_world) in
  fst (api env_enabled client_flaky c sample_world) = Ret (VBool true)
  /\ remote sample_world = []
  /\ remote w' = [Insert "users" [VObj [("name", VStr "Budi")]] false]
  /\ getMockData "users" (VArr []) (localStorage (local sample_world))
     = Ret (VArr sample_users)
  /\ getMockData "users" (VArr []) (localStorage (local w'))
     = Ret (VArr (sample_users
                  ++ [VObj [("id", VNum 1715915565120);
                            ("name", VStr "Budi")]])).
Proof. repeat split; vm_compute; reflexivity. Qed.

(** * The theorems at sample inputs *)



Lemma loginPatient_fallback_mode_witness :
  falls_back env_disabled (loginPatient_remote client_offline "3502011234567890")
    (remote sample_world) = true
  /\ getMockData "registrations" (VArr []) (localStorage (local sample_world))
     = Ret (VArr sample_regs)
  /\ readable sample_regs = true
  /\ local (snd (loginPatient env_disabled client_offline "3502011234567890"
                   sample_world)) = local sample_world
  /\ fst (loginPatient env_disabled client_offline "3502011234567890"
            sample_world)
     = Ret (found [VObj [("id", VNum 1); ("nik", VStr "3502011234567890");
                         ("status", VStr "Pending");
                         ("payment_status", VStr "Unpaid");
                         ("cost", VNum 150000)]]).
Proof.
  assert (H1 : falls_back env_disabled
                 (loginPatient_remote client_offline "3502011234567890")
                 (remote sample_world) = true) by reflexivity.
  assert (H2 : getMockData "registrations" (VArr [])
                 (localStorage (local sample_world)) = Ret (VArr sample_regs))
    by (vm_compute; reflexivity).
  assert (H3 : readable sample_regs = true) by reflexivity.
  split; [exact H1|]. split; [exact H2|]. split; [exact H3|].
  exact (loginPatient_fallback_mode env_disabled (list query) client_offline
           "3502011234567890" sample_world sample_regs H1 H2 H3).
Defined.


Lemma updateRegistration_optional_arguments_witness :
  falls_back env_enabled
    (update_by_id client_offline "registrations" 1
       (VObj (updates "Confirmed" (Some "") (Some 0) None None (Some "") None)))
    (remote sample_world) = true
  /\ getMockData "registrations" (VArr []) (localStorage (local sample_world))
     = Ret (VArr sample_regs)
  /\ js_findIndex (has_id 1) sample_regs = Ret (Some 0%nat)
  /\ write_accepted "registrations"
       (VArr (merge_at 0
                (VObj (updates "Confirmed" (Some "") (Some 0) None None
                         (Some "") None)) sample_regs))
       (local sample_world) = true
  /\ exists rec' : list (string * value),
       getMockData "registrations" (VArr [])
         (localStorage
            (local (snd (updateRegistration env_enabled client_offline 1
                           "Confirmed" (Some "") (Some 0) None None
                           (Some "") None sample_world))))
       = Ret (VArr (<[0%nat := VObj rec']> sample_regs))
       /\ assoc "status" rec' = Some (VStr "Confirmed")
       /\ assoc "payment_status" rec' = Some (VStr "Unpaid")
       /\ assoc "cost" rec' = Some (VNum 0)
       /\ assoc "class_type" rec' = Some (VStr "").
Proof.
  assert (H1 : falls_back env_enabled
                 (update_by_id client_offline "registrations" 1
                    (VObj (updates "Confirmed" (Some "") (Some 0) None None
                             (Some "") None)))
                 (remote sample_world) = true) by reflexivity.
  assert (H2 : getMockData "registrations" (VArr [])
                 (localStorage (local sample_world)) = Ret (VArr sample_regs))
    by (vm_compute; reflexivity).
  assert (H3 : js_findIndex (has_id 1) sample_regs = Ret (Some 0%nat))
    by reflexivity.
  assert (H4 : write_accepted "registrations"
                 (VArr (merge_at 0
                          (VObj (updates "Confirmed" (Some "") (Some 0) None
                                   None (Some "") None)) sample_regs))
                 (local sample_world) = true) by reflexivity.
  split; [exact H1|]. split; [exact H2|]. split; [exact H3|].
  split; [exact H4|].
  destruct (proj2 (proj2
              (updateRegistration_optional_arguments env_enabled (list query)
                 client_offline 1 "Confirmed" (Some "") (Some 0) None None
                 (Some "") None sample_world sample_regs 0%nat)) H1 H2 H3 H4)
    as (rec & rec' & Hrec & Hread & Hst & Hps & _ & _ & Hcost & Hct & _).
  injection Hrec as <-.
  exists rec'. split; [exact Hread|]. split; [exact Hst|].
  split; [exact Hps|]. split; [exact Hcost|exact Hct].
Defined.

Lemma delete_absent_witness :
  (falls_back env_disabled (delete_by_id client_offline "doctors" 9)
     (remote sample_world) = true
   /\ JSON_spec.plain (VArr (MOCK_DOCTORS (local sample_world))) = true
   /\ getMockData "doctors" (VArr (MOCK_DOCTORS (local sample_world)))
        (localStorage (local sample_world)) = Ret (VArr MOCK_DOCTORS_initial)
   /\ readable MOCK_DOCTORS_initial = true
   /\ absent 9 MOCK_DOCTORS_initial = true
   /\ fst (deleteDoctor env_disabled client_offline 9 sample_world)
      = Ret (VBool true)
   /\ getMockData "doctors"
        (VArr (MOCK_DOCTORS
                 (local (snd (deleteDoctor env_disabled client_offline 9
                                sample_world)))))
        (localStorage
           (local (snd (deleteDoctor env_disabled client_offline 9
                          sample_world))))
      = Ret (VArr MOCK_DOCTORS_initial))
  /\ (falls_back env_disabled (delete_by_id client_offline "users" 9)
        (remote sample_world) = true
      /\ getMockData "users" (VArr []) (localStorage (local sample_world))
         = Ret (VArr sample_users)
      /\ readable sample_users = true
      /\ absent 9 sample_users = true
      /\ fst (deleteUser env_disabled client_offline 9 sample_world)
         = Ret (VBool true)
      /\ getMockData "users" (VArr [])
           (localStorage
              (local (snd (deleteUser env_disabled client_offline 9
                             sample_world))))
         = Ret (VArr sample_users)).
Proof.
  pose proof (delete_absent env_disabled (list query) client_offline 9
                sample_world) as [Hdoc Htab].
  split.
  - assert (H1 : falls_back env_disabled (delete_by_id client_offline "doctors" 9)
                   (remote sample_world) = true) by reflexivity.
    assert (H2 : JSON_spec.plain (VArr (MOCK_DOCTORS (local sample_world))) = true)
      by reflexivity.
    assert (H3 : getMockData "doctors" (VArr (MOCK_DOCTORS (local sample_world)))
                   (localStorage (local sample_world))
                 = Ret (VArr MOCK_DOCTORS_initial)) by (vm_compute; reflexivity).
    assert (H4 : readable MOCK_DOCTORS_initial = true) by reflexivity.
    assert (H5 : absent 9 MOCK_DOCTORS_initial = true) by reflexivity.
    destruct (Hdoc MOCK_DOCTORS_initial H1 H2 H3 H4 H5) as (Hr & Hg & _).
    repeat split; assumption.
  - assert (H1 : falls_back env_disabled (delete_by_id client_offline "users" 9)
                   (remote sample_world) = true) by reflexivity.
    assert (H2 : getMockData "users" (VArr []) (localStorage (local sample_world))
                 = Ret (VArr sample_users)) by (vm_compute; reflexivity).
    assert (H3 : readable sample_users = true) by reflexivity.
    assert (H4 : absent 9 sample_users = true) by reflexivity.
    destruct (Htab "users" sample_users H1 H2 H3 H4) as (Hr & Hg & _).
    repeat split; assumption.
Defined.

Lemma update_absent_witness :
  (getMockData "registrations" (VArr []) (localStorage (local sample_world))
   = Ret (VArr sample_regs)
   /\ absent 9 sample_regs = true
   /\ fst (updateRegistration env_disabled client_offline 9 "Confirmed" None
             (Some 0) None None None None sample_world) = Ret (VBool true)
   /\ local (snd (updateRegistration env_disabled client_offline 9 "Confirmed"
                    None (Some 0) None None None None sample_world))
      = local sample_world)
  /\ (getMockData "messages" (VArr []) (localStorage (local sample_world))
      = Ret (VArr [])
      /\ fst (updateMessage env_disabled client_offline 9
                (VObj [("is_read", VBool true)]) sample_world) = Ret (VBool true)
      /\ local (snd (updateMessage env_disabled client_offline 9
                       (VObj [("is_read", VBool true)]) sample_world))
         = local sample_world)
  /\ (getMockData "doctors" (VArr (MOCK_DOCTORS (local sample_world)))
        (localStorage (local sample_world)) = Ret (VArr MOCK_DOCTORS_initial)
      /\ absent 9 MOCK_DOCTORS_initial = true
      /\ fst (updateDoctor env_disabled client_offline 9
                (VObj [("is_read", VBool true)]) sample_world) = Ret (VBool true)
      /\ local (snd (updateDoctor env_disabled client_offline 9
                       (VObj [("is_read", VBool true)]) sample_world))
         = local sample_world)
  /\ (getMockData "users" (VArr []) (localStorage (local sample_world))
      = Ret (VArr sample_users)
      /\ absent 9 sample_users = true
      /\ fst (updateUser env_disabled client_offline 9
                (VObj [("is_read", VBool true)]) sample_world) = Ret (VBool true)
      /\ getMockData "users" (VArr [])
           (localStorage
              (local (snd (updateUser env_disabled client_offline 9
                             (VObj [("is_read", VBool true)]) sample_world))))
         = Ret (VArr sample_users)).
Proof.
  pose proof (update_absent env_disabled (list query) client_offline 9
                (VObj [("is_read", VBool true)]) sample_world)
    as (Hreg & Hmsg & Hdoc & Htab).
  split; [|split; [|split]].
  - assert (H2 : getMockData "registrations" (VArr [])
                   (localStorage (local sample_world)) = Ret (VArr sample_regs))
      by (vm_compute; reflexivity).
    assert (H4 : absent 9 sample_regs = true) by reflexivity.
    destruct (Hreg "Confirmed" None (Some 0) None None None None sample_regs
                eq_refl H2 eq_refl H4) as (Hr & Hl).
    repeat split; assumption.
  - assert (H2 : getMockData "messages" (VArr [])
                   (localStorage (local sample_world)) = Ret (VArr []))
      by (vm_compute; reflexivity).
    destruct (Hmsg [] eq_refl H2 eq_refl eq_refl) as (Hr & Hl).
    repeat split; assumption.
  - assert (H2 : getMockData "doctors" (VArr (MOCK_DOCTORS (local sample_world)))
                   (localStorage (local sample_world))
                 = Ret (VArr MOCK_DOCTORS_initial)) by (vm_compute; reflexivity).
    assert (H4 : absent 9 MOCK_DOCTORS_initial = true) by reflexivity.
    destruct (Hdoc MOCK_DOCTORS_initial eq_refl H2 eq_refl H4) as (Hr & Hl).
    repeat split; assumption.
  - assert (H2 : getMockData "users" (VArr []) (localStorage (local sample_world))
                 = Ret (VArr sample_users)) by (vm_compute; reflexivity).
    assert (H4 : absent 9 sample_users = true) by reflexivity.
    destruct (Htab "users" sample_users eq_refl H2 eq_refl H4) as (Hr & Hg & _).
    repeat split; assumption.
Defined.

Lemma one_store_per_call_witness :
  let c := AddUser sample_ambient (VObj [("name", VStr "Budi")]) in
  let op := insert_one client_flaky "users" (VObj [("name", VStr "Budi")])
              (VBool true) in
  let fb := add_fallback "users" sample_ambient (VObj [("name", VStr "Budi")]) in
  parts client_flaky c = Ret (op, fb)
  /\ falls_back env_enabled op (remote sample_world) = true
  /\ fst (api env_enabled client_flaky c sample_world)
     = fst (fb (local sample_world))
  /\ local (snd (api env_enabled client_flaky c sample_world))
     = snd (fb (local sample_world))
  /\ remote (snd (api env_enabled client_flaky c sample_world))
     = snd (op (remote sample_world)).
Proof.
  intros c op fb.
  assert (H1 : parts client_flaky c = Ret (op, fb)) by reflexivity.
  split; [exact H1|]. split; [reflexivity|].
  destruct (proj2 (one_store_per_call env_enabled (list query) client_flaky c
                     sample_world) op fb H1) as (Hres & Hloc & _ & Hrem).
  split; [exact Hres|]. split; [exact Hloc|exact (Hrem eq_refl)].
Defined.

(** * Further properties of the module *)

(** ** The configuration *)

(** X1.  The client is enabled exactly when both variables are set, the
    URL starts with [http] and the key is not empty. *)
Theorem isSupabaseEnabled_iff (env : ImportMetaEnv) :
  isSupabaseEnabled env = true
  <-> exists url key,
        VITE_SUPABASE_URL env = Some url
        /\ VITE_SUPABASE_ANON_KEY env = Some key
        /\ String.prefix "http" url = true
        /\ key <> "".
Proof.
  unfold isSupabaseEnabled, isValidConfig, supabaseUrl, supabaseKey, nonempty.
  destruct env as [[url|] [key|]]; cbn [VITE_SUPABASE_URL VITE_SUPABASE_ANON_KEY default].
  - split.
    + unfold id. intros H. apply andb_true_iff in H as [H Hp].
      apply andb_true_iff in H as [_ Hk].
      exists url, key. repeat split; try assumption.
      intros ->. discriminate.
    + intros (url' & key' & Hu & Hk0 & Hp & Hk).
      injection Hu as <-. injection Hk0 as <-. unfold id.
      rewrite Hp. destruct (String.eqb_spec key "") as [->|_]; [contradiction|].
      destruct (String.eqb_spec url "") as [->|_]; [discriminate|reflexivity].
  - split; [|intros (? & ? & _ & [=] & _)].
    rewrite andb_false_r. discriminate.
  - split; [discriminate|intros (? & ? & [=] & _)].
  - split; [discriminate|intros (? & ? & [=] & _)].
Qed.

(** ** Writing [undefined] *)

(** X2.  [JSON.stringify(undefined)] is [undefined], which [setItem]
    stores as the text [undefined]: when the browser takes it, the key
    holds a text that does not parse, and reads as the caller's default
    whatever was stored under it before. *)
Theorem setMockData_undefined (key : string) (defaultData : value)
    (st : Local) :
  write_accepted key VUndefined st = true ->
  localStorage (snd (setMockData key VUndefined st)) !! key = Some "undefined"
  /\ JSON.parse "undefined" = Throw SyntaxError
  /\ getMockData key defaultData
       (localStorage (snd (setMockData key VUndefined st)))
     = Ret defaultData.
Proof.
  intros Hacc. rewrite setMockData_cases, Hacc. cbn [snd localStorage].
  unfold put. split; [apply lookup_insert_eq|]. split; [reflexivity|].
  rewrite getMockData_cases, lookup_insert_eq. reflexivity.
Qed.

Lemma setMockData_undefined_witness :
  write_accepted "users" VUndefined sample_local = true
  /\ getMockData "users" (VArr []) (localStorage sample_local)
     = Ret (VArr sample_users)
  /\ getMockData "users" (VArr [])
       (localStorage (snd (setMockData "users" VUndefined sample_local)))
     = Ret (VArr []).
Proof.
  split; [reflexivity|]. split; [vm_compute; reflexivity|].
  exact (proj2 (proj2 (setMockData_undefined "users" (VArr []) sample_local
                         eq_refl))).
Defined.

(** ** Rows that are added *)

Section appending.

Import JSON_spec JSON_facts.

Lemma plain_snoc (rows : list value) (x : value) :
  plain (VArr rows) = true -> plain x = true ->
  plain (VArr (rows ++ [x])) = true.
Proof.
  cbn [plain]. intros Hr Hx. rewrite forallb_app, Hr. simpl.
  rewrite Hx. reflexivity.
Qed.

(** What is read after an element was pushed and the array written. *)
Lemma push_read_back (key : string) (d : value) (ls : gmap string string)
    (rows : list value) (x : value) :
  plain d = true -> getMockData key d ls = Ret (VArr rows) ->
  plain x = true ->
  forall d', getMockData key d' (put key (VArr (rows ++ [x])) ls)
             = Ret (VArr (rows ++ [x])).
Proof.
  intros Hd Hg Hx d'. rewrite getMockData_put by discriminate.
  rewrite norm_plain; [reflexivity|].
  apply plain_snoc; [|exact Hx]. exact (getMockData_plain _ _ _ _ Hd Hg).
Qed.

Lemma assoc_plain (k : string) (x : value) (ps : list (string * value)) :
  plain (VObj ps) = true -> assoc k ps = Some x -> plain x = true.
Proof.
  cbn [plain]. intros H. apply andb_true_iff in H as [_ H].
  induction ps as [|[k' y] ps IH]; [discriminate|].
  cbn [forallb snd] in H. apply andb_true_iff in H as [Hy H].
  cbn [assoc]. destruct (String.eqb k k'); [intros [= <-]; exact Hy|auto].
Qed.

Lemma spread_object (ps acc : list (string * value)) :
  assign_part acc (Spread (VObj ps)) = fold_left set_kv ps acc.
Proof. reflexivity. Qed.

Lemma new_row_object (now : Z) (ps : list (string * value)) :
  new_row now (VObj ps) = fold_left set_kv ps [("id", VNum now)].
Proof. reflexivity. Qed.

Lemma plain_new_row (now : Z) (ps : list (string * value)) :
  plain (VObj ps) = true -> plain (VObj (new_row now (VObj ps))) = true.
Proof.
  intros Hp. rewrite new_row_object. apply plain_fold_set; [|reflexivity].
  cbn [plain] in Hp. apply andb_true_iff in Hp. apply Hp.
Qed.

Lemma assoc_new_row (k : string) (now : Z) (ps : list (string * value)) :
  plain (VObj ps) = true ->
  assoc k (new_row now (VObj ps))
  = match assoc k ps with
    | Some x => Some x
    | None => if String.eqb k "id" then Some (VNum now) else None
    end.
Proof.
  intros Hp. rewrite new_row_object.
  rewrite (assoc_fold_set k ps _ (plain_distinct _ Hp)). reflexivity.
Qed.

Lemma add_fallback_run (key : string) (amb : Ambient) (data : value)
    (st : Local) (rows : list value) :
  getMockData key (VArr []) (localStorage st) = Ret (VArr rows) ->
  add_fallback key amb data st
  = (Ret (VBool true),
     snd (setMockData key (VArr (rows ++ [VObj (new_row (now amb) data)])) st)).
Proof.
  intros Hg. unfold add_fallback, bind, get_mock, lift. rewrite Hg.
  cbn [as_array]. rewrite !setMockData_cases. reflexivity.
Qed.

(** What is read after [setMockData], when the browser takes the text and
    when it does not. *)
Lemma setMockData_read_back (key : string) (data d : value) (st : Local) :
  data <> VUndefined ->
  (write_accepted key data st = true ->
   getMockData key d (localStorage (snd (setMockData key data st)))
   = Ret (JSON.norm data))
  /\ (write_accepted key data st = false ->
      snd (setMockData key data st) = st).
Proof.
  intros Hd. rewrite setMockData_cases. cbn [snd]. split; intros ->.
  - cbn [localStorage]. apply getMockData_put, Hd.
  - reflexivity.
Qed.

End appending.

(** X3.  In fallback mode, an add ([addUser], [addBPJS], [addFacility],
    [addRoom], [addBank]) answers [true] whether or not the browser takes
    the text.  When it does, one row is at the end of the array read
    afterwards: the properties of the argument, and an [id] that is
    [Date.now()] unless the argument brings its own.  When it does not, the
    local store is as it was.  Other keys of the store are untouched. *)
Theorem add_row_stored (env : ImportMetaEnv) (Remote : Type)
    (supabase : query -> M Remote response) (table : string) (amb : Ambient)
    (ps : list (string * value)) (w : World Remote) (rows : list value) :
  falls_back env (insert_one supabase table (VObj ps) (VBool true)) (remote w)
  = true ->
  getMockData table (VArr []) (localStorage (local w)) = Ret (VArr rows) ->
  JSON_spec.plain (VObj ps) = true ->
  fst (add_row env supabase table amb (VObj ps) w) = Ret (VBool true)
  /\ (write_accepted table
        (VArr (rows ++ [VObj (new_row (now amb) (VObj ps))])) (local w) = true ->
      getMockData table (VArr [])
        (localStorage
           (local (snd (add_row env supabase table amb (VObj ps) w))))
      = Ret (VArr (rows ++ [VObj (new_row (now amb) (VObj ps))])))
  /\ (write_accepted table
        (VArr (rows ++ [VObj (new_row (now amb) (VObj ps))])) (local w) = false ->
      local (snd (add_row env supabase table amb (VObj ps) w)) = local w)
  /\ (forall k,
        assoc k (new_row (now amb) (VObj ps))
        = match assoc k ps with
          | Some x => Some x
          | None => if String.eqb k "id" then Some (VNum (now amb)) else None
          end)
  /\ (forall key, key <> table ->
        localStorage (local (snd (add_row env supabase table amb (VObj ps) w)))
          !! key
        = localStorage (local w) !! key).
Proof.
  intros Hfb Hg Hp. unfold add_row.
  rewrite (api_falls_back env _ _ w Hfb).
  rewrite (add_fallback_run table amb (VObj ps) _ rows Hg).
  cbn [fst snd local].
  split; [reflexivity|]. split; [|split; [|split]].
  - intros Hacc. rewrite setMockData_cases, Hacc. cbn [snd localStorage].
    apply (push_read_back table (VArr []) _ rows _ eq_refl Hg).
    apply plain_new_row, Hp.
  - intros Hacc. rewrite setMockData_cases, Hacc. reflexivity.
  - intros k. apply assoc_new_row, Hp.
  - intros key Hk. apply setMockData_other_key, Hk.
Qed.

Lemma add_row_stored_witness :
  falls_back env_disabled
    (insert_one client_offline "users" (VObj [("name", VStr "Budi")]) (VBool true))
    (remote sample_world) = true
  /\ getMockData "users" (VArr []) (localStorage (local sample_world))
     = Ret (VArr sample_users)
  /\ getMockData "users" (VArr [])
       (localStorage
          (local (snd (addUser env_disabled client_offline sample_ambient
                         (VObj [("name", VStr "Budi")]) sample_world))))
     = Ret (VArr (sample_users
                  ++ [VObj [("id", VNum 1715915565120); ("name", VStr "Budi")]]))
  /\ fst (addUser env_disabled client_offline sample_ambient
            (VObj [("name", VStr "Budi")]) sample_world_full) = Ret (VBool true)
  /\ local (snd (addUser env_disabled client_offline sample_ambient
                   (VObj [("name", VStr "Budi")]) sample_world_full))
     = local sample_world_full.
Proof.
  assert (H1 : falls_back env_disabled
                 (insert_one client_offline "users" (VObj [("name", VStr "Budi")])
                    (VBool true)) (remote sample_world) = true) by reflexivity.
  assert (H2 : getMockData "users" (VArr []) (localStorage (local sample_world))
               = Ret (VArr sample_users)) by (vm_compute; reflexivity).
  assert (H3 : getMockData "users" (VArr [])
                 (localStorage (local sample_world_full))
               = Ret (VArr sample_users)) by (vm_compute; reflexivity).
  split; [exact H1|]. split; [exact H2|]. split; [|split].
  - exact (proj1 (proj2 (add_row_stored env_disabled (list query) client_offline
                           "users" sample_ambient [("name", VStr "Budi")]
                           sample_world sample_users H1 H2 eq_refl)) eq_refl).
  - exact (proj1 (add_row_stored env_disabled (list query) client_offline
                    "users" sample_ambient [("name", VStr "Budi")]
                    sample_world_full sample_users eq_refl H3 eq_refl)).
  - exact (proj1 (proj2 (proj2
                    (add_row_stored env_disabled (list query) client_offline
                       "users" sample_ambient [("name", VStr "Budi")]
                       sample_world_full sample_users eq_refl H3 eq_refl)))
             eq_refl).
Defined.

(** ** Messages and registrations that are added *)

Section registering.

Import JSON_spec JSON_facts.

Lemma message_row_object (amb : Ambient) (ps : list (string * value)) :
  message_row amb (VObj ps)
  = obj_set "created_at" (VStr (iso_now amb))
      (obj_set "is_read" (VBool false) (new_row (now amb) (VObj ps))).
Proof. reflexivity. Qed.

Lemma sendMessage_fallback_run (amb : Ambient) (data : value) (st : Local)
    (msgs : list value) :
  getMockData "messages" (VArr []) (localStorage st) = Ret (VArr msgs) ->
  sendMessage_fallback amb data st
  = (Ret (VObj [("message", VStr "success")]),
     snd (setMockData "messages"
            (VArr (msgs ++ [VObj (message_row amb data)])) st)).
Proof.
  intros Hg. unfold sendMessage_fallback, bind, get_mock, lift. rewrite Hg.
  cbn [as_array]. rewrite !setMockData_cases. reflexivity.
Qed.

Lemma not_derived (k : string) :
  existsb (String.eqb k) derived_keys = false ->
  String.eqb k "bookingCode" = false /\ String.eqb k "booking_code" = false
  /\ String.eqb k "payment_status" = false
  /\ String.eqb k "payment_detail" = false /\ String.eqb k "cost" = false
  /\ String.eqb k "status" = false /\ String.eqb k "created_at" = false.
Proof.
  cbn [existsb derived_keys]. intros H.
  repeat (apply orb_false_iff in H as [? H]). auto 10.
Qed.

Lemma plain_js_or_assoc (k t : string) (ps : list (string * value)) :
  plain (VObj ps) = true ->
  plain (js_or (default VUndefined (assoc k ps)) (VStr t)) = true.
Proof.
  intros Hp. unfold js_or. destruct (assoc k ps) as [x|] eqn:E; [|reflexivity].
  cbn [default]. unfold id.
  destruct (truthy x); [|reflexivity]. exact (assoc_plain _ _ _ Hp E).
Qed.

(** The record of [registerPatient] for an object: JSON data, with the
    properties of the argument under every key it does not set itself. *)
Lemma newData_props (amb : Ambient) (ps nd : list (string * value)) :
  plain (VObj ps) = true ->
  newData amb (VObj ps) = Ret (VObj nd) ->
  plain (VObj nd) = true
  /\ assoc "booking_code" nd = Some (VStr (bookingCode (random amb)))
  /\ forall k, existsb (String.eqb k) derived_keys = false ->
               assoc k nd = assoc k ps.
Proof.
  intros Hp. unfold newData. cbn [get_prop obind]. unfold object.
  cbn [fold_left assign_part own_props].
  change (fun acc kx => obj_set (fst kx) (snd kx) acc) with set_kv.
  rewrite (fold_set_distinct ps [] (plain_distinct _ Hp)). cbn [app].
  intros [= <-]. split; [|split].
  - repeat apply plain_obj_set; try exact Hp; try reflexivity.
    destruct (strict_eq _ _); [reflexivity|].
    apply plain_js_or_assoc, Hp.
  - rewrite !assoc_obj_set_ne by reflexivity. apply assoc_obj_set_eq.
  - intros k Hk.
    destruct (not_derived k Hk) as (H1 & H2 & H3 & H4 & H5 & H6 & H7).
    rewrite !assoc_obj_set_ne by assumption. reflexivity.
Qed.

Lemma registerPatient_fallback_run (amb : Ambient) (nd : value) (st : Local)
    (regs : list value) :
  getMockData "registrations" (VArr []) (localStorage st) = Ret (VArr regs) ->
  registerPatient_fallback amb nd st
  = (Ret (VObj [("message", VStr "success");
                ("data", VObj (new_row (now amb) nd))]),
     snd (setMockData "registrations"
            (VArr (regs ++ [VObj (new_row (now amb) nd)])) st)).
Proof.
  intros Hg. unfold registerPatient_fallback, bind, get_mock, lift. rewrite Hg.
  cbn [as_array]. rewrite !setMockData_cases. reflexivity.
Qed.

Lemma registerPatient_run (env : ImportMetaEnv) (Remote : Type)
    (supabase : query -> M Remote response) (amb : Ambient) (data nd : value)
    (w : World Remote) :
  newData amb data = Ret nd ->
  registerPatient env supabase amb data w
  = trySupabase env (on_remote (registerPatient_remote supabase nd))
      (on_local (registerPatient_fallback amb nd)) w.
Proof.
  intros Hnd. unfold registerPatient, bind, lift. rewrite Hnd. reflexivity.
Qed.

Lemma js_some_readable (p : value -> outcome bool) (q : value -> bool)
    (l : list value) :
  (forall r, nullish r = false -> p r = Ret (q r)) ->
  readable l = true ->
  js_some p l = Ret (existsb q l).
Proof.
  intros Hp. induction l as [|x l IH]; [reflexivity|].
  cbn [readable forallb]. intros H. apply andb_true_iff in H as [Hx Hl].
  apply negb_true_iff in Hx. cbn [js_some existsb].
  rewrite (Hp x Hx). cbn [obind]. destruct (q x); [reflexivity|].
  exact (IH Hl).
Qed.

Lemma loginPatient_fallback_run (nik : string) (st : Local) (regs : list value) :
  getMockData "registrations" (VArr []) (localStorage st) = Ret (VArr regs) ->
  readable regs = true ->
  loginPatient_fallback nik st
  = (match List.filter (nik_is nik) regs with
     | _ :: _ => Ret (found (List.filter (nik_is nik) regs))
     | [] =>
         if Nat.leb 10 (String.length nik) then Ret (found [])
         else Throw (Error "NIK tidak ditemukan")
     end, st).
Proof.
  intros Hg Hr. unfold loginPatient_fallback, bind, get_mock, lift.
  rewrite Hg. cbn [as_array].
  rewrite (js_filter_readable _ (nik_is nik) regs (has_nik_readable nik) Hr).
  destruct (List.filter (nik_is nik) regs) as [|r rs] eqn:E.
  - change (Nat.ltb 0 (@length value [])) with false. cbv iota.
    destruct (Nat.leb 10 (String.length nik)); reflexivity.
  - reflexivity.
Qed.

Lemma checkNik_fallback_run (nik : string) (st : Local) (regs : list value) :
  getMockData "registrations" (VArr []) (localStorage st) = Ret (VArr regs) ->
  readable regs = true ->
  checkNik_fallback nik st = (Ret (VBool (existsb (nik_is nik) regs)), st).
Proof.
  intros Hg Hr. unfold checkNik_fallback, bind, get_mock, lift.
  rewrite Hg. cbn [as_array].
  rewrite (js_some_readable _ (nik_is nik) regs (has_nik_readable nik) Hr).
  reflexivity.
Qed.

Lemma readable_snoc (l : list value) (ps : list (string * value)) :
  readable l = true -> readable (l ++ [VObj ps]) = true.
Proof.
  unfold readable. intros H. rewrite forallb_app, H. reflexivity.
Qed.

Lemma existsb_filter (q : value -> bool) (l : list value) :
  existsb q l = true <-> exists r rs, List.filter q l = r :: rs.
Proof.
  induction l as [|x l IH]; cbn [existsb List.filter].
  - split; [discriminate|intros (? & ? & [=])].
  - destruct (q x); [split; eauto|exact IH].
Qed.

End registering.

(** X4.  In fallback mode, [sendMessage] answers [{ message: 'success' }]
    whether or not the browser takes the text.  When it does, one message
    is at the end of the array read afterwards: the properties of the
    argument, [is_read] false and [created_at] the current time whatever
    the argument says, and an [id] that is [Date.now()] unless the argument
    brings its own.  When it does not, the local store is as it was. *)
Theorem sendMessage_stored (env : ImportMetaEnv) (Remote : Type)
    (supabase : query -> M Remote response) (amb : Ambient)
    (ps : list (string * value)) (w : World Remote) (msgs : list value) :
  falls_back env
    (insert_one supabase "messages"
       (object [Spread (VObj ps); Field "is_read" (VBool false)])
       (object [Field "message" (VStr "success")])) (remote w) = true ->
  getMockData "messages" (VArr []) (localStorage (local w)) = Ret (VArr msgs) ->
  JSON_spec.plain (VObj ps) = true ->
  fst (sendMessage env supabase amb (VObj ps) w)
  = Ret (VObj [("message", VStr "success")])
  /\ (write_accepted "messages"
        (VArr (msgs ++ [VObj (message_row amb (VObj ps))])) (local w) = true ->
      getMockData "messages" (VArr [])
        (localStorage (local (snd (sendMessage env supabase amb (VObj ps) w))))
      = Ret (VArr (msgs ++ [VObj (message_row amb (VObj ps))])))
  /\ (write_accepted "messages"
        (VArr (msgs ++ [VObj (message_row amb (VObj ps))])) (local w) = false ->
      local (snd (sendMessage env supabase amb (VObj ps) w)) = local w)
  /\ (forall k,
        assoc k (message_row amb (VObj ps))
        = if String.eqb k "created_at" then Some (VStr (iso_now amb))
          else if String.eqb k "is_read" then Some (VBool false)
          else match assoc k ps with
               | Some x => Some x
               | None =>
                   if String.eqb k "id" then Some (VNum (now amb)) else None
               end).
Proof.
  intros Hfb Hg Hp. unfold sendMessage.
  rewrite (api_falls_back env _ _ w Hfb).
  rewrite (sendMessage_fallback_run amb (VObj ps) _ msgs Hg).
  cbn [fst snd local].
  split; [reflexivity|]. split; [|split].
  - intros Hacc. rewrite setMockData_cases, Hacc. cbn [snd localStorage].
    apply (push_read_back "messages" (VArr []) _ msgs _ eq_refl Hg).
    rewrite message_row_object.
    repeat apply JSON_facts.plain_obj_set; try reflexivity.
    apply plain_new_row, Hp.
  - intros Hacc. rewrite setMockData_cases, Hacc. reflexivity.
  - intros k. rewrite message_row_object.
    destruct (String.eqb k "created_at") eqn:E1.
    { apply String.eqb_eq in E1. subst k. apply assoc_obj_set_eq. }
    rewrite (assoc_obj_set_ne _ _ _ _ E1).
    destruct (String.eqb k "is_read") eqn:E2.
    { apply String.eqb_eq in E2. subst k. apply assoc_obj_set_eq. }
    rewrite (assoc_obj_set_ne _ _ _ _ E2).
    apply assoc_new_row, Hp.
Qed.

(** X5.  In fallback mode, [registerPatient] with an object answers the
    record it built under [data], with an [id] that is [Date.now()] unless
    the argument brings its own, whether or not the browser takes the
    text.  When it does, that record is at the end of the array read
    afterwards; when it does not, the local store is as it was and the
    record answered is stored nowhere.  The properties of the argument are
    kept under every key the record does not set itself. *)
Theorem registerPatient_stored (env : ImportMetaEnv) (Remote : Type)
    (supabase : query -> M Remote response) (amb : Ambient)
    (ps nd : list (string * value)) (w : World Remote) (regs : list value) :
  newData amb (VObj ps) = Ret (VObj nd) ->
  falls_back env (registerPatient_remote supabase (VObj nd)) (remote w) = true ->
  getMockData "registrations" (VArr []) (localStorage (local w))
  = Ret (VArr regs) ->
  JSON_spec.plain (VObj ps) = true ->
  fst (registerPatient env supabase amb (VObj ps) w)
  = Ret (VObj [("message", VStr "success");
               ("data", VObj (new_row (now amb) (VObj nd)))])
  /\ (write_accepted "registrations"
        (VArr (regs ++ [VObj (new_row (now amb) (VObj nd))])) (local w) = true ->
      getMockData "registrations" (VArr [])
        (localStorage
           (local (snd (registerPatient env supabase amb (VObj ps) w))))
      = Ret (VArr (regs ++ [VObj (new_row (now amb) (VObj nd))])))
  /\ (write_accepted "registrations"
        (VArr (regs ++ [VObj (new_row (now amb) (VObj nd))])) (local w) = false ->
      local (snd (registerPatient env supabase amb (VObj ps) w)) = local w)
  /\ (forall k,
        assoc k (new_row (now amb) (VObj nd))
        = match assoc k nd with
          | Some x => Some x
          | None => if String.eqb k "id" then Some (VNum (now amb)) else None
          end)
  /\ (forall k, existsb (String.eqb k) derived_keys = false ->
                assoc k nd = assoc k ps).
Proof.
  intros Hnd Hfb Hg Hp.
  destruct (newData_props amb ps nd Hp Hnd) as (Hpn & _ & Hk).
  rewrite (registerPatient_run env Remote supabase amb _ _ w Hnd).
  rewrite (api_falls_back env _ _ w Hfb).
  rewrite (registerPatient_fallback_run amb (VObj nd) _ regs Hg).
  cbn [fst snd local].
  split; [reflexivity|]. split; [|split; [|split]].
  - intros Hacc. rewrite setMockData_cases, Hacc. cbn [snd localStorage].
    apply (push_read_back "registrations" (VArr []) _ regs _ eq_refl Hg).
    apply plain_new_row, Hpn.
  - intros Hacc. rewrite setMockData_cases, Hacc. reflexivity.
  - intros k. apply assoc_new_row, Hpn.
  - exact Hk.
Qed.

(** X6.  Registration and login compose: after a registration in fallback
    mode whose argument has the national ID [nik] and whose text the
    browser takes, a login with [nik] in fallback mode answers the
    registrations of [nik] stored before and the new one after them, and
    [checkNik] answers [true]. *)
Theorem register_then_login (env : ImportMetaEnv) (Remote : Type)
    (supabase : query -> M Remote response) (amb : Ambient)
    (ps nd : list (string * value)) (nik : string) (w : World Remote)
    (regs : list value) :
  newData amb (VObj ps) = Ret (VObj nd) ->
  falls_back env (registerPatient_remote supabase (VObj nd)) (remote w) = true ->
  getMockData "registrations" (VArr []) (localStorage (local w))
  = Ret (VArr regs) ->
  write_accepted "registrations"
    (VArr (regs ++ [VObj (new_row (now amb) (VObj nd))])) (local w) = true ->
  JSON_spec.plain (VObj ps) = true ->
  readable regs = true ->
  assoc "nik" ps = Some (VStr nik) ->
  (falls_back env (loginPatient_remote supabase nik)
     (remote (snd (registerPatient env supabase amb (VObj ps) w))) = true ->
   fst (loginPatient env supabase nik
          (snd (registerPatient env supabase amb (VObj ps) w)))
   = Ret (found (List.filter (nik_is nik) regs
                 ++ [VObj (new_row (now amb) (VObj nd))])))
  /\ (falls_back env (checkNik_remote supabase nik)
        (remote (snd (registerPatient env supabase amb (VObj ps) w))) = true ->
      fst (checkNik env supabase nik
             (snd (registerPatient env supabase amb (VObj ps) w)))
      = Ret (VBool true)).
Proof.
  intros Hnd Hfb Hg Hacc Hp Hr Hnik.
  destruct (newData_props amb ps nd Hp Hnd) as (Hpn & _ & Hk).
  set (saved := new_row (now amb) (VObj nd)) in *.
  assert (Hsaved : nik_is nik (VObj saved) = true).
  { unfold nik_is, saved. cbn [get_prop].
    rewrite (assoc_new_row "nik" _ _ Hpn), (Hk "nik" eq_refl), Hnik.
    cbn. apply String.eqb_refl. }
  assert (Hg' : getMockData "registrations" (VArr [])
                  (localStorage
                     (local (snd (registerPatient env supabase amb (VObj ps) w))))
                = Ret (VArr (regs ++ [VObj saved]))).
  { rewrite (registerPatient_run env Remote supabase amb _ _ w Hnd).
    rewrite (api_falls_back env _ _ w Hfb).
    rewrite (registerPatient_fallback_run amb (VObj nd) _ regs Hg).
    cbn [fst snd local]. fold saved.
    rewrite setMockData_cases, Hacc. cbn [snd localStorage].
    apply (push_read_back "registrations" (VArr []) _ regs _ eq_refl Hg).
    apply plain_new_row, Hpn. }
  assert (Hr' : readable (regs ++ [VObj saved]) = true)
    by (apply readable_snoc, Hr).
  split.
  - intros Hfb'. unfold loginPatient.
    rewrite (api_falls_back env _ _ _ Hfb'). cbn [fst].
    rewrite (loginPatient_fallback_run nik _ _ Hg' Hr'). cbn [fst].
    rewrite List.filter_app. cbn [List.filter]. rewrite Hsaved.
    destruct (List.filter (nik_is nik) regs); reflexivity.
  - intros Hfb'. unfold checkNik.
    rewrite (api_falls_back env _ _ _ Hfb'). cbn [fst].
    rewrite (checkNik_fallback_run nik _ _ Hg' Hr'). cbn [fst].
    rewrite existsb_app. cbn [existsb]. rewrite Hsaved.
    rewrite orb_true_r. reflexivity.
Qed.

(** X7.  In fallback mode, with readable registrations stored, [checkNik]
    answers whether some registration has the national ID and leaves the
    local store as it was; it answers [true] exactly when a login with the
    same ID finds at least one registration. *)
Theorem checkNik_fallback_mode (env : ImportMetaEnv) (Remote : Type)
    (supabase : query -> M Remote response) (nik : string)
    (w : World Remote) (regs : list value) :
  falls_back env (checkNik_remote supabase nik) (remote w) = true ->
  getMockData "registrations" (VArr []) (localStorage (local w))
  = Ret (VArr regs) ->
  readable regs = true ->
  fst (checkNik env supabase nik w) = Ret (VBool (existsb (nik_is nik) regs))
  /\ local (snd (checkNik env supabase nik w)) = local w
  /\ (falls_back env (loginPatient_remote supabase nik) (remote w) = true ->
      (fst (checkNik env supabase nik w) = Ret (VBool true)
       <-> exists r rs,
             fst (loginPatient env supabase nik w) = Ret (found (r :: rs)))).
Proof.
  intros Hfb Hg Hr. unfold checkNik.
  rewrite (api_falls_back env _ _ w Hfb).
  rewrite (checkNik_fallback_run nik _ _ Hg Hr). cbn [fst snd local].
  split; [reflexivity|]. split; [reflexivity|].
  intros Hfb'. unfold loginPatient.
  rewrite (api_falls_back env _ _ w Hfb'). cbn [fst].
  rewrite (loginPatient_fallback_run nik _ _ Hg Hr). cbn [fst].
  split.
  - intros [= He]. apply existsb_filter in He as (r & rs & E).
    exists r, rs. rewrite E. reflexivity.
  - intros (r & rs & H).
    destruct (List.filter (nik_is nik) regs) as [|r' rs'] eqn:E.
    + destruct (Nat.leb 10 (String.length nik)); discriminate.
    + assert (He : existsb (nik_is nik) regs = true)
        by (apply existsb_filter; eauto).
      rewrite He. reflexivity.
Qed.

(** ** Rows that are deleted *)

Section deleting.

Import JSON_spec JSON_facts.

Lemma plain_filter (q : value -> bool) (l : list value) :
  plain (VArr l) = true -> plain (VArr (List.filter q l)) = true.
Proof.
  cbn [plain]. induction l as [|x l IH]; [reflexivity|].
  cbn [forallb List.filter]. intros H. apply andb_true_iff in H as [Hx Hl].
  destruct (q x); [cbn [forallb]; rewrite Hx|]; auto.
Qed.

Lemma readable_others (id : Z) (l : list value) :
  readable l = true -> readable (others id l) = true.
Proof.
  unfold readable, others. induction l as [|x l IH]; [reflexivity|].
  cbn [forallb List.filter]. intros H. apply andb_true_iff in H as [Hx Hl].
  destruct (negb (id_is id x)); [cbn [forallb]; rewrite Hx|]; auto.
Qed.

Lemma absent_others (id : Z) (l : list value) : absent id (others id l) = true.
Proof.
  unfold absent, others. induction l as [|x l IH]; [reflexivity|].
  cbn [List.filter]. destruct (negb (id_is id x)) eqn:E; [|exact IH].
  cbn [forallb]. rewrite E, IH. reflexivity.
Qed.

Lemma others_absent (id : Z) (l : list value) :
  absent id l = true -> others id l = l.
Proof.
  unfold absent, others. induction l as [|x l IH]; [reflexivity|].
  cbn [forallb List.filter]. intros H. apply andb_true_iff in H as [-> Hl].
  rewrite (IH Hl). reflexivity.
Qed.

Lemma delete_fallback_run (key : string) (id : Z) (st : Local)
    (rows : list value) :
  getMockData key (VArr []) (localStorage st) = Ret (VArr rows) ->
  readable rows = true ->
  delete_fallback key id st
  = (Ret (VBool true), snd (setMockData key (VArr (others id rows)) st)).
Proof.
  intros Hg Hr. unfold delete_fallback, bind, get_mock, lift.
  rewrite Hg. cbn [as_array].
  rewrite (js_filter_readable _ (fun r => negb (id_is id r)) rows
             (other_id_readable id) Hr).
  cbn [obind]. rewrite !setMockData_cases. reflexivity.
Qed.

Lemma others_read_back (key : string) (id : Z) (ls : gmap string string)
    (rows : list value) :
  getMockData key (VArr []) ls = Ret (VArr rows) ->
  getMockData key (VArr []) (put key (VArr (others id rows)) ls)
  = Ret (VArr (others id rows)).
Proof.
  intros Hg. rewrite getMockData_put by discriminate.
  rewrite norm_plain; [reflexivity|]. apply plain_filter.
  exact (getMockData_plain _ (VArr []) _ _ eq_refl Hg).
Qed.

End deleting.

(** X8.  In fallback mode, a delete ([deleteUser], [deleteBPJS],
    [deleteFacility], [deleteRoom], [deleteBank]) answers [true] whether or
    not the browser takes the text.  When it does, every stored element
    that has the identity is gone from the array read afterwards, not only
    the first, and the other elements stay, in their order.  When it does
    not, the local store is as it was.  Other keys of the store are
    untouched. *)
Theorem delete_row_stored (env : ImportMetaEnv) (Remote : Type)
    (supabase : query -> M Remote response) (table : string) (id : Z)
    (w : World Remote) (rows : list value) :
  falls_back env (delete_by_id supabase table id) (remote w) = true ->
  getMockData table (VArr []) (localStorage (local w)) = Ret (VArr rows) ->
  readable rows = true ->
  fst (delete_row env supabase table id w) = Ret (VBool true)
  /\ (write_accepted table (VArr (others id rows)) (local w) = true ->
      getMockData table (VArr [])
        (localStorage (local (snd (delete_row env supabase table id w))))
      = Ret (VArr (others id rows)))
  /\ (write_accepted table (VArr (others id rows)) (local w) = false ->
      local (snd (delete_row env supabase table id w)) = local w)
  /\ absent id (others id rows) = true
  /\ (forall r, In r (others id rows) <-> In r rows /\ id_is id r = false)
  /\ (forall key, key <> table ->
        localStorage (local (snd (delete_row env supabase table id w))) !! key
        = localStorage (local w) !! key).
Proof.
  intros Hfb Hg Hr. unfold delete_row.
  rewrite (api_falls_back env _ _ w Hfb).
  rewrite (delete_fallback_run table id _ rows Hg Hr).
  cbn [fst snd local].
  split; [reflexivity|]. split; [|split; [|split; [|split]]].
  - intros Hacc. rewrite setMockData_cases, Hacc. cbn [snd localStorage].
    apply others_read_back, Hg.
  - intros Hacc. rewrite setMockData_cases, Hacc. reflexivity.
  - apply absent_others.
  - intros r. unfold others. rewrite filter_In, negb_true_iff. reflexivity.
  - intros key Hk. apply setMockData_other_key, Hk.
Qed.

(** X9.  Deleting is idempotent: in fallback mode, after a delete whose
    text the browser took, a second delete of the same identity answers
    [true] and leaves the array the first delete left, whether or not the
    browser takes its text. *)
Theorem delete_row_twice (env : ImportMetaEnv) (Remote : Type)
    (supabase : query -> M Remote response) (table : string) (id : Z)
    (w : World Remote) (rows : list value) :
  falls_back env (delete_by_id supabase table id) (remote w) = true ->
  falls_back env (delete_by_id supabase table id)
    (remote (snd (delete_row env supabase table id w))) = true ->
  getMockData table (VArr []) (localStorage (local w)) = Ret (VArr rows) ->
  write_accepted table (VArr (others id rows)) (local w) = true ->
  readable rows = true ->
  fst (delete_row env supabase table id
         (snd (delete_row env supabase table id w))) = Ret (VBool true)
  /\ getMockData table (VArr [])
       (localStorage
          (local (snd (delete_row env supabase table id
                         (snd (delete_row env supabase table id w))))))
     = getMockData table (VArr [])
         (localStorage (local (snd (delete_row env supabase table id w)))).
Proof.
  intros Hfb Hfb' Hg Hacc Hr.
  assert (Hg1 : getMockData table (VArr [])
                  (localStorage (local (snd (delete_row env supabase table id w))))
                = Ret (VArr (others id rows))).
  { unfold delete_row. rewrite (api_falls_back env _ _ w Hfb).
    rewrite (delete_fallback_run table id _ rows Hg Hr).
    cbn [fst snd local]. rewrite setMockData_cases, Hacc.
    cbn [snd localStorage]. apply others_read_back, Hg. }
  rewrite Hg1.
  set (w1 := snd (delete_row env supabase table id w)) in *.
  unfold delete_row at 1 2.
  rewrite (api_falls_back env _ _ w1 Hfb').
  rewrite (delete_fallback_run table id _ _ Hg1 (readable_others id rows Hr)).
  cbn [fst snd local].
  split; [reflexivity|].
  rewrite (others_absent id (others id rows) (absent_others id rows)).
  exact (setMockData_write_back table (VArr []) _ _ eq_refl Hg1).
Qed.

(** ** Rows that are changed *)

Section changing.

Import JSON_spec JSON_facts.

Lemma plain_defined (x : value) : plain x = true -> defined x = true.
Proof. destruct x; simpl; congruence. Qed.

Lemma existsb_written (k : string) (ps : list (string * value)) :
  existsb (String.eqb k) (map fst ps) = false ->
  existsb (String.eqb k) (map fst (written_props ps)) = false.
Proof.
  unfold written_props. induction ps as [|[k' x] ps IH]; [reflexivity|].
  cbn [map fst existsb List.filter snd]. intros H.
  apply orb_false_iff in H as [Hk H].
  destruct (defined x); [cbn [map fst existsb]; rewrite Hk|]; auto.
Qed.

Lemma distinct_written (ps : list (string * value)) :
  distinct (map fst ps) = true -> distinct (map fst (written_props ps)) = true.
Proof.
  induction ps as [|[k x] ps IH]; [reflexivity|].
  cbn [map fst distinct]. intros H. apply andb_true_iff in H as [Hk H].
  apply negb_true_iff in Hk. unfold written_props. cbn [List.filter snd].
  destruct (defined x); [|exact (IH H)].
  cbn [map fst distinct].
  change (List.filter (fun kx => defined (snd kx)) ps) with (written_props ps).
  rewrite (existsb_written k ps Hk), (IH H). reflexivity.
Qed.

Lemma norm_member (k : string) (x : value) :
  match x with
  | VUndefined => None
  | _ => Some (k, JSON.norm x)
  end = if defined x then Some (k, JSON.norm x) else None.
Proof. destruct x; reflexivity. Qed.

(** An object whose values are JSON data or [undefined] is read back
    without the properties that are [undefined]. *)
Lemma norm_written (ps : list (string * value)) :
  distinct (map fst ps) = true -> plain_or_undefined ps = true ->
  JSON.norm (VObj ps) = VObj (written_props ps).
Proof.
  intros Hd Hp. cbn [JSON.norm]. f_equal.
  assert (E : omap (fun kx : string * value =>
                      match snd kx with
                      | VUndefined => None
                      | _ => Some (fst kx, JSON.norm (snd kx))
                      end) ps = written_props ps).
  { clear Hd. unfold written_props, plain_or_undefined in *.
    induction ps as [|[k x] ps IH]; [reflexivity|].
    cbn [forallb snd] in Hp. apply andb_true_iff in Hp as [Hx Hp].
    specialize (IH Hp). cbn [List.filter snd].
    match goal with
    | |- omap ?F _ = _ =>
        change (omap F ((k, x) :: ps))
          with (match F (k, x) with
                | Some y => y :: omap F ps
                | None => omap F ps
                end)
    end.
    cbn beta. cbn [fst snd]. rewrite IH, (norm_member k x).
    destruct (defined x) eqn:Ed; [|reflexivity].
    cbn [negb] in Hx. rewrite orb_false_r in Hx.
    rewrite (norm_plain x Hx). reflexivity. }
  rewrite E. apply (fold_set_distinct (written_props ps) []).
  apply distinct_written, Hd.
Qed.

Lemma assoc_written (k : string) (ps : list (string * value)) :
  distinct (map fst ps) = true ->
  assoc k (written_props ps)
  = match assoc k ps with
    | Some x => if defined x then Some x else None
    | None => None
    end.
Proof.
  induction ps as [|[k' x] ps IH]; [reflexivity|].
  cbn [map fst distinct]. intros H. apply andb_true_iff in H as [Hk H].
  apply negb_true_iff in Hk. unfold written_props. cbn [List.filter snd assoc].
  change (List.filter (fun kx => defined (snd kx)) ps) with (written_props ps).
  destruct (String.eqb k k') eqn:E.
  - apply String.eqb_eq in E. subst k'.
    destruct (defined x); cbn [assoc]; [rewrite String.eqb_refl; reflexivity|].
    pose proof (existsb_written k ps Hk) as Hw.
    clear -Hw. induction (written_props ps) as [|[k1 y] l IHl]; [reflexivity|].
    cbn [map fst existsb] in Hw. apply orb_false_iff in Hw as [H1 Hw].
    cbn [assoc]. rewrite H1. exact (IHl Hw).
  - destruct (defined x); cbn [assoc]; [rewrite E|]; exact (IH H).
Qed.

Lemma forallb_obj_set (f : value -> bool) (k : string) (x : value)
    (ps : list (string * value)) :
  f x = true -> forallb (fun kx => f (snd kx)) ps = true ->
  forallb (fun kx => f (snd kx)) (obj_set k x ps) = true.
Proof.
  intros Hx. induction ps as [|[k' y] ps IH]; cbn [obj_set forallb snd].
  - rewrite Hx. reflexivity.
  - intros H. apply andb_true_iff in H as [Hy H].
    destruct (String.eqb k k'); cbn [forallb snd].
    + rewrite Hx, H. reflexivity.
    + rewrite Hy, (IH H). reflexivity.
Qed.

Lemma forallb_fold_set (f : value -> bool) (u acc : list (string * value)) :
  forallb (fun kx => f (snd kx)) u = true ->
  forallb (fun kx => f (snd kx)) acc = true ->
  forallb (fun kx => f (snd kx)) (fold_left set_kv u acc) = true.
Proof.
  revert acc. induction u as [|[k x] u IH]; intros acc Hu Hacc; [exact Hacc|].
  cbn [forallb snd] in Hu. apply andb_true_iff in Hu as [Hx Hu].
  cbn [fold_left]. apply IH; [exact Hu|].
  unfold set_kv. apply forallb_obj_set; assumption.
Qed.

Lemma distinct_fold_set (u acc : list (string * value)) :
  distinct (map fst acc) = true ->
  distinct (map fst (fold_left set_kv u acc)) = true.
Proof.
  revert acc. induction u as [|[k x] u IH]; intros acc Hacc; [exact Hacc|].
  cbn [fold_left]. apply IH. unfold set_kv. apply distinct_obj_set, Hacc.
Qed.

Lemma merged_object (rec u : list (string * value)) :
  merged rec (VObj u) = fold_left set_kv u (fold_left set_kv rec []).
Proof. reflexivity. Qed.

(** The merged record is read back without what is [undefined] in it. *)
Lemma norm_merged (rec u : list (string * value)) :
  plain (VObj rec) = true -> plain_or_undefined u = true ->
  JSON.norm (VObj (merged rec (VObj u)))
  = VObj (written_props (merged rec (VObj u))).
Proof.
  intros Hrec Hu. apply norm_written.
  - rewrite merged_object. apply distinct_fold_set, distinct_fold_set.
    reflexivity.
  - rewrite merged_object. unfold plain_or_undefined.
    apply (forallb_fold_set (fun x => plain x || negb (defined x)));
      [exact Hu|].
    apply (forallb_fold_set (fun x => plain x || negb (defined x)));
      [|reflexivity].
    cbn [plain] in Hrec. apply andb_true_iff in Hrec as [_ Hrec].
    clear -Hrec. induction rec as [|[k x] rec IH]; [reflexivity|].
    cbn [forallb snd] in *. apply andb_true_iff in Hrec as [-> Hrec].
    rewrite (IH Hrec). reflexivity.
Qed.

Lemma norm_insert (rows : list value) (i : nat) (x : value) :
  plain (VArr rows) = true ->
  JSON.norm (VArr (<[i := x]> rows)) = VArr (<[i := JSON.norm x]> rows).
Proof.
  cbn [JSON.norm plain]. intros H. f_equal.
  revert i. induction rows as [|y rows IH]; intros i; [reflexivity|].
  cbn [forallb] in H. apply andb_true_iff in H as [Hy H].
  destruct i; cbn [map].
  - change (<[0%nat := x]> (y :: rows)) with (x :: rows).
    change (<[0%nat := JSON.norm x]> (y :: rows)) with (JSON.norm x :: rows).
    cbn [map]. f_equal.
    pose proof (norm_plain (VArr rows) H) as Hn. cbn [JSON.norm] in Hn.
    congruence.
  - change (<[S i := x]> (y :: rows)) with (y :: <[i := x]> rows).
    change (<[S i := JSON.norm x]> (y :: rows))
      with (y :: <[i := JSON.norm x]> rows).
    cbn [map]. rewrite (norm_plain y Hy), (IH H i). reflexivity.
Qed.

(** What is read after a found record was merged with [u] and the array
    written. *)
Lemma merge_read_back (key : string) (ls : gmap string string)
    (rows : list value) (i : nat) (rec u : list (string * value)) :
  getMockData key (VArr []) ls = Ret (VArr rows) ->
  rows !! i = Some (VObj rec) ->
  plain_or_undefined u = true ->
  getMockData key (VArr [])
    (put key (VArr (merge_at i (VObj u) rows)) ls)
  = Ret (VArr (<[i := VObj (written_props (merged rec (VObj u)))]> rows)).
Proof.
  intros Hg Hi Hu.
  assert (Hrows : plain (VArr rows) = true)
    by exact (getMockData_plain _ (VArr []) _ _ eq_refl Hg).
  rewrite getMockData_put by discriminate.
  rewrite (merge_at_object _ _ _ _ Hi), (norm_insert _ _ _ Hrows).
  rewrite (norm_merged rec u (plain_lookup _ _ _ Hrows Hi) Hu). reflexivity.
Qed.

Lemma assoc_written_merged (k : string) (rec u : list (string * value)) :
  plain (VObj rec) = true -> distinct (map fst u) = true ->
  assoc k (written_props (merged rec (VObj u)))
  = match assoc k u with
    | Some x => if defined x then Some x else None
    | None => assoc k rec
    end.
Proof.
  intros Hrec Hu. rewrite assoc_written.
  - rewrite (assoc_merged k rec u (plain_distinct _ Hrec) Hu).
    destruct (assoc k u) as [x|]; [reflexivity|].
    destruct (assoc k rec) as [y|] eqn:E; [|reflexivity].
    rewrite (plain_defined y (assoc_plain _ _ _ Hrec E)). reflexivity.
  - rewrite merged_object. apply distinct_fold_set, distinct_fold_set.
    reflexivity.
Qed.

(** [findIndex] answers the first index. *)
Lemma js_findIndex_first (p : value -> outcome bool) (l : list value) (i : nat) :
  js_findIndex p l = Ret (Some i) ->
  forall j r, (j < i)%nat -> l !! j = Some r -> p r = Ret false.
Proof.
  revert i. induction l as [|x l IH]; intros i; [discriminate|].
  cbn [js_findIndex]. destruct (p x) as [[]|e] eqn:E; cbn [obind].
  - intros [= <-] j r Hj. lia.
  - destruct (js_findIndex p l) as [[i'|]|e]; cbn [obind fmap option_map];
      try discriminate.
    intros [= <-] j r Hj. destruct j as [|j]; cbn.
    + intros [= <-]. exact E.
    + apply (IH i' eq_refl). lia.
  - discriminate.
Qed.

Lemma update_fallback_hit (key : string) (id : Z) (data : value)
    (st : Local) (rows : list value) (i : nat) :
  getMockData key (VArr []) (localStorage st) = Ret (VArr rows) ->
  js_findIndex (has_id id) rows = Ret (Some i) ->
  update_fallback key id data st
  = (Ret (VBool true), snd (setMockData key (VArr (merge_at i data rows)) st)).
Proof.
  intros Hg Hi. unfold update_fallback, bind, get_mock, lift.
  rewrite Hg. cbn [as_array]. rewrite Hi. cbn [obind].
  rewrite !setMockData_cases. reflexivity.
Qed.

End changing.

(** X10.  In fallback mode, an update ([updateUser], [updateBPJS],
    [updateFacility], [updateRoom], [updateBank], and [updateMessage])
    with an object answers [true] whether or not the browser takes the
    text.  When it does, the first stored element that has the identity is
    changed and no other: in the record read back, a key of the argument
    has the argument's value, a key the argument gives as [undefined] is
    gone, and every other key has the value it had.  When it does not, the
    local store is as it was. *)
Theorem update_row_stored (env : ImportMetaEnv) (Remote : Type)
    (supabase : query -> M Remote response) (table : string) (id : Z)
    (u : list (string * value)) (w : World Remote) (rows : list value)
    (i : nat) :
  getMockData table (VArr []) (localStorage (local w)) = Ret (VArr rows) ->
  js_findIndex (has_id id) rows = Ret (Some i) ->
  JSON_spec.distinct (map fst u) = true ->
  plain_or_undefined u = true ->
  exists rec rec' : list (string * value),
    rows !! i = Some (VObj rec)
    /\ (forall j r, (j < i)%nat -> rows !! j = Some r -> has_id id r = Ret false)
    /\ (forall k,
          assoc k rec'
          = match assoc k u with
            | Some x => if defined x then Some x else None
            | None => assoc k rec
            end)
    /\ (falls_back env (update_by_id supabase table id (VObj u)) (remote w)
        = true ->
        fst (update_row env supabase table id (VObj u) w) = Ret (VBool true)
        /\ (write_accepted table (VArr (merge_at i (VObj u) rows)) (local w)
            = true ->
            getMockData table (VArr [])
              (localStorage
                 (local (snd (update_row env supabase table id (VObj u) w))))
            = Ret (VArr (<[i := VObj rec']> rows)))
        /\ (write_accepted table (VArr (merge_at i (VObj u) rows)) (local w)
            = false ->
            local (snd (update_row env supabase table id (VObj u) w))
            = local w))
    /\ (table = "messages" ->
        falls_back env (update_by_id supabase "messages" id (VObj u)) (remote w)
        = true ->
        fst (updateMessage env supabase id (VObj u) w) = Ret (VBool true)
        /\ (write_accepted "messages" (VArr (merge_at i (VObj u) rows))
              (local w) = true ->
            getMockData "messages" (VArr [])
              (localStorage
                 (local (snd (updateMessage env supabase id (VObj u) w))))
            = Ret (VArr (<[i := VObj rec']> rows)))
        /\ (write_accepted "messages" (VArr (merge_at i (VObj u) rows))
              (local w) = false ->
            local (snd (updateMessage env supabase id (VObj u) w)) = local w)).
Proof.
  intros Hg Hi Hd Hu.
  destruct (js_findIndex_Some _ _ _ Hi) as (r & Hr & Hid).
  destruct (has_id_true _ _ Hid) as (rec & -> & _).
  assert (Hrows : JSON_spec.plain (VArr rows) = true)
    by exact (getMockData_plain _ (VArr []) _ _ eq_refl Hg).
  exists rec, (written_props (merged rec (VObj u))).
  split; [exact Hr|]. split; [exact (js_findIndex_first _ _ _ Hi)|].
  split; [|split].
  - intros k. apply assoc_written_merged; [|exact Hd].
    exact (plain_lookup _ _ _ Hrows Hr).
  - intros Hfb. unfold update_row.
    rewrite (api_falls_back env _ _ w Hfb).
    rewrite (update_fallback_hit _ _ _ _ _ _ Hg Hi).
    cbn [fst snd local]. split; [reflexivity|].
    split; intros Hacc; rewrite setMockData_cases, Hacc; [|reflexivity].
    cbn [snd localStorage]. exact (merge_read_back _ _ _ _ _ _ Hg Hr Hu).
  - intros -> Hfb. unfold updateMessage.
    rewrite (api_falls_back env _ _ w Hfb).
    rewrite (update_found_hit _ _ _ _ _ _ Hg Hi).
    cbn [fst snd local]. split; [reflexivity|].
    split; intros Hacc; rewrite setMockData_cases, Hacc; [|reflexivity].
    cbn [snd localStorage]. exact (merge_read_back _ _ _ _ _ _ Hg Hr Hu).
Qed.

(** ** What every call keeps *)

Section invariants.

Import JSON_spec JSON_facts.

Variable I : Local -> Prop.

Lemma preserves_same {A} (m : M Local A) :
  (forall st, snd (m st) = st) -> preserves I m.
Proof. intros H st Hst. rewrite H. exact Hst. Qed.

Lemma preserves_ret {A} (a : A) : preserves I (ret a).
Proof. apply preserves_same. reflexivity. Qed.

Lemma preserves_throw {A} (e : exn) : preserves I (@throw Local A e).
Proof. apply preserves_same. reflexivity. Qed.

Lemma preserves_lift {A} (o : outcome A) : preserves I (lift o).
Proof. apply preserves_same. reflexivity. Qed.

Lemma preserves_get_mock (key : string) (d : value) :
  preserves I (get_mock key d).
Proof. apply preserves_same. reflexivity. Qed.

Lemma preserves_get_doctors : preserves I get_doctors.
Proof. apply preserves_same. reflexivity. Qed.

Lemma preserves_bind {A B} (m : M Local A) (k : A -> M Local B) :
  preserves I m -> (forall a, preserves I (k a)) -> preserves I (bind m k).
Proof.
  intros Hm Hk st Hst. unfold bind. specialize (Hm st Hst).
  destruct (m st) as [[a|e] s1]; cbn [snd] in *; [apply Hk|]; exact Hm.
Qed.

Hypothesis I_setMockData :
  forall key l, preserves I (setMockData key (VArr l)).

Ltac keep :=
  repeat first
    [ apply preserves_ret | apply preserves_throw | apply preserves_lift
    | apply preserves_get_mock | apply preserves_get_doctors
    | apply I_setMockData
    | apply preserves_bind; [|intros ?]
    | match goal with
      | |- preserves _ (match ?x with _ => _ end) => destruct x
      end ].

(** The fallbacks that write with [setMockData] alone keep what
    [setMockData] keeps. *)
Lemma fallbacks_preserve {Remote : Type} (supabase : query -> M Remote response)
    (c : call) (op : M Remote response) (fb : M Local value) :
  changes_doctors c = false ->
  parts supabase c = Ret (op, fb) -> preserves I fb.
Proof.
  destruct c; cbn [changes_doctors parts]; try discriminate; intros _;
    try (intros [= <- <-];
         unfold checkNik_fallback, loginPatient_fallback, sendMessage_fallback,
           update_found, deleteDoctor_fallback, add_fallback, update_fallback,
           delete_fallback;
         keep).
  intros H.
  match type of H with
  | context [newData ?a ?d] => destruct (newData a d) as [nd|e]
  end; [|discriminate].
  cbn [obind] in H. injection H as <- <-.
  unfold registerPatient_fallback. keep.
Qed.

Hypothesis I_mutate_doctors :
  forall l, preserves I (mutate_doctors l).

Lemma doctor_fallbacks_preserve {Remote : Type}
    (supabase : query -> M Remote response)
    (c : call) (op : M Remote response) (fb : M Local value) :
  changes_doctors c = true ->
  parts supabase c = Ret (op, fb) -> preserves I fb.
Proof.
  destruct c; cbn [changes_doctors parts]; try discriminate; intros _;
    intros [= <- <-]; unfold addDoctor_fallback, updateDoctor_fallback;
    repeat first [ apply I_mutate_doctors | progress keep ].
Qed.

End invariants.

Section api_invariants.

Variable env : ImportMetaEnv.
Context {Remote : Type}.
Variable supabase : query -> M Remote response.

(** A call leaves the local store as it was or as its fallback leaves
    it. *)
Lemma api_local (c : call) (w : World Remote) :
  local (snd (api env supabase c w)) = local w
  \/ exists op fb,
       parts supabase c = Ret (op, fb)
       /\ local (snd (api env supabase c w)) = snd (fb (local w)).
Proof.
  destruct (parts supabase c) as [[op fb]|e] eqn:Hp.
  - rewrite (api_parts env supabase c op fb Hp).
    unfold trySupabase, on_remote, on_local.
    destruct (isSupabaseEnabled env).
    + destruct (op (remote w)) as [[r|e] r1]; cbn [local remote].
      * destruct (negb (truthy (error r)) && negb (strict_eq (data r) VNull));
          [left; reflexivity|].
        right. exists op, fb. split; [reflexivity|].
        destruct (fb (local w)). reflexivity.
      * right. exists op, fb. split; [reflexivity|].
        destruct (fb (local w)). reflexivity.
    + right. exists op, fb. split; [reflexivity|].
      destruct (fb (local w)). reflexivity.
  - left. rewrite (api_parts_throw env supabase c e Hp). reflexivity.
Qed.

End api_invariants.

(** X11.  Whatever the configuration, the client and the stores, no call
    but [addDoctor] and [updateDoctor] changes the array [MOCK_DOCTORS]. *)
Theorem MOCK_DOCTORS_kept (env : ImportMetaEnv) (Remote : Type)
    (supabase : query -> M Remote response) (c : call) (w : World Remote) :
  changes_doctors c = false ->
  MOCK_DOCTORS (local (snd (api env supabase c w))) = MOCK_DOCTORS (local w).
Proof.
  intros Hc.
  destruct (api_local env supabase c w) as [->|(op & fb & Hp & ->)];
    [reflexivity|].
  apply (fallbacks_preserve
           (fun st => MOCK_DOCTORS st = MOCK_DOCTORS (local w))
           (fun key l st H => eq_trans (setMockData_MOCK_DOCTORS key (VArr l) st) H)
           supabase c op fb Hc Hp).
  reflexivity.
Qed.

Lemma arrays_only_setMockData (key : string) (l : list value) :
  preserves arrays_only (setMockData key (VArr l)).
Proof.
  intros st Hst key' s. rewrite setMockData_cases. cbn [snd].
  destruct (write_accepted key (VArr l) st); [|apply Hst].
  cbn [localStorage]. unfold put.
  destruct (String.eqb_spec key key') as [<-|Hne].
  - rewrite lookup_insert_eq. intros [= <-].
    exists (map JSON.norm l).
    apply (JSON_facts.parse_stringify (VArr l)).
    apply stored_text_stringify. discriminate.
  - rewrite lookup_insert_ne by exact Hne. apply Hst.
Qed.

Lemma arrays_only_mutate_doctors (l : list value) :
  preserves arrays_only (mutate_doctors l).
Proof.
  intros st Hst key s. cbn [mutate_doctors modify snd].
  destruct (is_default "doctors" (localStorage st)); apply Hst.
Qed.

(** X12.  No call corrupts the local store: when every stored text
    parses to an array before a call, every stored text parses to an array
    after it, whatever the configuration, the client and the arguments. *)
Theorem arrays_only_kept (env : ImportMetaEnv) (Remote : Type)
    (supabase : query -> M Remote response) (c : call) (w : World Remote) :
  arrays_only (local w) -> arrays_only (local (snd (api env supabase c w))).
Proof.
  intros Hw.
  destruct (api_local env supabase c w) as [->|(op & fb & Hp & ->)];
    [exact Hw|].
  destruct (changes_doctors c) eqn:Hc.
  - exact (doctor_fallbacks_preserve arrays_only arrays_only_setMockData
             arrays_only_mutate_doctors supabase c op fb Hc Hp _ Hw).
  - exact (fallbacks_preserve arrays_only arrays_only_setMockData
             supabase c op fb Hc Hp _ Hw).
Qed.

(** The items and the browser are those of [st0]. *)
Lemma same_items_setMockData (st0 : Local) (key : string) (l : list value) :
  (forall k text, accepts st0 k text (localStorage st0) = false) ->
  preserves (same_items st0) (setMockData key (VArr l)).
Proof.
  intros Hfull st [Hls Hacc]. rewrite setMockData_cases. cbn [snd].
  unfold write_accepted. rewrite Hls, Hacc, Hfull. split; assumption.
Qed.

Lemma same_items_mutate_doctors (st0 : Local) (l : list value) :
  preserves (same_items st0) (mutate_doctors l).
Proof.
  intros st Hst. cbn [mutate_doctors modify snd].
  destruct (is_default "doctors" (localStorage st)); exact Hst.
Qed.

(** X21.  In a browser that takes no text, no call changes what
    [localStorage] holds, whatever the configuration, the client and the
    arguments: every write is dropped. *)
Theorem writes_dropped (env : ImportMetaEnv) (Remote : Type)
    (supabase : query -> M Remote response) (c : call) (w : World Remote) :
  (forall key text,
      accepts (local w) key text (localStorage (local w)) = false) ->
  localStorage (local (snd (api env supabase c w))) = localStorage (local w).
Proof.
  intros Hfull.
  destruct (api_local env supabase c w) as [->|(op & fb & Hp & ->)];
    [reflexivity|].
  assert (H0 : same_items (local w) (local w)) by (split; reflexivity).
  destruct (changes_doctors c) eqn:Hc.
  - exact (proj1 (doctor_fallbacks_preserve (same_items (local w))
                    (fun key l => same_items_setMockData _ key l Hfull)
                    (same_items_mutate_doctors _) supabase c op fb Hc Hp _ H0)).
  - exact (proj1 (fallbacks_preserve (same_items (local w))
                    (fun key l => same_items_setMockData _ key l Hfull)
                    supabase c op fb Hc Hp _ H0)).
Qed.

(** ** Stored values that are not arrays, and arguments that are no
    objects *)

(** X13.  When the text stored under a table parses to something that is
    not an array, the list method answers that value as it is, and in
    fallback mode add, update and delete throw a [TypeError] and leave the
    local store as it was. *)
Theorem not_an_array (env : ImportMetaEnv) (Remote : Type)
    (supabase : query -> M Remote response) (table : string) (amb : Ambient)
    (id : Z) (data v : value) (w : World Remote) :
  getMockData table (VArr []) (localStorage (local w)) = Ret v ->
  is_array v = false ->
  (falls_back env (select_all supabase table None) (remote w) = true ->
   fst (get_rows env supabase table w) = Ret v)
  /\ (falls_back env (insert_one supabase table data (VBool true)) (remote w)
      = true ->
      fst (add_row env supabase table amb data w) = Throw TypeError
      /\ local (snd (add_row env supabase table amb data w)) = local w)
  /\ (falls_back env (update_by_id supabase table id data) (remote w) = true ->
      fst (update_row env supabase table id data w) = Throw TypeError
      /\ local (snd (update_row env supabase table id data w)) = local w)
  /\ (falls_back env (delete_by_id supabase table id) (remote w) = true ->
      fst (delete_row env supabase table id w) = Throw TypeError
      /\ local (snd (delete_row env supabase table id w)) = local w).
Proof.
  intros Hg Hv.
  assert (Ha : as_array v = Throw TypeError)
    by (destruct v; try reflexivity; discriminate).
  split; [|split; [|split]]; intros Hfb.
  - unfold get_rows. rewrite (api_falls_back env _ _ w Hfb).
    unfold get_mock. cbn [fst]. exact Hg.
  - unfold add_row. rewrite (api_falls_back env _ _ w Hfb).
    unfold add_fallback, bind, get_mock, lift. rewrite Hg, Ha.
    split; reflexivity.
  - unfold update_row. rewrite (api_falls_back env _ _ w Hfb).
    unfold update_fallback, bind, get_mock, lift. rewrite Hg, Ha.
    split; reflexivity.
  - unfold delete_row. rewrite (api_falls_back env _ _ w Hfb).
    unfold delete_fallback, bind, get_mock, lift. rewrite Hg, Ha.
    split; reflexivity.
Qed.

(** X14.  [registerPatient] with [null] or [undefined] throws a
    [TypeError] before it touches either store, whatever the configuration
    and the client. *)
Theorem registerPatient_nullish (env : ImportMetaEnv) (Remote : Type)
    (supabase : query -> M Remote response) (amb : Ambient) (data : value)
    (w : World Remote) :
  nullish data = true ->
  registerPatient env supabase amb data w = (Throw TypeError, w).
Proof.
  intros Hd. unfold registerPatient, bind, lift, newData.
  destruct data; try discriminate; reflexivity.
Qed.

(** ** Calls on the remote path *)

(** X15.  With the client enabled and a select that answers without an
    error, [loginPatient] answers [found] with the rows, or with none when
    the rows are [null], for every national ID: it does not throw for a
    short unknown ID as the fallback does, and it leaves the local store as
    it was. *)
Theorem loginPatient_remote_mode (env : ImportMetaEnv) (Remote : Type)
    (supabase : query -> M Remote response) (nik : string)
    (w : World Remote) (r : response) (db : Remote) :
  isSupabaseEnabled env = true ->
  supabase (Select "registrations" "*" (Some ("nik", VStr nik)) None) (remote w)
  = (Ret r, db) ->
  truthy (error r) = false ->
  loginPatient env supabase nik w
  = (Ret (VObj [("found", VBool true);
                ("data", if truthy (data r) then data r else VArr [])]),
     {| remote := db; local := local w |}).
Proof.
  intros He Hs Hr.
  unfold loginPatient, trySupabase, on_remote, loginPatient_remote, bind.
  rewrite He, Hs, Hr. reflexivity.
Qed.

(** X16.  With the client enabled and a select that answers without an
    error, [checkNik] answers whether there is a row when the rows are an
    array, and asks the local store when the rows are [null]; with rows it
    leaves the local store out. *)
Theorem checkNik_remote_mode (env : ImportMetaEnv) (Remote : Type)
    (supabase : query -> M Remote response) (nik : string)
    (w : World Remote) (r : response) (db : Remote) :
  isSupabaseEnabled env = true ->
  supabase (Select "registrations" "id" (Some ("nik", VStr nik)) None) (remote w)
  = (Ret r, db) ->
  truthy (error r) = false ->
  (forall rows, data r = VArr rows ->
     checkNik env supabase nik w
     = (Ret (VBool (Nat.ltb 0 (length rows))),
        {| remote := db; local := local w |}))
  /\ (data r = VNull ->
      checkNik env supabase nik w
      = (fst (checkNik_fallback nik (local w)),
         {| remote := db; local := snd (checkNik_fallback nik (local w)) |})).
Proof.
  intros He Hs Hr.
  unfold checkNik, trySupabase, on_remote, on_local, checkNik_remote, bind.
  rewrite He, Hs. cbn [ret ok_with error data local remote]. rewrite Hr.
  split.
  - intros rows ->. destruct rows; reflexivity.
  - intros ->. cbn [js_and truthy negb andb strict_eq].
    destruct (checkNik_fallback nik (local w)). reflexivity.
Qed.

(** X17.  With the client enabled and a select that answers [null] rows
    without an error, the list methods read the local store, but
    [getBanks], which answers [data || []], answers the empty array and
    does not read it. *)
Theorem null_rows (env : ImportMetaEnv) (Remote : Type)
    (supabase : query -> M Remote response) (table : string)
    (w : World Remote) (r : response) (db : Remote) :
  isSupabaseEnabled env = true ->
  supabase (Select table "*" None None) (remote w) = (Ret r, db) ->
  truthy (error r) = false ->
  data r = VNull ->
  get_rows env supabase table w
  = (getMockData table (VArr []) (localStorage (local w)),
     {| remote := db; local := local w |})
  /\ (table = "bank_accounts" ->
      getBanks env supabase w
      = (Ret (VArr []), {| remote := db; local := local w |})).
Proof.
  intros He Hs Hr Hd. split.
  - unfold get_rows, trySupabase, on_remote, on_local, select_all, get_mock.
    rewrite He, Hs, Hr, Hd. destruct w. reflexivity.
  - intros ->.
    unfold getBanks, trySupabase, on_remote, on_local, getBanks_remote, bind.
    rewrite He, Hs. cbn [ret ok_with error data]. rewrite Hr, Hd. reflexivity.
Qed.

(** X18.  With the client enabled and an insert that answers without an
    error, [registerPatient] answers the record it built merged with the
    first row of the answer, the row winning under the keys it has, and
    leaves the local store as it was. *)
Theorem registerPatient_remote_mode (env : ImportMetaEnv) (Remote : Type)
    (supabase : query -> M Remote response) (amb : Ambient)
    (ps nd row : list (string * value)) (rest : list value)
    (w : World Remote) (r : response) (db : Remote) :
  isSupabaseEnabled env = true ->
  JSON_spec.plain (VObj ps) = true ->
  newData amb (VObj ps) = Ret (VObj nd) ->
  supabase (Insert "registrations" [VObj nd] true) (remote w) = (Ret r, db) ->
  truthy (error r) = false ->
  data r = VArr (VObj row :: rest) ->
  JSON_spec.distinct (map fst row) = true ->
  registerPatient env supabase amb (VObj ps) w
  = (Ret (VObj [("message", VStr "success");
                ("data", VObj (merged nd (VObj row)))]),
     {| remote := db; local := local w |})
  /\ forall k,
       assoc k (merged nd (VObj row))
       = match assoc k row with
         | Some x => Some x
         | None => assoc k nd
         end.
Proof.
  intros He Hp Hnd Hs Hr Hd Hrow.
  destruct (newData_props amb ps nd Hp Hnd) as (Hpn & _ & _).
  split.
  - rewrite (registerPatient_run env Remote supabase amb _ _ w Hnd).
    unfold trySupabase, on_remote, registerPatient_remote, bind.
    rewrite He, Hs. cbn [ret ok_with error data]. rewrite Hr, Hd.
    reflexivity.
  - intros k. apply assoc_merged; [|exact Hrow].
    apply plain_distinct, Hpn.
Qed.

(** ** The doctors and [MOCK_DOCTORS] *)

Section doctors.

Import JSON_spec JSON_facts.

Lemma is_default_cases (key : string) (ls : gmap string string) :
  is_default key ls
  = match ls !! key with
    | Some s => match JSON.parse s with Ret _ => false | Throw _ => true end
    | None => true
    end.
Proof.
  unfold is_default. rewrite read_stored_cases.
  destruct (ls !! key) as [s|]; [|reflexivity].
  destruct (JSON.parse s); reflexivity.
Qed.

Lemma addDoctor_fallback_run (amb : Ambient) (data : value) (st : Local)
    (docs : list value) :
  getMockData "doctors" (VArr (MOCK_DOCTORS st)) (localStorage st)
  = Ret (VArr docs) ->
  addDoctor_fallback amb data st
  = (Ret (VBool true),
     if write_accepted "doctors"
          (VArr (docs ++ [VObj (new_row (now amb) data)])) st
     then {| localStorage :=
               put "doctors" (VArr (docs ++ [VObj (new_row (now amb) data)]))
                 (localStorage st);
             accepts := accepts st;
             MOCK_DOCTORS :=
               if is_default "doctors" (localStorage st)
               then docs ++ [VObj (new_row (now amb) data)]
               else MOCK_DOCTORS st |}
     else {| localStorage := localStorage st;
             accepts := accepts st;
             MOCK_DOCTORS :=
               if is_default "doctors" (localStorage st)
               then docs ++ [VObj (new_row (now amb) data)]
               else MOCK_DOCTORS st |}).
Proof.
  intros Hg. unfold addDoctor_fallback, bind, get_doctors, lift. rewrite Hg.
  cbn [as_array mutate_doctors modify ret].
  change (object [Field "id" (VNum (now amb)); Spread data])
    with (VObj (new_row (now amb) data)).
  rewrite setMockData_cases. unfold write_accepted.
  destruct st as [ls acc docs0]. cbn [localStorage accepts MOCK_DOCTORS].
  destruct (is_default "doctors" ls);
    cbn [localStorage accepts MOCK_DOCTORS];
    match goal with |- context [acc ?k ?t ?l] => destruct (acc k t l) end;
    reflexivity.
Qed.

End doctors.

(** X19.  In fallback mode, [addDoctor] answers [true] whether or not the
    browser takes the text.  When no text, or a text that does not parse,
    was stored under [doctors], the array it read is [MOCK_DOCTORS]
    itself, which has the new doctor from then on, and [getDoctors]
    answers the array with the new doctor afterwards even when the write
    was dropped.  When a text that parses was stored, [MOCK_DOCTORS] is as
    it was, and [getDoctors] answers the array with the new doctor when
    the browser took the text and the array without it when it did not. *)
Theorem addDoctor_stored (env : ImportMetaEnv) (Remote : Type)
    (supabase : query -> M Remote response) (amb : Ambient)
    (ps : list (string * value)) (w : World Remote) (docs : list value) :
  falls_back env (insert_one supabase "doctors" (VObj ps) (VBool true))
    (remote w) = true ->
  getMockData "doctors" (VArr (MOCK_DOCTORS (local w))) (localStorage (local w))
  = Ret (VArr docs) ->
  JSON_spec.plain (VArr (MOCK_DOCTORS (local w))) = true ->
  JSON_spec.plain (VObj ps) = true ->
  fst (addDoctor env supabase amb (VObj ps) w) = Ret (VBool true)
  /\ (falls_back env (select_all supabase "doctors" None)
        (remote (snd (addDoctor env supabase amb (VObj ps) w))) = true ->
      fst (getDoctors env supabase (snd (addDoctor env supabase amb (VObj ps) w)))
      = Ret (VArr (if write_accepted "doctors"
                        (VArr (docs ++ [VObj (new_row (now amb) (VObj ps))]))
                        (local w)
                      || is_default "doctors" (localStorage (local w))
                   then docs ++ [VObj (new_row (now amb) (VObj ps))]
                   else docs)))
  /\ (is_default "doctors" (localStorage (local w)) = true ->
      docs = MOCK_DOCTORS (local w)
      /\ MOCK_DOCTORS (local (snd (addDoctor env supabase amb (VObj ps) w)))
         = MOCK_DOCTORS (local w) ++ [VObj (new_row (now amb) (VObj ps))])
  /\ (is_default "doctors" (localStorage (local w)) = false ->
      MOCK_DOCTORS (local (snd (addDoctor env supabase amb (VObj ps) w)))
      = MOCK_DOCTORS (local w))
  /\ is_default "doctors" (localStorage (local w))
     = match localStorage (local w) !! "doctors" with
       | Some s => match JSON.parse s with Ret _ => false | Throw _ => true end
       | None => true
       end.
Proof.
  intros Hfb Hg Hm Hp.
  set (new := VObj (new_row (now amb) (VObj ps))).
  assert (Hdocs : is_default "doctors" (localStorage (local w)) = true ->
                  docs = MOCK_DOCTORS (local w)).
  { intros Hdef. rewrite is_default_cases in Hdef.
    rewrite getMockData_cases in Hg.
    destruct (localStorage (local w) !! "doctors") as [s|];
      [destruct (JSON.parse s); [discriminate|]|]; congruence. }
  assert (Hnew : JSON_spec.plain new = true) by apply plain_new_row, Hp.
  unfold addDoctor. rewrite (api_falls_back env _ _ w Hfb).
  rewrite (addDoctor_fallback_run amb (VObj ps) _ docs Hg).
  cbn [fst snd local]. fold new.
  split; [reflexivity|]. split; [|split; [|split]].
  - intros Hfb'. unfold getDoctors.
    rewrite (api_falls_back env _ _ _ Hfb'). unfold get_doctors.
    cbn [fst local].
    destruct (write_accepted "doctors" (VArr (docs ++ [new])) (local w));
      cbn [localStorage MOCK_DOCTORS orb].
    + apply (push_read_back "doctors" _ _ docs _ Hm Hg), Hnew.
    + destruct (is_default "doctors" (localStorage (local w))) eqn:Hdef.
      * rewrite is_default_cases in Hdef. rewrite getMockData_cases.
        destruct (localStorage (local w) !! "doctors") as [s|];
          [destruct (JSON.parse s); [discriminate|]|]; reflexivity.
      * rewrite getMockData_cases. rewrite getMockData_cases in Hg.
        rewrite is_default_cases in Hdef.
        destruct (localStorage (local w) !! "doctors") as [s|];
          [destruct (JSON.parse s); [exact Hg|]|]; discriminate.
  - intros Hdef. split; [exact (Hdocs Hdef)|].
    rewrite <- (Hdocs Hdef).
    destruct (write_accepted "doctors" (VArr (docs ++ [new])) (local w));
      cbn [MOCK_DOCTORS]; rewrite Hdef; reflexivity.
  - intros Hdef.
    destruct (write_accepted "doctors" (VArr (docs ++ [new])) (local w));
      cbn [MOCK_DOCTORS]; rewrite Hdef; reflexivity.
  - apply is_default_cases.
Qed.

(** ** Writes on the remote path *)

(** X20.  With the client enabled and a request that answers without an
    error, add, update and delete answer [true] whatever rows the answer
    holds, [null] included, and leave the local store as it was: the answer
    does not tell whether a row was changed. *)
Theorem write_remote_mode (env : ImportMetaEnv) (Remote : Type)
    (supabase : query -> M Remote response) (table : string) (amb : Ambient)
    (id : Z) (arg : value) (w : World Remote) (r : response) (db : Remote) :
  isSupabaseEnabled env = true ->
  truthy (error r) = false ->
  (supabase (Insert table [arg] false) (remote w) = (Ret r, db) ->
   add_row env supabase table amb arg w
   = (Ret (VBool true), {| remote := db; local := local w |}))
  /\ (supabase (Update table arg ("id", VNum id)) (remote w) = (Ret r, db) ->
      update_row env supabase table id arg w
      = (Ret (VBool true), {| remote := db; local := local w |}))
  /\ (supabase (Delete table ("id", VNum id)) (remote w) = (Ret r, db) ->
      delete_row env supabase table id w
      = (Ret (VBool true), {| remote := db; local := local w |})).
Proof.
  intros He Hr. split; [|split]; intros Hs.
  - unfold add_row, trySupabase, on_remote, insert_one, bind.
    rewrite He, Hs. cbn [ret ok_with error data]. rewrite Hr. reflexivity.
  - unfold update_row, trySupabase, on_remote, update_by_id, bind.
    rewrite He, Hs. cbn [ret ok_with error data]. rewrite Hr. reflexivity.
  - unfold delete_row, trySupabase, on_remote, delete_by_id, bind.
    rewrite He, Hs. cbn [ret ok_with error data]. rewrite Hr. reflexivity.
Qed.

(** * The further properties at sample inputs *)

Lemma sendMessage_stored_witness :
  getMockData "messages" (VArr []) (localStorage (local sample_world))
  = Ret (VArr [])
  /\ write_accepted "messages"
       (VArr ([] ++ [VObj (message_row sample_ambient
                             (VObj [("name", VStr "Siti");
                                    ("is_read", VBool true)]))]))
       (local sample_world) = true
  /\ getMockData "messages" (VArr [])
       (localStorage
          (local (snd (sendMessage env_disabled client_offline sample_ambient
                         (VObj [("name", VStr "Siti"); ("is_read", VBool true)])
                         sample_world))))
     = Ret (VArr [VObj [("id", VNum 1715915565120); ("name", VStr "Siti");
                        ("is_read", VBool false);
                        ("created_at", VStr "2024-05-17T03:12:45.120Z")]]).
Proof.
  assert (H2 : getMockData "messages" (VArr [])
                 (localStorage (local sample_world)) = Ret (VArr []))
    by (vm_compute; reflexivity).
  split; [exact H2|]. split; [reflexivity|].
  exact (proj1 (proj2 (sendMessage_stored env_disabled (list query)
                         client_offline sample_ambient
                         [("name", VStr "Siti"); ("is_read", VBool true)]
                         sample_world [] eq_refl H2 eq_refl)) eq_refl).
Defined.

Lemma registerPatient_stored_witness :
  newData sample_ambient (VObj sample_patient) = Ret (VObj sample_record)
  /\ getMockData "registrations" (VArr []) (localStorage (local sample_world))
     = Ret (VArr sample_regs)
  /\ getMockData "registrations" (VArr [])
       (localStorage
          (local (snd (registerPatient env_disabled client_offline
                         sample_ambient (VObj sample_patient) sample_world))))
     = Ret (VArr (sample_regs
                  ++ [VObj (("id", VNum 1715915565120) :: sample_record)]))
  /\ local (snd (registerPatient env_disabled client_offline sample_ambient
                   (VObj sample_patient) sample_world_full))
     = local sample_world_full.
Proof.
  assert (H1 : newData sample_ambient (VObj sample_patient)
               = Ret (VObj sample_record)) by (vm_compute; reflexivity).
  assert (H3 : getMockData "registrations" (VArr [])
                 (localStorage (local sample_world)) = Ret (VArr sample_regs))
    by (vm_compute; reflexivity).
  assert (H4 : getMockData "registrations" (VArr [])
                 (localStorage (local sample_world_full))
               = Ret (VArr sample_regs)) by (vm_compute; reflexivity).
  split; [exact H1|]. split; [exact H3|]. split.
  - exact (proj1 (proj2 (registerPatient_stored env_disabled (list query)
                           client_offline sample_ambient sample_patient
                           sample_record sample_world sample_regs
                           H1 eq_refl H3 eq_refl)) eq_refl).
  - exact (proj1 (proj2 (proj2
                    (registerPatient_stored env_disabled (list query)
                       client_offline sample_ambient sample_patient
                       sample_record sample_world_full sample_regs
                       H1 eq_refl H4 eq_refl))) eq_refl).
Defined.

Lemma register_then_login_witness :
  readable sample_regs = true
  /\ assoc "nik" sample_patient = Some (VStr "3502015555555555")
  /\ write_accepted "registrations"
       (VArr (sample_regs
              ++ [VObj (new_row (now sample_ambient) (VObj sample_record))]))
       (local sample_world) = true
  /\ fst (loginPatient env_disabled client_offline "3502015555555555"
            (snd (registerPatient env_disabled client_offline sample_ambient
                    (VObj sample_patient) sample_world)))
     = Ret (found [VObj (("id", VNum 1715915565120) :: sample_record)])
  /\ fst (checkNik env_disabled client_offline "3502015555555555"
            (snd (registerPatient env_disabled client_offline sample_ambient
                    (VObj sample_patient) sample_world)))
     = Ret (VBool true).
Proof.
  assert (H1 : newData sample_ambient (VObj sample_patient)
               = Ret (VObj sample_record)) by (vm_compute; reflexivity).
  assert (H3 : getMockData "registrations" (VArr [])
                 (localStorage (local sample_world)) = Ret (VArr sample_regs))
    by (vm_compute; reflexivity).
  destruct (register_then_login env_disabled (list query) client_offline
              sample_ambient sample_patient sample_record "3502015555555555"
              sample_world sample_regs H1 eq_refl H3 eq_refl eq_refl eq_refl
              eq_refl)
    as [Hlogin Hcheck].
  split; [reflexivity|]. split; [reflexivity|]. split; [reflexivity|].
  split; [exact (Hlogin eq_refl)|exact (Hcheck eq_refl)].
Defined.

Lemma checkNik_fallback_mode_witness :
  getMockData "registrations" (VArr []) (localStorage (local sample_world))
  = Ret (VArr sample_regs)
  /\ readable sample_regs = true
  /\ fst (checkNik env_disabled client_offline "3502011234567890" sample_world)
     = Ret (VBool true)
  /\ fst (checkNik env_disabled client_offline "3502010000000000" sample_world)
     = Ret (VBool false).
Proof.
  assert (H2 : getMockData "registrations" (VArr [])
                 (localStorage (local sample_world)) = Ret (VArr sample_regs))
    by (vm_compute; reflexivity).
  split; [exact H2|]. split; [reflexivity|]. split.
  - exact (proj1 (checkNik_fallback_mode env_disabled (list query)
                    client_offline "3502011234567890" sample_world sample_regs
                    eq_refl H2 eq_refl)).
  - exact (proj1 (checkNik_fallback_mode env_disabled (list query)
                    client_offline "3502010000000000" sample_world sample_regs
                    eq_refl H2 eq_refl)).
Defined.

Lemma delete_row_stored_witness :
  getMockData "rooms" (VArr []) (localStorage (local sample_world_rooms))
  = Ret (VArr sample_rooms)
  /\ readable sample_rooms = true
  /\ write_accepted "rooms" (VArr (others 1 sample_rooms))
       (local sample_world_rooms) = true
  /\ getMockData "rooms" (VArr [])
       (localStorage
          (local (snd (deleteRoom env_disabled client_offline 1
                         sample_world_rooms))))
     = Ret (VArr [VObj [("id", VNum 2); ("name", VStr "Melati")];
                  VObj [("id", VNum 3); ("name", VStr "Dahlia")]]).
Proof.
  assert (H2 : getMockData "rooms" (VArr [])
                 (localStorage (local sample_world_rooms))
               = Ret (VArr sample_rooms)) by (vm_compute; reflexivity).
  split; [exact H2|]. split; [reflexivity|]. split; [reflexivity|].
  exact (proj1 (proj2 (delete_row_stored env_disabled (list query)
                         client_offline "rooms" 1 sample_world_rooms
                         sample_rooms eq_refl H2 eq_refl)) eq_refl).
Defined.

Lemma delete_row_twice_witness :
  getMockData "rooms" (VArr []) (localStorage (local sample_world_rooms))
  = Ret (VArr sample_rooms)
  /\ write_accepted "rooms" (VArr (others 1 sample_rooms))
       (local sample_world_rooms) = true
  /\ fst (deleteRoom env_disabled client_offline 1
            (snd (deleteRoom env_disabled client_offline 1 sample_world_rooms)))
     = Ret (VBool true)
  /\ getMockData "rooms" (VArr [])
       (localStorage
          (local (snd (deleteRoom env_disabled client_offline 1
                         (snd (deleteRoom env_disabled client_offline 1
                                 sample_world_rooms))))))
     = getMockData "rooms" (VArr [])
         (localStorage
            (local (snd (deleteRoom env_disabled client_offline 1
                           sample_world_rooms)))).
Proof.
  assert (H2 : getMockData "rooms" (VArr [])
                 (localStorage (local sample_world_rooms))
               = Ret (VArr sample_rooms)) by (vm_compute; reflexivity).
  split; [exact H2|]. split; [reflexivity|].
  exact (delete_row_twice env_disabled (list query) client_offline
           "rooms" 1 sample_world_rooms sample_rooms eq_refl eq_refl H2
           eq_refl eq_refl).
Defined.

Lemma update_row_stored_witness :
  getMockData "rooms" (VArr []) (localStorage (local sample_world_rooms))
  = Ret (VArr sample_rooms)
  /\ js_findIndex (has_id 1) sample_rooms = Ret (Some 0%nat)
  /\ exists rec' : list (string * value),
       getMockData "rooms" (VArr [])
         (localStorage
            (local (snd (updateRoom env_disabled client_offline 1
                           (VObj [("name", VUndefined); ("beds", VNum 4)])
                           sample_world_rooms))))
       = Ret (VArr (<[0%nat := VObj rec']> sample_rooms))
       /\ assoc "name" rec' = None
       /\ assoc "beds" rec' = Some (VNum 4)
       /\ assoc "id" rec' = Some (VNum 1).
Proof.
  assert (H1 : getMockData "rooms" (VArr [])
                 (localStorage (local sample_world_rooms))
               = Ret (VArr sample_rooms)) by (vm_compute; reflexivity).
  assert (H2 : js_findIndex (has_id 1) sample_rooms = Ret (Some 0%nat))
    by reflexivity.
  split; [exact H1|]. split; [exact H2|].
  destruct (update_row_stored env_disabled (list query) client_offline "rooms"
              1 [("name", VUndefined); ("beds", VNum 4)] sample_world_rooms
              sample_rooms 0%nat H1 H2 eq_refl eq_refl)
    as (rec & rec' & Hrec & _ & Hk & Hrow & _).
  injection Hrec as <-.
  exists rec'. split; [exact (proj1 (proj2 (Hrow eq_refl)) eq_refl)|].
  split; [exact (Hk "name")|]. split; [exact (Hk "beds")|exact (Hk "id")].
Defined.

Lemma MOCK_DOCTORS_kept_witness :
  changes_doctors (DeleteDoctor 1) = false
  /\ MOCK_DOCTORS
       (local (snd (api env_disabled client_offline (DeleteDoctor 1)
                      sample_world)))
     = MOCK_DOCTORS_initial.
Proof.
  split; [reflexivity|].
  exact (MOCK_DOCTORS_kept env_disabled (list query) client_offline
           (DeleteDoctor 1) sample_world eq_refl).
Defined.

Lemma writes_dropped_witness :
  (forall key text,
      accepts (local sample_world_full) key text
        (localStorage (local sample_world_full)) = false)
  /\ fst (api env_disabled client_offline
            (AddUser sample_ambient (VObj [("name", VStr "Budi")]))
            sample_world_full) = Ret (VBool true)
  /\ localStorage
       (local (snd (api env_disabled client_offline
                      (AddUser sample_ambient (VObj [("name", VStr "Budi")]))
                      sample_world_full)))
     = localStorage (local sample_world_full).
Proof.
  assert (H : forall key text,
             accepts (local sample_world_full) key text
               (localStorage (local sample_world_full)) = false)
    by (intros key text; reflexivity).
  split; [exact H|]. split; [vm_compute; reflexivity|].
  exact (writes_dropped env_disabled (list query) client_offline
           (AddUser sample_ambient (VObj [("name", VStr "Budi")]))
           sample_world_full H).
Defined.

Lemma arrays_only_kept_witness :
  arrays_only local_empty
  /\ arrays_only
       (local (snd (api env_disabled client_offline
                      (AddUser sample_ambient (VObj [("name", VStr "Budi")]))
                      {| remote := []; local := local_empty |}))).
Proof.
  assert (H : arrays_only local_empty).
  { intros key s Hs. cbn [local_empty localStorage] in Hs.
    rewrite lookup_empty in Hs. discriminate. }
  split; [exact H|].
  exact (arrays_only_kept env_disabled (list query) client_offline
           (AddUser sample_ambient (VObj [("name", VStr "Budi")]))
           {| remote := []; local := local_empty |} H).
Defined.

Lemma not_an_array_witness :
  getMockData "rooms" (VArr []) (localStorage (local sample_world_object))
  = Ret (VObj [("total", VNum 3)])
  /\ fst (getRooms env_disabled client_offline sample_world_object)
     = Ret (VObj [("total", VNum 3)])
  /\ fst (deleteRoom env_disabled client_offline 1 sample_world_object)
     = Throw TypeError
  /\ local (snd (deleteRoom env_disabled client_offline 1 sample_world_object))
     = local sample_world_object.
Proof.
  assert (H1 : getMockData "rooms" (VArr [])
                 (localStorage (local sample_world_object))
               = Ret (VObj [("total", VNum 3)])) by (vm_compute; reflexivity).
  destruct (not_an_array env_disabled (list query) client_offline "rooms"
              sample_ambient 1 VNull (VObj [("total", VNum 3)])
              sample_world_object H1 eq_refl)
    as (Hget & _ & _ & Hdel).
  split; [exact H1|]. split; [exact (Hget eq_refl)|].
  exact (Hdel eq_refl).
Defined.

Lemma registerPatient_nullish_witness :
  nullish VNull = true
  /\ registerPatient env_enabled client_online sample_ambient VNull sample_world
     = (Throw TypeError, sample_world).
Proof.
  split; [reflexivity|].
  exact (registerPatient_nullish env_enabled (list query) client_online
           sample_ambient VNull sample_world eq_refl).
Defined.

Lemma loginPatient_remote_mode_witness :
  isSupabaseEnabled env_enabled = true
  /\ loginPatient env_enabled (client_answering answer_no_rows) "123"
       sample_world
     = (Ret (found []), sample_world).
Proof.
  split; [reflexivity|].
  exact (loginPatient_remote_mode env_enabled (list query)
           (client_answering answer_no_rows) "123" sample_world
           answer_no_rows [] eq_refl eq_refl eq_refl).
Defined.

Lemma checkNik_remote_mode_witness :
  isSupabaseEnabled env_enabled = true
  /\ checkNik env_enabled (client_answering answer_row) "123" sample_world
     = (Ret (VBool true), sample_world).
Proof.
  split; [reflexivity|].
  exact (proj1 (checkNik_remote_mode env_enabled (list query)
                  (client_answering answer_row) "123" sample_world
                  answer_row [] eq_refl eq_refl eq_refl) _ eq_refl).
Defined.

Lemma null_rows_witness :
  isSupabaseEnabled env_enabled = true
  /\ getBanks env_enabled (client_answering answer_null) sample_world
     = (Ret (VArr []), sample_world)
  /\ get_rows env_enabled (client_answering answer_null) "bank_accounts"
       sample_world
     = (getMockData "bank_accounts" (VArr [])
          (localStorage (local sample_world)), sample_world).
Proof.
  destruct (null_rows env_enabled (list query) (client_answering answer_null)
              "bank_accounts" sample_world answer_null [] eq_refl eq_refl
              eq_refl eq_refl) as [Hrows Hbanks].
  split; [reflexivity|]. split; [exact (Hbanks eq_refl)|exact Hrows].
Defined.

Lemma registerPatient_remote_mode_witness :
  newData sample_ambient (VObj sample_patient) = Ret (VObj sample_record)
  /\ snd (registerPatient env_enabled (client_answering answer_row)
            sample_ambient (VObj sample_patient) sample_world)
     = sample_world
  /\ assoc "status"
       (merged sample_record
          (VObj [("id", VNum 42); ("status", VStr "Queued")]))
     = Some (VStr "Queued").
Proof.
  assert (H1 : newData sample_ambient (VObj sample_patient)
               = Ret (VObj sample_record)) by (vm_compute; reflexivity).
  destruct (registerPatient_remote_mode env_enabled (list query)
              (client_answering answer_row) sample_ambient sample_patient
              sample_record [("id", VNum 42); ("status", VStr "Queued")] []
              sample_world answer_row [] eq_refl eq_refl H1 eq_refl eq_refl
              eq_refl eq_refl) as [Hrun Hk].
  split; [exact H1|]. split; [exact (f_equal snd Hrun)|exact (Hk "status")].
Defined.

Lemma addDoctor_stored_witness :
  getMockData "doctors" (VArr (MOCK_DOCTORS (local sample_world_full)))
    (localStorage (local sample_world_full)) = Ret (VArr MOCK_DOCTORS_initial)
  /\ is_default "doctors" (localStorage (local sample_world_full)) = true
  /\ write_accepted "doctors"
       (VArr (MOCK_DOCTORS_initial
              ++ [VObj (new_row (now sample_ambient)
                          (VObj [("name", VStr "dr. Budi")]))]))
       (local sample_world_full) = false
  /\ MOCK_DOCTORS
       (local (snd (addDoctor env_disabled client_offline sample_ambient
                      (VObj [("name", VStr "dr. Budi")]) sample_world_full)))
     = MOCK_DOCTORS_initial
       ++ [VObj [("id", VNum 1715915565120); ("name", VStr "dr. Budi")]]
  /\ fst (getDoctors env_disabled client_offline
            (snd (addDoctor env_disabled client_offline sample_ambient
                    (VObj [("name", VStr "dr. Budi")]) sample_world_full)))
     = Ret (VArr (MOCK_DOCTORS_initial
                  ++ [VObj [("id", VNum 1715915565120);
                            ("name", VStr "dr. Budi")]])).
Proof.
  assert (H2 : getMockData "doctors"
                 (VArr (MOCK_DOCTORS (local sample_world_full)))
                 (localStorage (local sample_world_full))
               = Ret (VArr MOCK_DOCTORS_initial)) by (vm_compute; reflexivity).
  assert (H3 : is_default "doctors" (localStorage (local sample_world_full))
               = true) by (vm_compute; reflexivity).
  destruct (addDoctor_stored env_disabled (list query) client_offline
              sample_ambient [("name", VStr "dr. Budi")] sample_world_full
              MOCK_DOCTORS_initial eq_refl H2 eq_refl eq_refl)
    as (_ & Hget & Hdef & _).
  split; [exact H2|]. split; [exact H3|]. split; [reflexivity|].
  split; [exact (proj2 (Hdef H3))|].
  pose proof (Hget eq_refl) as Hd. rewrite H3, orb_true_r in Hd. exact Hd.
Defined.

Lemma write_remote_mode_witness :
  isSupabaseEnabled env_enabled = true
  /\ delete_row env_enabled (client_answering answer_null) "users" 5
       sample_world
     = (Ret (VBool true), sample_world).
Proof.
  split; [reflexivity|].
  exact (proj2 (proj2 (write_remote_mode env_enabled (list query)
                         (client_answering answer_null) "users" sample_ambient
                         5 VNull sample_world answer_null [] eq_refl eq_refl))
           eq_refl).
Defined.
